(** * Price-deviation watcher (price-word.py)

    A shallow embedding of the polling cycle of [price-word.py]: the two
    full-market fetches ([get_coincatch_prices], [get_wallex_usdt_markets]),
    the per-symbol last-trade fetch ([get_wallex_last_trade_price]), the
    evaluation loop of [analyze_prices] with its nested [escape_markdown],
    the notifier ([send_telegram_message]), and the process around the
    cycle ([load_config], [main]).

    Conventions of the embedding.
    - A Python [str] is a [string] of bytes (its UTF-8 encoding).  Every
      character the program inspects is ASCII, and no byte of a multi-byte
      UTF-8 sequence is an ASCII byte, so working on bytes is working on
      code points as far as this program can tell.
    - A decoded JSON document is a [json] value; a JSON object keeps its
      members in document order, as a Python [dict] does.
    - Python [float] arithmetic is reached through the interface
      [PyFloat]: the program is written once, over any carrier with the
      operations it uses.  The carrier of CPython is IEEE binary64
      ([PrimFloat.float], instance [binary64]); the samples run on it and
      the arithmetic of the percentage is proved on it.  Exact rationals
      ([Q], instance [rational]) are a second carrier, for comparison.
    - Everything outside the repository is an [env]: the HTTP responses,
      the Telegram delivery, the clock, and the Python built-ins that
      convert between text and numbers.
    - An execution returns an [outcome] (a value, or a raised exception)
      together with the trace of [event]s it performed, in order.
    - A [config] is a loaded configuration, and [analyze_prices] is one
      cycle.  [load_config] and [main] come after the cycle: the loop of
      [main] never ends by itself, so it is run for a number of turns,
      the outside world being given for each cycle. *)

From Stdlib Require Import ZArith QArith Qabs Lqa Floats String Ascii List Lia.
From stdpp Require Import gmap strings list fin_maps pretty.

Open Scope string_scope.

(** ** Python values *)

(** The exceptions this program can meet.  All of them derive from
    [Exception], so [except Exception] catches each one. *)
Inductive exn : Type :=
| RequestException (detail : string)
| TelegramError (detail : string)
| KeyError (key : string)
| IndexError
| TypeError
| ValueError
| AttributeError
| ZeroDivisionError.

(** What a call evaluates to. *)
Inductive outcome (A : Type) : Type :=
| Returned (a : A)
| Raised (e : exn).
Arguments Returned {A} a.
Arguments Raised {A} e.

#[global] Instance outcome_ret : MRet outcome := λ A a, Returned a.
#[global] Instance outcome_bind : MBind outcome := λ A B k m,
  match m with
  | Returned a => k a
  | Raised e => Raised e
  end.

(** A decoded JSON value ([r.json()]); [F] is the carrier of numbers.
    The members of an object are in document order and their keys are
    distinct, as those of the [dict] that [json] decoding builds. *)
#[warnings="-register-all"]
Inductive json (F : Type) : Type :=
| JNull
| JBool (b : bool)
| JNum (x : F)
| JStr (s : string)
| JArr (items : list (json F))
| JObj (members : list (string * json F)).
Arguments JNull {F}.
Arguments JBool {F} b.
Arguments JNum {F} x.
Arguments JStr {F} s.
Arguments JArr {F} items.
Arguments JObj {F} members.

(** The float operations the program uses. [f_eqb], [f_ltb] and [f_leb]
    are Python's [==], [<] and [<=] on floats. *)
Class PyFloat (F : Type) : Type := {
  f_zero : F;
  f_one : F;
  f_hundred : F;
  f_sub : F → F → F;
  f_mul : F → F → F;
  f_quot : F → F → F;
  f_abs : F → F;
  f_eqb : F → F → bool;
  f_ltb : F → F → bool;
  f_leb : F → F → bool
}.

(** ** Requests, log records and the other observable events *)

Record request : Type := {
  url : string;
  params : list (string * string);
  headers : list (string * string)
}.

Inductive level : Type := INFO | WARNING | ERROR | CRITICAL.

(** The log lines of the program, one constructor per [logger] call. *)
Inductive log_msg : Type :=
| StartingNewAnalysisCycle
| FetchedTickers (n : nat)
| ErrorFetchingCoinCatchPrices (e : exn)
| ErrorFetchingWallexMarkets (e : exn)
| CouldNotFetchWallexLastTrade (symbol : string) (e : exn)
| CouldNotFetchNecessaryData
| ComparingMarkets (n : nat)
| WallexApiKeyMissing
| ErrorSendingTelegramMessage (e : exn).

(** The arguments of [bot.send_message]; [parse_mode] is always
    MARKDOWN_V2 and [disable_web_page_preview] is always true. *)
Record telegram_call (F : Type) : Type := {
  token : string;
  chat_id : json F;
  text : string;
  message_thread_id : json F
}.
Arguments token {F} _.
Arguments chat_id {F} _.
Arguments text {F} _.
Arguments message_thread_id {F} _.

(** The lines [analyze_prices] prints, one constructor per [print]. *)
Inductive console (F : Type) : Type :=
| Separator
| SymbolLine (symbol : string)
| WallexLastTrade (price : F)
| CoinCatchPrice (price : F)
| Difference (percentage_diff : F)
| SignalFound
| NoSignal.
Arguments Separator {F}.
Arguments SymbolLine {F} symbol.
Arguments WallexLastTrade {F} price.
Arguments CoinCatchPrice {F} price.
Arguments Difference {F} percentage_diff.
Arguments SignalFound {F}.
Arguments NoSignal {F}.

(** What an execution does, as seen from outside: a log record, a line
    on the console, a request, an attempt to deliver a message, a sleep. *)
Inductive event (F : Type) : Type :=
| Log (l : level) (m : log_msg)
| Print (line : console F)
| HttpGet (r : request)
| SendMessage (c : telegram_call F)
| Sleep (seconds : Q).
Arguments Log {F} l m.
Arguments Print {F} line.
Arguments HttpGet {F} r.
Arguments SendMessage {F} c.
Arguments Sleep {F} seconds.

(** ** Configuration and environment *)

(** [config.json].  [api_key] is read with [.get], so it may be absent
    ([None]); the other entries are read by subscript, and are there.
    [check_interval_seconds] is read by [main] only. *)
Record config (F : Type) : Type := {
  wallex_base_url : string;
  wallex_markets_endpoint : string;
  wallex_trades_endpoint : string;
  wallex_api_key : option string;
  coincatch_base_url : string;
  coincatch_tickers_endpoint : string;
  telegram_bot_token : option string;
  telegram_group_chat_id : json F;
  telegram_message_thread_id : json F;
  price_difference_threshold : F;
  check_interval_seconds : Q
}.
Arguments wallex_base_url {F} _.
Arguments wallex_markets_endpoint {F} _.
Arguments wallex_trades_endpoint {F} _.
Arguments wallex_api_key {F} _.
Arguments coincatch_base_url {F} _.
Arguments coincatch_tickers_endpoint {F} _.
Arguments telegram_bot_token {F} _.
Arguments telegram_group_chat_id {F} _.
Arguments telegram_message_thread_id {F} _.
Arguments price_difference_threshold {F} _.
Arguments check_interval_seconds {F} _.

(** What lies outside the repository.
    - [http_get r] is [requests.get] followed by [raise_for_status] and
      [.json()]: the decoded body, or the exception one of the three raised.
    - [bot_send_message c] is [Bot(token=...)] followed by
      [send_message]: [None] when it was delivered, the exception otherwise.
    - [iran_time_str] is the current time in Asia/Tehran, formatted.
    - [float_of_str s] is [float(s)] on a [str]; [None] is [ValueError].
    - [format_grouped_4f x] is [f"{x:,.4f}"], [format_2f x] is
      [f"{x:.2f}"], and [str_of_json v] is [str(v)] on a value that is
      not a [str]. *)
Record env (F : Type) : Type := {
  http_get : request → outcome (json F);
  bot_send_message : telegram_call F → option exn;
  iran_time_str : string;
  float_of_str : string → option F;
  format_grouped_4f : F → string;
  format_2f : F → string;
  str_of_json : json F → string
}.
Arguments http_get {F} _ _.
Arguments bot_send_message {F} _ _.
Arguments iran_time_str {F} _.
Arguments float_of_str {F} _ _.
Arguments format_grouped_4f {F} _ _.
Arguments format_2f {F} _ _.
Arguments str_of_json {F} _ _.


(** ** Text *)

Definition newline : string := String "010"%char EmptyString.

Fixpoint char_in (char : ascii) (chars : string) : bool :=
  match chars with
  | EmptyString => false
  | String c rest => Ascii.eqb c char || char_in char rest
  end.

(** [s.replace('-', '')]. *)
Fixpoint remove_dashes (s : string) : string :=
  match s with
  | EmptyString => EmptyString
  | String c rest => if Ascii.eqb c "-"%char then remove_dashes rest else String c (remove_dashes rest)
  end.

(** The nested helper of [analyze_prices].  The source applies [str] to
    its argument first; here the caller does ([py_str] below), so that the
    function is one on text. *)
Definition escape_chars : string := "_*[]()~`>#+-=|{}.!".

Definition escape_char (char : ascii) : string :=
  if char_in char escape_chars then String "\"%char (String char EmptyString)
  else String char EmptyString.

Fixpoint escape_markdown (text : string) : string :=
  match text with
  | EmptyString => EmptyString
  | String char rest => escape_char char ++ escape_markdown rest
  end.

Inductive action : Type := BUY | SELL.

Definition action_label (a : action) : string :=
  match a with BUY => "BUY" | SELL => "SELL" end.

(** [not s] for a configuration entry that is a [str] or [None]. *)
Definition str_falsy (s : option string) : bool :=
  match s with
  | None => true
  | Some k => String.eqb k ""
  end.

(** ** Executions: an outcome and the trace of what was done *)

Section Program.

Context {F : Type} `{PyFloat F}.

Definition M (A : Type) : Type := (outcome A * list (event F))%type.

Definition ret {A : Type} (a : A) : M A := (Returned a, []).

Definition bind {A B : Type} (m : M A) (k : A → M B) : M B :=
  match m with
  | (Returned a, t) => let '(r, t') := k a in (r, (t ++ t')%list)
  | (Raised e, t) => (Raised e, t)
  end.

#[global] Instance M_ret : MRet M := @ret.
#[global] Instance M_bind : MBind M := λ A B k m, bind m k.

(** A step that does nothing observable. *)
Definition lift {A : Type} (o : outcome A) : M A := (o, []).

Definition emit (e : event F) : M unit := (Returned tt, [e]).

(** [try: body except Exception as e: handler e]. *)
Definition try_except {A : Type} (body : M A) (handler : exn → M A) : M A :=
  match body with
  | (Returned a, t) => (Returned a, t)
  | (Raised e, t) => let '(r, t') := handler e in (r, (t ++ t')%list)
  end.

(** [for x in xs: body x]; an exception ends the loop. *)
Fixpoint for_each {A : Type} (xs : list A) (body : A → M unit) : M unit :=
  match xs with
  | [] => ret tt
  | x :: rest => bind (body x) (λ _, for_each rest body)
  end.

Definition logger (l : level) (m : log_msg) : M unit := emit (Log l m).
Definition print (line : console F) : M unit := emit (Print line).
Definition asyncio_sleep (seconds : Q) : M unit := emit (Sleep seconds).

(** ** Python operations on decoded JSON and on floats *)

Fixpoint assoc (key : string) (members : list (string * json F)) : option (json F) :=
  match members with
  | [] => None
  | (k, v) :: rest => if String.eqb k key then Some v else assoc key rest
  end.

(** [d.get(key, default)]; only a [dict] has [get]. *)
Definition py_get (d : json F) (key : string) (default : json F) : outcome (json F) :=
  match d with
  | JObj members => Returned (from_option id default (assoc key members))
  | _ => Raised AttributeError
  end.

(** [d[key]] for a [str] key. *)
Definition py_getitem (d : json F) (key : string) : outcome (json F) :=
  match d with
  | JObj members =>
      match assoc key members with
      | Some v => Returned v
      | None => Raised (KeyError key)
      end
  | _ => Raised TypeError
  end.

(** [v[0]]. A decoded JSON object has only [str] keys, so [0] is never one. *)
Definition py_first (v : json F) : outcome (json F) :=
  match v with
  | JArr (x :: _) => Returned x
  | JArr [] => Raised IndexError
  | JStr (String c _) => Returned (JStr (String c EmptyString))
  | JStr EmptyString => Raised IndexError
  | JObj _ => Raised (KeyError "0")
  | _ => Raised TypeError
  end.

(** [d.items()]; only a [dict] has [items]. *)
Definition py_items (d : json F) : outcome (list (string * json F)) :=
  match d with
  | JObj members => Returned members
  | _ => Raised AttributeError
  end.

(** The elements [for x in v] visits: the items of a list, the keys of a
    dict, the characters of a string. *)
Definition py_iter (v : json F) : outcome (list (json F)) :=
  match v with
  | JArr items => Returned items
  | JObj members => Returned (map (λ kv, JStr kv.1) members)
  | JStr s => Returned (map (λ c, JStr (String c EmptyString)) (list_ascii_of_string s))
  | _ => Raised TypeError
  end.

(** [bool(x)] for a float: [x != 0]. *)
Definition float_truthy (x : F) : bool := negb (f_eqb x f_zero).

(** [bool(v)]. *)
Definition py_truthy (v : json F) : bool :=
  match v with
  | JNull => false
  | JBool b => b
  | JNum x => float_truthy x
  | JStr s => negb (String.eqb s "")
  | JArr items => match items with [] => false | _ => true end
  | JObj members => match members with [] => false | _ => true end
  end.

(** [s.replace('-', '')]; only a [str] has [replace] among JSON values. *)
Definition py_replace_dash (v : json F) : outcome string :=
  match v with
  | JStr s => Returned (remove_dashes s)
  | _ => Raised AttributeError
  end.

(** [a / b]: Python raises on a zero divisor. *)
Definition py_div (a b : F) : outcome F :=
  if f_eqb b f_zero then Raised ZeroDivisionError else Returned (f_quot a b).

Variable world : env F.

Definition requests_get (r : request) : M (json F) :=
  (http_get world r, [HttpGet r]).

(** [float(v)]. *)
Definition py_float (v : json F) : outcome F :=
  match v with
  | JNum x => Returned x
  | JBool b => Returned (if b then f_one else f_zero)
  | JStr s =>
      match float_of_str world s with
      | Some x => Returned x
      | None => Raised ValueError
      end
  | _ => Raised TypeError
  end.

(** [str(v)]. *)
Definition py_str (v : json F) : string :=
  match v with
  | JStr s => s
  | _ => str_of_json world v
  end.

(** ** The API fetching functions *)

(** The condition of the dict comprehension of [get_wallex_usdt_markets]:
    [d.get('quoteAsset') == 'USDT']. *)
Definition quote_is_usdt (d : json F) : outcome bool :=
  quote ← py_get d "quoteAsset" JNull;
  mret (match quote with JStr s => String.eqb s "USDT" | _ => false end).

(** [{s: d for s, d in items if d.get('quoteAsset') == 'USDT'}]. *)
Fixpoint usdt_markets (items : list (string * json F)) : outcome (list (string * json F)) :=
  match items with
  | [] => mret []
  | (s, d) :: rest =>
      keep ← quote_is_usdt d;
      kept ← usdt_markets rest;
      mret (if keep : bool then (s, d) :: kept else kept)
  end.

(** The request of [get_wallex_usdt_markets]. *)
Definition markets_request (config : config F) : request :=
  let url := wallex_base_url config ++ wallex_markets_endpoint config in
  {| url := url; params := []; headers := [] |}.

(** The [try] block of [get_wallex_usdt_markets]. *)
Definition get_wallex_usdt_markets_try (config : config F) : M (list (string * json F)) :=
  r ← requests_get (markets_request config);
  result ← lift (py_get r "result" (JObj []));
  data ← lift (py_get result "symbols" (JObj []));
  items ← lift (py_items data);
  lift (usdt_markets items).

Definition get_wallex_usdt_markets (config : config F) : M (list (string * json F)) :=
  try_except (get_wallex_usdt_markets_try config)
    (λ e, logger ERROR (ErrorFetchingWallexMarkets e);; mret []).

(** [not api_key or api_key == "YOUR_API_KEY_HERE"]. *)
Definition api_key_unusable (api_key : option string) : bool :=
  str_falsy api_key || bool_decide (api_key = Some "YOUR_API_KEY_HERE").

(** The request of [get_wallex_last_trade_price], for a usable key. *)
Definition trades_request (config : config F) (api_key symbol : string) : request :=
  let url := wallex_base_url config ++ wallex_trades_endpoint config in
  let params := [("symbol", symbol)] in
  let headers := [("x-api-key", api_key)] in
  {| url := url; params := params; headers := headers |}.

(** The [try] block of [get_wallex_last_trade_price]. *)
Definition get_wallex_last_trade_price_try (config : config F) (symbol : string) : M (option F) :=
  let api_key := wallex_api_key config in
  if api_key_unusable api_key then mret None
  else
    r ← requests_get (trades_request config (default "" api_key) symbol);
    result ← lift (py_get r "result" (JObj []));
    trades ← lift (py_get result "latestTrades" (JArr []));
    if py_truthy trades then
      trade ← lift (py_first trades);
      price ← lift (py_getitem trade "price");
      p ← lift (py_float price);
      mret (Some p)
    else mret None.

Definition get_wallex_last_trade_price (config : config F) (symbol : string) : M (option F) :=
  try_except (get_wallex_last_trade_price_try config symbol)
    (λ e, logger WARNING (CouldNotFetchWallexLastTrade symbol e);; mret None).

(** [{ticker.get('symbol', '').replace('-', ''): float(ticker.get('close'))
     for ticker in data}]: [ticker_entry] is the key and the value of one
    ticker, and [ticker_prices] fills [prices] from left to right, so a
    later ticker overwrites an earlier one with the same key. *)
Definition ticker_entry (ticker : json F) : outcome (string * F) :=
  symbol ← py_get ticker "symbol" (JStr "");
  k ← py_replace_dash symbol;
  close ← py_get ticker "close" JNull;
  v ← py_float close;
  mret (k, v).

Fixpoint ticker_prices (data : list (json F)) (prices : gmap string F) : outcome (gmap string F) :=
  match data with
  | [] => mret prices
  | ticker :: rest =>
      '(k, v) ← ticker_entry ticker;
      ticker_prices rest (<[k := v]> prices)
  end.

(** The condition [if k and v] of the second comprehension. *)
Definition usable_price (kv : string * F) : Prop := kv.1 ≠ "" ∧ float_truthy kv.2.

#[global] Instance usable_price_dec kv : Decision (usable_price kv).
Proof. unfold usable_price. apply _. Defined.

(** The request of [get_coincatch_prices]. *)
Definition tickers_request (config : config F) : request :=
  let url := coincatch_base_url config ++ coincatch_tickers_endpoint config in
  {| url := url; params := []; headers := [] |}.

(** The [try] block of [get_coincatch_prices]. *)
Definition get_coincatch_prices_try (config : config F) : M (gmap string F) :=
  r ← requests_get (tickers_request config);
  data ← lift (py_get r "data" (JArr []));
  tickers ← lift (py_iter data);
  prices ← lift (ticker_prices tickers ∅);
  logger INFO (FetchedTickers (size prices));;
  mret (filter usable_price prices).

Definition get_coincatch_prices (config : config F) : M (gmap string F) :=
  try_except (get_coincatch_prices_try config)
    (λ e, logger ERROR (ErrorFetchingCoinCatchPrices e);; mret ∅).

(** ** The notifier *)

(** [Bot(token=bot_token)] and [await bot.send_message(...)]. *)
Definition deliver (c : telegram_call F) : M unit :=
  (match bot_send_message world c with
   | None => Returned tt
   | Some e => Raised e
   end, [SendMessage c]).

Definition send_telegram_message (config : config F) (message_text : string) : M unit :=
  let bot_token := telegram_bot_token config in
  let chat_id := telegram_group_chat_id config in
  let thread_id := telegram_message_thread_id config in
  if str_falsy bot_token then mret tt
  else
    try_except
      (deliver {| token := default "" bot_token; chat_id := chat_id;
                  text := message_text; message_thread_id := thread_id |})
      (λ e, logger ERROR (ErrorSendingTelegramMessage e)).

(** ** The analysis cycle *)

(** [((wallex_price - coincatch_price) / coincatch_price) * 100]. *)
Definition percentage_difference (wallex_price coincatch_price : F) : outcome F :=
  ratio ← py_div (f_sub wallex_price coincatch_price) coincatch_price;
  mret (f_mul ratio f_hundred).

(** The [if percentage_diff < 0] of a found signal: the action and the
    profit potential. *)
Definition classify (percentage_diff : F) : action * F :=
  if f_ltb percentage_diff f_zero then (BUY, f_abs percentage_diff)
  else (SELL, percentage_diff).

(** The text sent for a found signal. *)
Definition signal_message (action : action) (base_asset : json F) (trade_link : string)
    (safe_entry_price safe_target_price safe_profit safe_time : string) : string :=
  "*" ++ action_label action ++ " : " ++ escape_markdown (py_str base_asset) ++ "\-USDT*" ++ newline ++ newline ++
  "Inter Price : `$" ++ safe_entry_price ++ "`" ++ newline ++
  "Target Price : `$" ++ safe_target_price ++ "`" ++ newline ++
  "Difference : *" ++ safe_profit ++ "\%*" ++ newline ++ newline ++
  "[" ++ match action with BUY => "خرید" | SELL => "فروش" end ++ " در والکس](" ++ trade_link ++ ")" ++ newline ++ newline ++
  "Time : `" ++ safe_time ++ "`".

(** The branch [if abs(percentage_diff) >= signal_threshold] of the loop. *)
Definition signal_found (config : config F) (symbol : string) (market_data : json F)
    (wallex_price coincatch_price percentage_diff : F) : M unit :=
  print SignalFound;;
  base_asset ← lift (py_getitem market_data "baseAsset");
  let trade_link := "https://wallex.ir/app/trade/" ++ symbol in
  let iran_time_str := iran_time_str world in
  let '(action, profit_potential) := classify percentage_diff in
  let safe_entry_price := escape_markdown (format_grouped_4f world wallex_price) in
  let safe_target_price := escape_markdown (format_grouped_4f world coincatch_price) in
  let safe_profit := escape_markdown (format_2f world profit_potential) in
  let safe_time := escape_markdown iran_time_str in
  let message :=
    signal_message action base_asset trade_link
      safe_entry_price safe_target_price safe_profit safe_time in
  send_telegram_message config message.

(** The branch [if wallex_price and coincatch_price] of the loop. *)
Definition compare_prices (config : config F) (signal_threshold : F) (symbol : string)
    (market_data : json F) (wallex_price coincatch_price : F) : M unit :=
  percentage_diff ← lift (percentage_difference wallex_price coincatch_price);
  print Separator;;
  print (SymbolLine symbol);;
  print (WallexLastTrade wallex_price);;
  print (CoinCatchPrice coincatch_price);;
  print (Difference percentage_diff);;
  if f_leb signal_threshold (f_abs percentage_diff)
  then signal_found config symbol market_data wallex_price coincatch_price percentage_diff
  else print NoSignal.

(** [wallex_price and coincatch_price], as a condition: both are there
    and both are truthy. *)
Definition both_prices (wallex_price coincatch_price : option F) : option (F * F) :=
  match wallex_price, coincatch_price with
  | Some a, Some b => if float_truthy a && float_truthy b then Some (a, b) else None
  | _, _ => None
  end.

(** The body of [for symbol, market_data in wallex_markets.items()]. *)
Definition check_symbol (config : config F) (signal_threshold : F)
    (coincatch_prices : gmap string F) (item : string * json F) : M unit :=
  let '(symbol, market_data) := item in
  wallex_price ← get_wallex_last_trade_price config symbol;
  let coincatch_price := coincatch_prices !! symbol in
  match both_prices wallex_price coincatch_price with
  | Some (a, b) => compare_prices config signal_threshold symbol market_data a b
  | None => mret tt
  end;;
  asyncio_sleep (1 # 2)%Q.

Definition analyze_prices (config : config F) : M unit :=
  logger INFO StartingNewAnalysisCycle;;
  coincatch_prices ← get_coincatch_prices config;
  wallex_markets ← get_wallex_usdt_markets config;
  if bool_decide (size coincatch_prices = 0) || bool_decide (length wallex_markets = 0) then
    logger WARNING CouldNotFetchNecessaryData
  else
    logger INFO (ComparingMarkets (length wallex_markets));;
    let signal_threshold := price_difference_threshold config in
    if api_key_unusable (wallex_api_key config) then
      logger ERROR WallexApiKeyMissing
    else
      for_each wallex_markets (check_symbol config signal_threshold coincatch_prices).

End Program.

(** ** The process: [load_config] and [main] *)

(** What [open('config.json')] followed by [json.load] comes to: the
    decoded document, [FileNotFoundError], or any other exception of the
    two (a file that cannot be read, a text that is no JSON). *)
Inductive config_file (D : Type) : Type :=
| Loaded (document : D)
| FileNotFound
| Unreadable (detail : string).
Arguments Loaded {D} document.
Arguments FileNotFound {D}.
Arguments Unreadable {D} detail.

(** How the process ends, when it does: [exit()], an exception that left
    [analyze_prices], or one that left [load_config]. *)
Inductive ending : Type :=
| SystemExit
| Uncaught (e : exn)
| UncaughtOnLoad (detail : string).

(** The two log lines written outside the cycle. *)
Inductive main_log : Type :=
| ConfigNotFound
| CycleCompleteWaiting (wait_time : Q).

(** What the process does: what a cycle does, and the two log lines. *)
Inductive main_event (F : Type) : Type :=
| Event (e : event F)
| MainLog (l : level) (m : main_log).
Arguments Event {F} e.
Arguments MainLog {F} l m.

Section Process.

Context {F : Type} `{PyFloat F}.

(** [load_config]: only [FileNotFoundError] is caught. *)
Definition load_config {D : Type} (file : config_file D) : (ending + D) * list (main_event F) :=
  match file with
  | Loaded document => (inr document, [])
  | FileNotFound => (inl SystemExit, [MainLog CRITICAL ConfigNotFound])
  | Unreadable detail => (inl (UncaughtOnLoad detail), [])
  end.

(** The [while True] of [main], for [fuel] turns from the cycle numbered
    [cycle]; [worlds n] is the outside world during cycle [n].  The
    result is [None] while the loop is still running. *)
Fixpoint main_loop (worlds : nat → env F) (config : config F) (cycle fuel : nat)
    : option ending * list (main_event F) :=
  match fuel with
  | 0 => (None, [])
  | S fuel =>
      match analyze_prices (worlds cycle) config with
      | (Returned _, t) =>
          let wait_time := check_interval_seconds config in
          let '(r, t') := main_loop worlds config (S cycle) fuel in
          (r, (map Event t ++
               [MainLog INFO (CycleCompleteWaiting wait_time); Event (Sleep wait_time)] ++ t')%list)
      | (Raised e, t) => (Some (Uncaught e), map Event t)
      end
  end.

(** [main], with the loop cut after [fuel] turns. *)
Definition main (file : config_file (config F)) (worlds : nat → env F) (fuel : nat)
    : option ending * list (main_event F) :=
  match load_config file with
  | (inl stop, t) => (Some stop, t)
  | (inr config, t) =>
      let '(r, t') := main_loop worlds config 0 fuel in (r, (t ++ t')%list)
  end.

End Process.

(** ** Two carriers for Python's floats *)

(** IEEE 754 binary64 with round-to-nearest-even: CPython's [float]. *)
#[global] Instance binary64 : PyFloat PrimFloat.float := {|
  f_zero := 0%float;
  f_one := 1%float;
  f_hundred := 100%float;
  f_sub := PrimFloat.sub;
  f_mul := PrimFloat.mul;
  f_quot := PrimFloat.div;
  f_abs := PrimFloat.abs;
  f_eqb := PrimFloat.eqb;
  f_ltb := PrimFloat.ltb;
  f_leb := PrimFloat.leb
|}.

(** Exact rational arithmetic: what binary64 approximates, without
    rounding, overflow, infinities or NaN. *)
#[global] Instance rational : PyFloat Q := {|
  f_zero := 0%Q;
  f_one := 1%Q;
  f_hundred := 100%Q;
  f_sub := Qminus;
  f_mul := Qmult;
  f_quot := Qdiv;
  f_abs := Qabs;
  f_eqb := Qeq_bool;
  f_ltb := λ x y, negb (Qle_bool y x);
  f_leb := Qle_bool
|}.

(** What the properties need of the comparisons: [x == y] implies
    [y <= x].  It holds on both carriers ([binary64_order],
    [rational_order] below). *)
Class PyFloatOrder (F : Type) `{PyFloat F} : Prop :=
  f_eqb_leb : ∀ x y : F, f_eqb x y = true → f_leb y x = true.

(** ** The built-in conversions, for the sample environments *)

Module Builtins.

(** The value of a decimal digit. *)
Definition digit (c : ascii) : option Z :=
  let n := Z.of_nat (nat_of_ascii c) in
  if (48 <=? n)%Z && (n <=? 57)%Z then Some (n - 48)%Z else None.

(** The number a run of digits spells, after [acc]. *)
Fixpoint digits (s : string) (acc : Z) : option Z :=
  match s with
  | EmptyString => Some acc
  | String c rest =>
      match digit c with
      | Some d => digits rest (10 * acc + d)%Z
      | None => None
      end
  end.

(** The text before the first ['.'] and the text after it. *)
Fixpoint split_point (s : string) : string * option string :=
  match s with
  | EmptyString => (EmptyString, None)
  | String c rest =>
      if Ascii.eqb c "."%char then (EmptyString, Some rest)
      else let '(a, b) := split_point rest in (String c a, b)
  end.

(** [float(s)] for plain decimal notation: an optional sign, digits, and
    an optional point followed by digits, with one digit at least.  This is
    what both exchanges send.  Python also reads exponents, underscores,
    surrounding blanks and the words inf and nan; a text of that kind is
    outside this reader, which answers [None] for it. *)
Definition decimal_of_str (s : string) : option Q :=
  let '(negative, body) :=
    match s with
    | String "-"%char rest => (true, rest)
    | String "+"%char rest => (false, rest)
    | _ => (false, s)
    end in
  let '(whole, fraction) := split_point body in
  let fraction := default EmptyString fraction in
  if (String.length whole + String.length fraction =? 0)%nat then None
  else
    match digits (whole ++ fraction) 0 with
    | Some n =>
        let q := Qmake n (Pos.pow 10 (Pos.of_nat (String.length fraction))) in
        let q := if (String.length fraction =? 0)%nat then inject_Z n else q in
        Some (Qred (if negative then Qopp q else q))
    | None => None
    end.

(** The nearest integer, ties to even. *)
Definition round_half_even (q : Q) : Z :=
  let n := Qnum q in
  let d := Zpos (Qden q) in
  let f := (n / d)%Z in
  match (2 * (n mod d) ?= d)%Z with
  | Lt => f
  | Gt => (f + 1)%Z
  | Eq => if Z.even f then f else (f + 1)%Z
  end.

(** [s], with zeros in front up to [width] characters. *)
Definition pad_zeros (width : nat) (s : string) : string :=
  string_of_list_ascii (replicate (width - String.length s) "0"%char) ++ s.

(** A comma before every group of three digits, counted from the right. *)
Fixpoint group_thousands (digits_rev : list ascii) (acc : string) (count : nat) : string :=
  match digits_rev with
  | [] => acc
  | c :: rest =>
      if (count =? 3)%nat then group_thousands rest (String c (String ","%char acc)) 1
      else group_thousands rest (String c acc) (S count)
  end.

(** [f"{q:.{decimals}f}"], with [","] as thousands separator when
    [grouped]; [negative] is the sign of the number. *)
Definition format_fixed (decimals : nat) (grouped negative : bool) (magnitude : Q) : string :=
  let unit := (10 ^ Z.of_nat decimals)%Z in
  let scaled := round_half_even (magnitude * inject_Z unit) in
  let whole := pretty (Z.to_N (scaled / unit)) in
  let fraction := pad_zeros decimals (pretty (Z.to_N (scaled mod unit))) in
  (if negative then "-" else "") ++
  (if grouped then group_thousands (rev (list_ascii_of_string whole)) EmptyString 0 else whole) ++
  "." ++ fraction.

Definition format_Q (decimals : nat) (grouped : bool) (q : Q) : string :=
  format_fixed decimals grouped (negb (Qle_bool 0 q)) (Qabs q).

(** The binary64 number nearest to [q], ties to even. *)
Definition float_of_Q (q : Q) : PrimFloat.float :=
  let n := Z.abs (Qnum q) in
  let d := Zpos (Qden q) in
  if (n =? 0)%Z then 0%float
  else
    let k := Z.max 0 (54 + Z.log2 d - Z.log2 n) in
    let m := (n * 2 ^ k / d)%Z in
    let r := ((n * 2 ^ k) mod d)%Z in
    let location :=
      if (r =? 0)%Z then SpecFloat.loc_Exact else SpecFloat.loc_Inexact (2 * r ?= d)%Z in
    SF2Prim (SpecFloat.binary_round_aux prec emax (Qnum q <? 0)%Z m (- k) location).

(** The sign and the magnitude of a finite binary64 number. *)
Definition Q_of_float (x : PrimFloat.float) : option (bool * Q) :=
  match Prim2SF x with
  | SpecFloat.S754_zero s => Some (s, 0%Q)
  | SpecFloat.S754_finite s m e =>
      Some (s, if (0 <=? e)%Z then inject_Z (Zpos m * 2 ^ e)
               else Qmake (Zpos m) (Pos.pow 2 (Z.to_pos (- e))))
  | _ => None
  end.

Definition format_float (decimals : nat) (grouped : bool) (x : PrimFloat.float) : string :=
  match Q_of_float x with
  | Some (s, q) => format_fixed decimals grouped s q
  | None =>
      if PrimFloat.is_nan x then "nan"
      else if PrimFloat.ltb x 0 then "-inf" else "inf"
  end.

(** [str(v)] for the JSON scalars that are not text; [number] prints a
    number.  A list or an object is printed as its brackets only: the
    sample markets hold none where text is expected. *)
Definition str_of_scalar {F : Type} (number : F → string) (v : json F) : string :=
  match v with
  | JNull => "None"
  | JBool true => "True"
  | JBool false => "False"
  | JNum x => number x
  | JStr s => s
  | JArr _ => "[...]"
  | JObj _ => "{...}"
  end.

End Builtins.

(** ** Sample environments *)

(** An environment over binary64, from the answers of the network. *)
Definition binary64_env (responses : request → outcome (json PrimFloat.float))
    (delivery : telegram_call PrimFloat.float → option exn) (now : string) : env PrimFloat.float := {|
  http_get := responses;
  bot_send_message := delivery;
  iran_time_str := now;
  float_of_str := λ s, Builtins.float_of_Q <$> Builtins.decimal_of_str s;
  format_grouped_4f := Builtins.format_float 4 true;
  format_2f := Builtins.format_float 2 false;
  str_of_json := Builtins.str_of_scalar (Builtins.format_float 1 false)
|}.

(** The same over exact rationals. *)
Definition rational_env (responses : request → outcome (json Q))
    (delivery : telegram_call Q → option exn) (now : string) : env Q := {|
  http_get := responses;
  bot_send_message := delivery;
  iran_time_str := now;
  float_of_str := Builtins.decimal_of_str;
  format_grouped_4f := Builtins.format_Q 4 true;
  format_2f := Builtins.format_Q 2 false;
  str_of_json := Builtins.str_of_scalar (Builtins.format_Q 1 false)
|}.

(** ** Vocabulary of the properties *)

(** What [escape_markdown] makes of one character: the marker and the
    character when it is reserved, the character alone otherwise. *)
Definition escaped_form (char : ascii) : string :=
  if char_in char escape_chars then String "\"%char (String char EmptyString)
  else String char EmptyString.

(** How many characters of [text] are reserved. *)
Fixpoint count_reserved (text : string) : nat :=
  match text with
  | EmptyString => 0
  | String c rest => (if char_in c escape_chars then 1 else 0) + count_reserved rest
  end.

(** Reading an escaped text back: a marker in front of a reserved
    character is dropped, everything else is kept. *)
Fixpoint unescape (text : string) : string :=
  match text with
  | EmptyString => EmptyString
  | String c rest =>
      match rest with
      | String c' rest' =>
          if Ascii.eqb c "\"%char && char_in c' escape_chars then String c' (unescape rest')
          else String c (unescape rest)
      | EmptyString => String c EmptyString
      end
  end.

(** A decoded JSON object. *)
Definition is_dict {F : Type} (d : json F) : bool :=
  match d with
  | JObj _ => true
  | _ => false
  end.

(** A market entry whose quote asset is the text USDT. *)
Definition quoted_in_usdt {F : Type} `{PyFloat F} (d : json F) : bool :=
  match d with
  | JObj members =>
      match assoc "quoteAsset" members with
      | Some (JStr s) => String.eqb s "USDT"
      | _ => false
      end
  | _ => false
  end.

(** A ticker whose price cannot be read: it is an object, and [float] of
    what [get('close')] gives raises. That covers a missing or null price
    (TypeError) and a text that is no number (ValueError). *)
Definition price_unreadable {F : Type} `{PyFloat F} (world : env F) (ticker : json F) : Prop :=
  ∃ close e, py_get ticker "close" JNull = Returned close ∧ py_float world close = Raised e.

(** The dict that assigning the entries from left to right builds. *)
Definition dict_of {F : Type} (entries : list (string * F)) : gmap string F :=
  foldl (λ prices kv, <[kv.1 := kv.2]> prices) ∅ entries.

(** A request made for one symbol: it carries a [symbol] parameter. *)
Definition per_symbol_call {F : Type} (e : event F) : bool :=
  match e with
  | HttpGet r => bool_decide (params r ≠ [])
  | _ => false
  end.

(** What the two full-market fetches and the logger do: the one request
    for all tickers, the one request for all markets, and log records. *)
Definition market_wide {F : Type} `{PyFloat F} (config : config F) (e : event F) : Prop :=
  match e with
  | HttpGet r => r = tickers_request config ∨ r = markets_request config
  | Log _ _ => True
  | _ => False
  end.

(** The events that make a signal: the console line and the send. *)
Definition is_signal_line {F : Type} (e : event F) : bool :=
  match e with
  | Print SignalFound => true
  | _ => false
  end.

Definition is_send {F : Type} (e : event F) : bool :=
  match e with
  | SendMessage _ => true
  | _ => false
  end.

Definition is_print {F : Type} (e : event F) : bool :=
  match e with
  | Print _ => true
  | _ => false
  end.

(** The text of the notification for a signal on [symbol]. *)
Definition signal_text {F : Type} `{PyFloat F} (world : env F) (symbol : string)
    (base_asset : json F) (wallex_price coincatch_price percentage_diff : F) : string :=
  signal_message world (classify percentage_diff).1 base_asset
    ("https://wallex.ir/app/trade/" ++ symbol)
    (escape_markdown (format_grouped_4f world wallex_price))
    (escape_markdown (format_grouped_4f world coincatch_price))
    (escape_markdown (format_2f world (classify percentage_diff).2))
    (escape_markdown (iran_time_str world)).

(** The five lines printed for every compared symbol. *)
Definition comparison_lines {F : Type} (symbol : string)
    (wallex_price coincatch_price percentage_diff : F) : list (event F) :=
  [Print Separator; Print (SymbolLine symbol); Print (WallexLastTrade wallex_price);
   Print (CoinCatchPrice coincatch_price); Print (Difference percentage_diff)].

(** The binary order of magnitude of [m * 2 ^ e]: it lies between
    [2 ^ (magnitude m e - 1)] and [2 ^ magnitude m e]. *)
Definition magnitude (m : Z) (e : Z) : Z := (Z.log2 m + 1 + e)%Z.

(** A binary64 number below zero: negative, and not a zero. *)
Definition below_zero (x : SpecFloat.spec_float) : Prop :=
  match x with
  | SpecFloat.S754_finite true _ _ | SpecFloat.S754_infinity true => True
  | _ => False
  end.

(** A binary64 number that is not zero (and is a number), of magnitude
    [z] at least. *)
Definition nonzero_at_least (z : Z) (x : SpecFloat.spec_float) : Prop :=
  match x with
  | SpecFloat.S754_finite _ m e => (z <= magnitude (Zpos m) e)%Z
  | SpecFloat.S754_infinity _ => True
  | _ => False
  end.

(** ** Vocabulary of the further properties *)

(** Reading a trace: its requests, its pauses, its deliveries. *)
Fixpoint requests_of {F : Type} (trace : list (event F)) : list request :=
  match trace with
  | [] => []
  | HttpGet r :: rest => r :: requests_of rest
  | _ :: rest => requests_of rest
  end.

Fixpoint pauses_of {F : Type} (trace : list (event F)) : list Q :=
  match trace with
  | [] => []
  | Sleep seconds :: rest => seconds :: pauses_of rest
  | _ :: rest => pauses_of rest
  end.

Fixpoint messages_of {F : Type} (trace : list (event F)) : list (telegram_call F) :=
  match trace with
  | [] => []
  | SendMessage c :: rest => c :: messages_of rest
  | _ :: rest => messages_of rest
  end.

(** A market entry with a base asset: [market_data['baseAsset']] is
    defined. *)
Definition names_base_asset {F : Type} `{PyFloat F} (market_data : json F) : Prop :=
  ∃ base_asset, py_getitem market_data "baseAsset" = Returned base_asset.

(** The call [send_telegram_message] makes for [message_text], with a
    bot token that is not empty. *)
Definition notification {F : Type} (config : config F) (bot_token message_text : string)
    : telegram_call F :=
  {| token := bot_token; chat_id := telegram_group_chat_id config;
     text := message_text; message_thread_id := telegram_message_thread_id config |}.

(** What [main] does for a cycle that returned: the cycle, the record
    that it is complete, and the wait. *)
Definition completed_cycle {F : Type} `{PyFloat F} (world : env F) (config : config F)
    : list (main_event F) :=
  (map Event (analyze_prices world config).2 ++
   [MainLog INFO (CycleCompleteWaiting (check_interval_seconds config));
    Event (Sleep (check_interval_seconds config))])%list.

(** The cycles numbered [first], ..., [first + count - 1], all completed. *)
Definition completed_cycles {F : Type} `{PyFloat F} (worlds : nat → env F) (config : config F)
    (first count : nat) : list (main_event F) :=
  concat (map (λ n, completed_cycle (worlds n) config) (seq first count)).

(** ** Sample data *)

#[global] Instance request_eq_dec : EqDecision request.
Proof. solve_decision. Defined.

Module Sample.

Section Data.

Context {F : Type} `{PyFloat F}.

Definition config_of (api_key bot_token : option string) (threshold : F) : config F := {|
  wallex_base_url := "https://api.wallex.ir";
  wallex_markets_endpoint := "/v1/markets";
  wallex_trades_endpoint := "/v1/trades";
  wallex_api_key := api_key;
  coincatch_base_url := "https://api.coincatch.com";
  coincatch_tickers_endpoint := "/api/spot/v1/market/tickers";
  telegram_bot_token := bot_token;
  telegram_group_chat_id := JStr "-1001234567890";
  telegram_message_thread_id := JNull;
  price_difference_threshold := threshold;
  check_interval_seconds := 60
|}.

Definition ticker (symbol close : string) : json F :=
  JObj [("symbol", JStr symbol); ("close", JStr close)].

Definition ticker_without_price (symbol : string) : json F :=
  JObj [("symbol", JStr symbol)].

Definition tickers_body (tickers : list (json F)) : json F :=
  JObj [("code", JStr "00000"); ("data", JArr tickers)].

Definition market (base_asset quote_asset : string) : json F :=
  JObj [("baseAsset", JStr base_asset); ("quoteAsset", JStr quote_asset)].

Definition markets_body (listing : list (string * json F)) : json F :=
  JObj [("success", JBool true); ("result", JObj [("symbols", JObj listing)])].

Definition trades_body (price : string) : json F :=
  JObj [("result", JObj [("latestTrades", JArr [JObj [("price", JStr price)]])])].

(** A network that answers the ticker request with [tickers], the market
    request with [markets], and a last-trade request with the body listed
    for its symbol in [trades]; every other request fails. *)
Definition network (config : config F) (tickers markets : outcome (json F))
    (trades : list (string * json F)) (r : request) : outcome (json F) :=
  if bool_decide (r = tickers_request config) then tickers
  else if bool_decide (r = markets_request config) then markets
  else
    match params r with
    | [(_, symbol)] =>
        match assoc symbol trades with
        | Some body => Returned body
        | None => Raised (RequestException "404 Client Error")
        end
    | _ => Raised (RequestException "404 Client Error")
    end.

Definition listing : list (string * json F) :=
  [("BTCUSDT", market "BTC" "USDT"); ("BTCTMN", market "BTC" "TMN");
   ("ETHUSDT", market "ETH" "USDT"); ("DOGEUSDT", market "DOGE" "USDT")].

(** The last trades: DOGE has one, and no ticker in any sample. *)
Definition trades (btc : string) : list (string * json F) :=
  [("BTCUSDT", trades_body btc); ("ETHUSDT", trades_body "3010");
   ("DOGEUSDT", trades_body "0.25")].

End Data.

Definition now : string := "2024-05-01 12:00:00".

(** Threshold 1.5, a usable key and a bot token. *)
Definition settings : config PrimFloat.float :=
  config_of (Some "wallex-key") (Some "123456:bot-token") 1.5%float.

(** The same with the placeholder for a key. *)
Definition settings_without_key : config PrimFloat.float :=
  config_of (Some "YOUR_API_KEY_HERE") (Some "123456:bot-token") 1.5%float.

(** Both sources answer: BTC at 50000 against a last trade at 49000, ETH
    at 3000 against a last trade at 3010, and no ticker for DOGE. *)
Definition world : env PrimFloat.float :=
  binary64_env
    (network settings
       (Returned (tickers_body [ticker "BTC-USDT" "50000"; ticker "ETH-USDT" "3000"]))
       (Returned (markets_body listing))
       (trades "49000"))
    (λ _, None) now.

(** The same answers and the same threshold, over exact rationals. *)
Definition rational_settings : config Q :=
  config_of (Some "wallex-key") (Some "123456:bot-token") (3 # 2)%Q.

Definition rational_world : env Q :=
  rational_env
    (network rational_settings
       (Returned (tickers_body [ticker "BTC-USDT" "50000"; ticker "ETH-USDT" "3000"]))
       (Returned (markets_body listing))
       (trades "49000"))
    (λ _, None) now.

(** The second ticker has no price. *)
Definition world_with_unpriced_ticker : env PrimFloat.float :=
  binary64_env
    (network settings
       (Returned (tickers_body [ticker "BTC-USDT" "50000"; ticker_without_price "ETH-USDT"]))
       (Returned (markets_body listing))
       (trades "49000"))
    (λ _, None) now.

(** The ticker of BTC closes at -1. *)
Definition world_with_negative_ticker : env PrimFloat.float :=
  binary64_env
    (network settings
       (Returned (tickers_body [ticker "BTC-USDT" "-1"; ticker "ETH-USDT" "3000"]))
       (Returned (markets_body listing))
       (trades "49000"))
    (λ _, None) now.

(** The last trade of BTC is at -49000. *)
Definition world_with_negative_trade : env PrimFloat.float :=
  binary64_env
    (network settings
       (Returned (tickers_body [ticker "BTC-USDT" "50000"; ticker "ETH-USDT" "3000"]))
       (Returned (markets_body listing))
       (trades "-49000"))
    (λ _, None) now.

(** The ticker request is answered with an empty list. *)
Definition world_without_tickers : env PrimFloat.float :=
  binary64_env
    (network settings (Returned (tickers_body [])) (Returned (markets_body listing)) [])
    (λ _, None) now.

(** Both full-market requests fail, and so does every delivery. *)
Definition world_offline : env PrimFloat.float :=
  binary64_env
    (network settings (Raised (RequestException "Connection refused"))
       (Raised (RequestException "Connection refused")) [])
    (λ _, Some (TelegramError "Timed out")) now.

(** The price table of [world]. *)
Definition prices : gmap string PrimFloat.float :=
  filter usable_price (dict_of [("BTCUSDT", 50000%float); ("ETHUSDT", 3000%float)]).

(** The answer for BTC lists two trades, the latest first. *)
Definition two_trades_body : json PrimFloat.float :=
  JObj [("result",
         JObj [("latestTrades",
                JArr [JObj [("price", JStr "49000")]; JObj [("price", JStr "51000")]])])].

Definition world_with_two_trades : env PrimFloat.float :=
  binary64_env
    (network settings
       (Returned (tickers_body [ticker "BTC-USDT" "50000"; ticker "ETH-USDT" "3000"]))
       (Returned (markets_body listing))
       [("BTCUSDT", two_trades_body)])
    (λ _, None) now.

(** The market of BTC does not name its base asset. *)
Definition listing_with_unnamed_market : list (string * json PrimFloat.float) :=
  [("BTCUSDT", JObj [("quoteAsset", JStr "USDT")]); ("ETHUSDT", market "ETH" "USDT")].

Definition world_with_unnamed_market : env PrimFloat.float :=
  binary64_env
    (network settings
       (Returned (tickers_body [ticker "BTC-USDT" "50000"; ticker "ETH-USDT" "3000"]))
       (Returned (markets_body listing_with_unnamed_market))
       (trades "49000"))
    (λ _, None) now.

(** The network is down during every cycle of odd number. *)
Definition worlds_on_and_off (n : nat) : env PrimFloat.float :=
  if Nat.even n then world else world_offline.

(** The network is down during the first cycle; from the second on, the
    market of BTC does not name its base asset. *)
Definition worlds_with_unnamed_market (n : nat) : env PrimFloat.float :=
  match n with
  | 0 => world_offline
  | _ => world_with_unnamed_market
  end.

(** The snapshot of [world]. *)
Definition markets : list (string * json PrimFloat.float) :=
  [("BTCUSDT", market "BTC" "USDT"); ("ETHUSDT", market "ETH" "USDT");
   ("DOGEUSDT", market "DOGE" "USDT")].

End Sample.

(** * Properties *)

#[local] Arguments String.append !s1 s2 : simpl nomatch.

(** ** Escaping *)

Section Escaping.

Lemma string_app_assoc (a b c : string) : (a ++ b) ++ c = a ++ (b ++ c).
Proof. induction a as [|x a IH]; simpl; [reflexivity | now rewrite IH]. Qed.

Lemma string_app_length (a b : string) :
  String.length (a ++ b) = String.length a + String.length b.
Proof. induction a as [|x a IH]; simpl; [reflexivity | now rewrite IH]. Qed.

Lemma escape_markdown_app (a b : string) :
  escape_markdown (a ++ b) = escape_markdown a ++ escape_markdown b.
Proof.
  induction a as [|x a IH]; simpl; [reflexivity|].
  rewrite IH. symmetry. apply string_app_assoc.
Qed.

Lemma escape_markdown_length (text : string) :
  String.length (escape_markdown text) = String.length text + count_reserved text.
Proof.
  induction text as [|c rest IH]; [reflexivity|].
  cbn [escape_markdown count_reserved String.length].
  rewrite string_app_length, IH. unfold escape_char.
  destruct (char_in c escape_chars); cbn [String.length]; lia.
Qed.

(** The marker is not itself a reserved character. *)
Lemma marker_not_reserved : char_in "\"%char escape_chars = false.
Proof. reflexivity. Qed.

(** An escaped text never begins with a bare reserved character. *)
Lemma escape_markdown_head (text : string) :
  match escape_markdown text with
  | EmptyString => text = EmptyString
  | String c _ =>
      if char_in c escape_chars then False
      else True
  end.
Proof.
  destruct text as [|c rest]; [reflexivity|].
  cbn [escape_markdown]. unfold escape_char.
  destruct (char_in c escape_chars) eqn:E; cbn [append].
  - now rewrite marker_not_reserved.
  - now rewrite E.
Qed.

Lemma unescape_escape_markdown (text : string) :
  unescape (escape_markdown text) = text.
Proof.
  induction text as [|c rest IH]; [reflexivity|].
  cbn [escape_markdown]. unfold escape_char.
  destruct (char_in c escape_chars) eqn:E.
  - cbn [append unescape]. rewrite E. cbn [Ascii.eqb Bool.eqb andb]. now rewrite IH.
  - cbn [append]. pose proof (escape_markdown_head rest) as Hd.
    cbn [unescape]. destruct (escape_markdown rest) as [|c' rest'] eqn:Er.
    + now rewrite Hd.
    + destruct (char_in c' escape_chars); [contradiction|].
      rewrite andb_false_r. now rewrite IH.
Qed.

(** C8. For every text, [escape_markdown] replaces each reserved
    character, wherever it stands, by one marker followed by that
    character, and every other character by itself: the output is the
    escaped prefix, the form of the character, and the escaped suffix.
    So the output is longer than the input by exactly the number of
    reserved characters, dropping the inserted markers gives the input
    back, and the text made of all eighteen reserved characters comes out
    with one marker before each. *)
Theorem escape_markdown_marks_each_reserved_once :
  (∀ (pre : string) (char : ascii) (post : string),
     escape_markdown (pre ++ String char post) =
     escape_markdown pre ++ escaped_form char ++ escape_markdown post)
  ∧ (∀ char : ascii,
       escaped_form char =
       if char_in char escape_chars then String "\"%char (String char EmptyString)
       else String char EmptyString)
  ∧ (∀ text : string,
       String.length (escape_markdown text) = String.length text + count_reserved text)
  ∧ (∀ text : string, unescape (escape_markdown text) = text)
  ∧ escape_markdown "_*[]()~`>#+-=|{}.!" = "\_\*\[\]\(\)\~\`\>\#\+\-\=\|\{\}\.\!".
Proof.
  repeat split.
  - intros pre char post. now rewrite escape_markdown_app.
  - apply escape_markdown_length.
  - apply unescape_escape_markdown.
Qed.

End Escaping.

(** ** Executions *)

Section Executions.

Context {F : Type} `{PyFloat F}.

Lemma bind_returned {A B : Type} (m : @M F A) (k : A → @M F B) (a : A) (t : list (event F)) :
  m = (Returned a, t) → bind m k = ((k a).1, (t ++ (k a).2)%list).
Proof. intros ->. unfold bind. now destruct (k a). Qed.

Lemma bind_raised {A B : Type} (m : @M F A) (k : A → @M F B) (e : exn) (t : list (event F)) :
  m = (Raised e, t) → bind m k = (Raised e, t).
Proof. now intros ->. Qed.

(** A [try] whose handler returns, returns. *)
Lemma try_except_returns {A : Type} (body : @M F A) (handler : exn → @M F A) :
  (∀ e, ∃ a t, handler e = (Returned a, t)) →
  ∃ a t, try_except body handler = (Returned a, t).
Proof.
  intros Hh. unfold try_except. destruct body as [[a|e] t]; [eauto|].
  destruct (Hh e) as (a & t' & ->). eauto.
Qed.

Lemma try_except_raised {A : Type} (body : @M F A) (handler : exn → @M F A) e t :
  body = (Raised e, t) →
  try_except body handler = ((handler e).1, (t ++ (handler e).2)%list).
Proof. intros ->. unfold try_except. now destruct (handler e). Qed.

Lemma try_except_returned {A : Type} (body : @M F A) (handler : exn → @M F A) a t :
  body = (Returned a, t) → try_except body handler = (Returned a, t).
Proof. now intros ->. Qed.

End Executions.

(** ** The full-market fetches and the notifier *)

Section Fetches.

Context {F : Type} `{PyFloat F} (world : env F).

(** C10. With an empty bot token (or none) the notifier returns at once:
    nothing is sent and nothing is logged.  With any other token it makes
    one delivery attempt and returns; when the attempt raises, the
    exception is logged as an error and goes no further. *)
Theorem send_telegram_message_guards (config : config F) (message_text : string) :
  (str_falsy (telegram_bot_token config) = true →
     send_telegram_message world config message_text = (Returned tt, []))
  ∧
  (∀ bot_token, telegram_bot_token config = Some bot_token → bot_token ≠ "" →
     let call := {| token := bot_token; chat_id := telegram_group_chat_id config;
                    text := message_text;
                    message_thread_id := telegram_message_thread_id config |} in
     match bot_send_message world call with
     | None =>
         send_telegram_message world config message_text = (Returned tt, [SendMessage call])
     | Some e =>
         send_telegram_message world config message_text =
         (Returned tt, [SendMessage call; Log ERROR (ErrorSendingTelegramMessage e)])
     end).
Proof.
  split.
  - intros Hempty. unfold send_telegram_message. now rewrite Hempty.
  - intros bot_token Htoken Hne call. unfold send_telegram_message.
    rewrite Htoken. cbn [str_falsy from_option id].
    destruct (String.eqb_spec bot_token ""); [contradiction|].
    unfold deliver, try_except. fold call.
    now destruct (bot_send_message world call).
Qed.

(** The notifier itself never raises. *)
Lemma send_telegram_message_returns (config : config F) (message_text : string) :
  ∃ trace, send_telegram_message world config message_text = (Returned tt, trace).
Proof.
  unfold send_telegram_message.
  destruct (str_falsy (telegram_bot_token config)); [now exists []|].
  unfold deliver, try_except.
  destruct (bot_send_message world _); eauto.
Qed.

End Fetches.

(** ** The market snapshot and the price table *)

Section Tables.

Context {F : Type} `{PyFloat F} (world : env F).

Lemma quote_is_usdt_dict (d : json F) :
  is_dict d = true → quote_is_usdt d = Returned (quoted_in_usdt d).
Proof.
  destruct d as [| | | | |members]; try discriminate. intros _.
  unfold quote_is_usdt, quoted_in_usdt, py_get.
  cbn. destruct (assoc "quoteAsset" members) as [[]|]; reflexivity.
Qed.

Lemma quote_is_usdt_not_dict (d : json F) :
  is_dict d = false → quote_is_usdt d = Raised AttributeError.
Proof. destruct d; try discriminate; reflexivity. Qed.

(** The comprehension is the filter when every entry is an object ... *)
Lemma usdt_markets_dicts (items : list (string * json F)) :
  Forall (λ sd, is_dict sd.2 = true) items →
  usdt_markets items = Returned (filter (λ sd, Is_true (quoted_in_usdt sd.2)) items).
Proof.
  induction 1 as [|[s d] rest Hd _ IH]; [reflexivity|].
  cbn [usdt_markets]. rewrite (quote_is_usdt_dict d Hd). cbn. rewrite IH. cbn.
  destruct (quoted_in_usdt d); reflexivity.
Qed.

(** ... and raises as soon as one is not. *)
Lemma usdt_markets_not_dict (items : list (string * json F)) :
  Exists (λ sd, is_dict sd.2 = false) items →
  usdt_markets items = Raised AttributeError.
Proof.
  induction items as [|[s d] rest IH]; intros Hex; [inversion Hex|].
  cbn [usdt_markets].
  destruct (is_dict d) eqn:Hd.
  - rewrite (quote_is_usdt_dict d Hd). cbn.
    rewrite IH; [reflexivity|]. inversion Hex as [? ? Hx|]; subst; [|assumption].
    cbn in Hx. congruence.
  - now rewrite (quote_is_usdt_not_dict d Hd).
Qed.

Lemma usdt_markets_returned (items kept : list (string * json F)) :
  usdt_markets items = Returned kept →
  kept = filter (λ sd, Is_true (quoted_in_usdt sd.2)) items.
Proof.
  intros Hret.
  destruct (decide (Forall (λ sd, is_dict sd.2 = true) items)) as [Hall|Hnot].
  - rewrite (usdt_markets_dicts items Hall) in Hret. congruence.
  - apply not_Forall_Exists in Hnot; [|intros x; apply _].
    rewrite usdt_markets_not_dict in Hret; [discriminate|].
    eapply Exists_impl; [exact Hnot|]. intros [s d]. cbn.
    now destruct (is_dict d).
Qed.

(** C7. [get_wallex_usdt_markets] returns entries of the listing only,
    each with quote asset USDT.  When the request is answered and the
    listing under result/symbols is an object whose entries are objects,
    the snapshot is the listing filtered on the quote asset, in the
    listing's order: an entry is in it exactly when it is in the listing
    and its quote asset is USDT.  (A listing with an entry that is no
    object makes the fetch fail, and the snapshot is then empty.) *)
Theorem market_snapshot_is_the_usdt_listing (config : config F) :
  ∃ markets trace,
    get_wallex_usdt_markets world config = (Returned markets, trace) ∧
    (∀ s d, (s, d) ∈ markets → quoted_in_usdt d = true) ∧
    (∀ r result listing,
       http_get world (markets_request config) = Returned r →
       py_get r "result" (JObj []) = Returned result →
       py_get result "symbols" (JObj []) = Returned (JObj listing) →
       (∀ s d, (s, d) ∈ markets → (s, d) ∈ listing) ∧
       (Forall (λ sd, is_dict sd.2 = true) listing →
          trace = [HttpGet (markets_request config)] ∧
          markets = filter (λ sd, Is_true (quoted_in_usdt sd.2)) listing ∧
          ∀ s d, (s, d) ∈ markets ↔ (s, d) ∈ listing ∧ quoted_in_usdt d = true) ∧
       (Exists (λ sd, is_dict sd.2 = false) listing → markets = [])).
Proof.
  unfold get_wallex_usdt_markets, get_wallex_usdt_markets_try, requests_get.
  destruct (http_get world (markets_request config)) as [r|e] eqn:Hr; cbn.
  2:{ eexists _, _. split; [reflexivity|]. split; [intros s d Hin; inversion Hin|].
      intros; discriminate. }
  destruct (py_get r "result" (JObj [])) as [result|e] eqn:Hresult; cbn.
  2:{ eexists _, _. split; [reflexivity|]. split; [intros s d Hin; inversion Hin|].
      intros r' result' listing' ? ? ?. congruence. }
  destruct (py_get result "symbols" (JObj [])) as [data|e] eqn:Hdata; cbn.
  2:{ eexists _, _. split; [reflexivity|]. split; [intros s d Hin; inversion Hin|].
      intros r' result' listing' ? ? ?. congruence. }
  destruct (py_items data) as [items|e] eqn:Hitems; cbn.
  2:{ eexists _, _. split; [reflexivity|]. split; [intros s d Hin; inversion Hin|].
      intros r' result' listing' ? ? ?.
      assert (data = JObj listing') by congruence. subst. discriminate. }
  assert (data = JObj items) as -> by (destruct data; cbn in Hitems; congruence).
  destruct (usdt_markets items) as [kept|e] eqn:Hkept; cbn.
  - apply usdt_markets_returned in Hkept as Hfilter.
    eexists _, _. split; [reflexivity|]. split.
    + intros s d Hin. rewrite Hfilter in Hin.
      apply list_elem_of_filter in Hin as [Hq _]. now apply Is_true_true.
    + intros r' result' listing' ? ? ?.
      assert (listing' = items) as -> by congruence. split; [|split].
      * intros s d Hin. rewrite Hfilter in Hin. now apply list_elem_of_filter in Hin.
      * intros _. split; [reflexivity|]. split; [exact Hfilter|].
        intros s d. rewrite Hfilter, list_elem_of_filter. cbn [snd].
        rewrite Is_true_true. tauto.
      * intros Hex. rewrite (usdt_markets_not_dict items Hex) in Hkept. discriminate.
  - eexists _, _. split; [reflexivity|]. split; [intros s d Hin; inversion Hin|].
    intros r' result' listing' ? ? ?.
      assert (listing' = items) as -> by congruence. split; [|split].
    + intros s d Hin. inversion Hin.
    + intros Hall. rewrite (usdt_markets_dicts items Hall) in Hkept. discriminate.
    + reflexivity.
Qed.

End Tables.

Section PriceTable.

Context {F : Type} `{PyFloat F} (world : env F).

Lemma dict_fold_lookup (entries : list (string * F)) (m : gmap string F) k v :
  foldl (λ prices kv, <[kv.1 := kv.2]> prices) m entries !! k = Some v →
  (k, v) ∈ entries ∨ m !! k = Some v.
Proof.
  revert m. induction entries as [|[k' v'] rest IH]; intros m; cbn [foldl]; [auto|].
  intros Hl. apply IH in Hl as [Hin|Hl]; [left; now apply list_elem_of_further|].
  cbn [fst snd] in Hl. destruct (decide (k' = k)) as [->|Hne].
  - rewrite lookup_insert_eq in Hl. injection Hl as ->. left. apply list_elem_of_here.
  - rewrite lookup_insert_ne in Hl by assumption. now right.
Qed.

Lemma dict_fold_absent (entries : list (string * F)) (m : gmap string F) k :
  k ∉ entries.*1 →
  foldl (λ prices kv, <[kv.1 := kv.2]> prices) m entries !! k = m !! k.
Proof.
  revert m. induction entries as [|[k' v'] rest IH]; intros m Hk; cbn [foldl]; [reflexivity|].
  cbn in Hk. apply not_elem_of_cons in Hk as [Hne Hk].
  rewrite IH by assumption. cbn [fst snd]. now rewrite lookup_insert_ne.
Qed.

(** The last assignment to a key is the one that stays. *)
Lemma dict_of_last (pre post : list (string * F)) k v :
  k ∉ post.*1 → dict_of (pre ++ (k, v) :: post) !! k = Some v.
Proof.
  intros Hk. unfold dict_of. rewrite foldl_app. cbn [foldl].
  rewrite dict_fold_absent by assumption. cbn [fst snd]. apply lookup_insert_eq.
Qed.

Lemma dict_of_lookup (entries : list (string * F)) k v :
  dict_of entries !! k = Some v → (k, v) ∈ entries.
Proof.
  intros Hl. apply dict_fold_lookup in Hl as [Hin|Hl]; [assumption|].
  now rewrite lookup_empty in Hl.
Qed.

Lemma ticker_prices_entries (tickers : list (json F)) (entries : list (string * F)) m :
  Forall2 (λ ticker kv, ticker_entry world ticker = Returned kv) tickers entries →
  ticker_prices world tickers m =
  Returned (foldl (λ prices kv, <[kv.1 := kv.2]> prices) m entries).
Proof.
  intros Hall. revert m. induction Hall as [|ticker [k v] tickers entries Hk _ IH]; intros m.
  - reflexivity.
  - cbn [ticker_prices foldl]. rewrite Hk. cbn. apply IH.
Qed.

Lemma ticker_prices_raises (tickers : list (json F)) ticker e m :
  ticker ∈ tickers → ticker_entry world ticker = Raised e →
  ∃ e', ticker_prices world tickers m = Raised e'.
Proof.
  intros Hin Hraise. revert m.
  induction Hin as [ticker rest|ticker other rest Hin IH]; intros m; cbn [ticker_prices].
  - rewrite Hraise. cbn. eauto.
  - destruct (ticker_entry world other) as [[k v]|e'']; cbn; [apply IH, Hraise | eauto].
Qed.

Lemma ticker_prices_returned (tickers : list (json F)) m prices :
  ticker_prices world tickers m = Returned prices →
  ∃ entries,
    Forall2 (λ ticker kv, ticker_entry world ticker = Returned kv) tickers entries ∧
    prices = foldl (λ prices kv, <[kv.1 := kv.2]> prices) m entries.
Proof.
  revert m. induction tickers as [|ticker rest IH]; intros m; cbn [ticker_prices].
  - intros [= <-]. exists []. split; [constructor | reflexivity].
  - destruct (ticker_entry world ticker) as [[k v]|e] eqn:Hk; cbn; [|discriminate].
    intros Hrest. apply IH in Hrest as (entries & Hall & ->).
    exists ((k, v) :: entries). split; [now constructor | reflexivity].
Qed.

(** A ticker whose price cannot be read has no entry. *)
Lemma ticker_entry_unreadable (ticker : json F) :
  price_unreadable world ticker → ∃ e, ticker_entry world ticker = Raised e.
Proof.
  intros (close & e & Hclose & Hfloat). unfold ticker_entry.
  destruct ticker as [| | | | |members]; try discriminate.
  cbn [py_get] in *. cbn.
  destruct (py_replace_dash _) as [k|e']; cbn; [|eauto].
  injection Hclose as ->. rewrite Hfloat. cbn. eauto.
Qed.

(** The trace and the result of the fetch once the tickers are known. *)
Lemma get_coincatch_prices_answered (config : config F) r data tickers :
  http_get world (tickers_request config) = Returned r →
  py_get r "data" (JArr []) = Returned data →
  py_iter data = Returned tickers →
  get_coincatch_prices world config =
  match ticker_prices world tickers ∅ with
  | Returned prices =>
      (Returned (filter usable_price prices),
       [HttpGet (tickers_request config); Log INFO (FetchedTickers (size prices))])
  | Raised e =>
      (Returned ∅,
       [HttpGet (tickers_request config); Log ERROR (ErrorFetchingCoinCatchPrices e)])
  end.
Proof.
  intros Hr Hdata Htickers.
  unfold get_coincatch_prices, get_coincatch_prices_try, requests_get.
  rewrite Hr. cbn. rewrite Hdata. cbn. rewrite Htickers. cbn.
  destruct (ticker_prices world tickers ∅); reflexivity.
Qed.

(** One unreadable price empties the table. *)
Lemma unreadable_price_empties_table (config : config F) r data tickers ticker :
  http_get world (tickers_request config) = Returned r →
  py_get r "data" (JArr []) = Returned data →
  py_iter data = Returned tickers →
  ticker ∈ tickers → price_unreadable world ticker →
  ∃ e, get_coincatch_prices world config =
       (Returned ∅,
        [HttpGet (tickers_request config); Log ERROR (ErrorFetchingCoinCatchPrices e)]).
Proof.
  intros Hr Hdata Htickers Hin Hbad.
  rewrite (get_coincatch_prices_answered config r data tickers Hr Hdata Htickers).
  destruct (ticker_entry_unreadable ticker Hbad) as [e He].
  destruct (ticker_prices_raises tickers ticker e ∅ Hin He) as [e' ->]. eauto.
Qed.

(** C2, as the code has it. The fetch is all or nothing.  Given an
    answered request whose [data] can be iterated:
    - if the price of some ticker cannot be read (missing, null, or a text
      that is no number), or its entry fails in any other way, the
      returned table is empty: neither that ticker nor any other is in it,
      and the failure is logged as an error;
    - if every ticker has an entry, the table is what remains of the dict
      of those entries after dropping empty symbols and zero prices: every
      binding of the table is an entry, and an entry with a non-empty
      symbol and a nonzero price is in the table unless a later ticker
      has the same symbol. *)
Theorem coincatch_prices_all_or_nothing (config : config F) r data tickers :
  http_get world (tickers_request config) = Returned r →
  py_get r "data" (JArr []) = Returned data →
  py_iter data = Returned tickers →
  (∀ ticker, ticker ∈ tickers →
     price_unreadable world ticker ∨ (∃ e, ticker_entry world ticker = Raised e) →
     ∃ e, get_coincatch_prices world config =
          (Returned ∅,
           [HttpGet (tickers_request config); Log ERROR (ErrorFetchingCoinCatchPrices e)]))
  ∧
  (∀ entries,
     Forall2 (λ ticker kv, ticker_entry world ticker = Returned kv) tickers entries →
     get_coincatch_prices world config =
     (Returned (filter usable_price (dict_of entries)),
      [HttpGet (tickers_request config); Log INFO (FetchedTickers (size (dict_of entries)))]) ∧
     (∀ k v, filter usable_price (dict_of entries) !! k = Some v →
        (k, v) ∈ entries ∧ k ≠ "" ∧ f_eqb v f_zero = false) ∧
     (∀ pre k v post, entries = (pre ++ (k, v) :: post)%list → k ∉ post.*1 →
        k ≠ "" → f_eqb v f_zero = false →
        filter usable_price (dict_of entries) !! k = Some v)).
Proof.
  intros Hr Hdata Htickers.
  rewrite (get_coincatch_prices_answered config r data tickers Hr Hdata Htickers).
  split.
  - intros ticker Hin Hbad.
    assert (∃ e, ticker_entry world ticker = Raised e) as [e He].
    { destruct Hbad as [Hbad|Hbad]; [now apply ticker_entry_unreadable | exact Hbad]. }
    destruct (ticker_prices_raises tickers ticker e ∅ Hin He) as [e' ->]. eauto.
  - intros entries Hall. rewrite (ticker_prices_entries tickers entries ∅ Hall).
    fold (dict_of entries). split; [reflexivity|]. split.
    + intros k v Hl. apply map_lookup_filter_Some in Hl as [Hl [Hk Hv]].
      cbn [fst snd] in *. split; [now apply dict_of_lookup|]. split; [assumption|].
      unfold float_truthy in Hv. now destruct (f_eqb v f_zero).
    + intros pre k v post -> Hk Hne Hv. apply map_lookup_filter_Some.
      split; [now apply dict_of_last|]. split; [assumption|].
      cbn [snd]. unfold float_truthy. now rewrite Hv.
Qed.

(** C6, as the code has it. Every binding of the returned price table
    has a non-empty symbol and a price that is not zero (the code tests
    the price for truth, not for sign).  A ticker whose price cannot be
    read is never in the table, because the table is then empty. *)
Theorem price_table_entries_are_nonzero (config : config F) prices trace :
  get_coincatch_prices world config = (Returned prices, trace) →
  (∀ k v, prices !! k = Some v → k ≠ "" ∧ f_eqb v f_zero = false) ∧
  (∀ r data tickers ticker,
     http_get world (tickers_request config) = Returned r →
     py_get r "data" (JArr []) = Returned data →
     py_iter data = Returned tickers →
     ticker ∈ tickers → price_unreadable world ticker → prices = ∅).
Proof.
  intros Hget. split.
  - intros k v Hl. revert Hget.
    unfold get_coincatch_prices, try_except.
    destruct (get_coincatch_prices_try world config) as [[table|e] t] eqn:Hbody.
    + intros [= <- <-]. revert Hbody.
      unfold get_coincatch_prices_try, requests_get.
      destruct (http_get world _) as [r|e]; cbn; [|discriminate].
      destruct (py_get r "data" _) as [data|e]; cbn; [|discriminate].
      destruct (py_iter data) as [tickers|e]; cbn; [|discriminate].
      destruct (ticker_prices world tickers ∅) as [raw|e]; cbn; [|discriminate].
      intros [= <- _]. apply map_lookup_filter_Some in Hl as [_ [Hk Hv]].
      cbn [fst snd] in *. split; [assumption|].
      unfold float_truthy in Hv. now destruct (f_eqb v f_zero).
    + cbn. intros [= <- _]. now rewrite lookup_empty in Hl.
  - intros r data tickers ticker Hr Hdata Htickers Hin Hbad.
    destruct (unreadable_price_empties_table config r data tickers ticker
                Hr Hdata Htickers Hin Hbad) as [e He].
    rewrite He in Hget. congruence.
Qed.

End PriceTable.

(** ** The analysis cycle *)

(** Running the sequencing of a body, and nothing else. *)
Ltac run_steps :=
  cbv beta iota delta
    [mbind M_bind bind mret M_ret ret lift emit logger print asyncio_sleep];
  cbn [app].

(** Closing a branch of a fetch: it returned, with market-wide events. *)
Ltac fetch_done :=
  eexists _, _; split; [reflexivity|]; cbn [app];
  repeat (apply Forall_cons_2; [cbn; auto|]); apply Forall_nil_2.

Section Cycle.

Context {F : Type} `{PyFloat F} (world : env F).

Lemma api_key_unusable_cases (api_key : option string) :
  api_key_unusable api_key = true ↔
  api_key = None ∨ api_key = Some "" ∨ api_key = Some "YOUR_API_KEY_HERE".
Proof.
  unfold api_key_unusable, str_falsy. destruct api_key as [k|].
  - rewrite orb_true_iff, bool_decide_eq_true. split.
    + intros [Hk|Hk]; [|auto]. apply String.eqb_eq in Hk as ->. auto.
    + intros [?|[[= ->]|?]]; [discriminate|left; reflexivity|auto].
  - cbn. intuition.
Qed.

(** The last-trade fetch never raises; it does nothing, or makes its one
    request, or makes it and logs a warning. *)
Lemma get_wallex_last_trade_price_returns (config : config F) (symbol : string) :
  ∃ price t,
    get_wallex_last_trade_price world config symbol = (Returned price, t) ∧
    (t = [] ∨
     ∃ key, wallex_api_key config = Some key ∧
       (t = [HttpGet (trades_request config key symbol)] ∨
        ∃ e, price = None ∧
          t = [HttpGet (trades_request config key symbol);
               Log WARNING (CouldNotFetchWallexLastTrade symbol e)])).
Proof.
  unfold get_wallex_last_trade_price, get_wallex_last_trade_price_try, try_except, requests_get.
  destruct (api_key_unusable (wallex_api_key config)) eqn:Hkey; cbn; [eauto|].
  destruct (wallex_api_key config) as [key|]; [|discriminate]. cbn [from_option id].
  destruct (http_get world _) as [r|e]; cbn; [|eauto 10].
  destruct (py_get r "result" _) as [result|e]; cbn; [|eauto 10].
  destruct (py_get result "latestTrades" _) as [trades|e]; cbn; [|eauto 10].
  destruct (py_truthy trades); cbn; [|eauto 10].
  destruct (py_first trades) as [trade|e]; cbn; [|eauto 10].
  destruct (py_getitem trade "price") as [price|e]; cbn; [|eauto 10].
  destruct (py_float world price) as [p|e]; cbn; eauto 10.
Qed.

Lemma get_wallex_last_trade_price_no_key (config : config F) (symbol : string) :
  api_key_unusable (wallex_api_key config) = true →
  get_wallex_last_trade_price world config symbol = (Returned None, []).
Proof.
  intros Hkey.
  unfold get_wallex_last_trade_price, get_wallex_last_trade_price_try, try_except.
  now rewrite Hkey.
Qed.

(** The guard of the loop lets a pair through exactly when both prices
    are there and neither is zero. *)
Lemma both_prices_some (wallex_price coincatch_price : option F) a b :
  both_prices wallex_price coincatch_price = Some (a, b) ↔
  wallex_price = Some a ∧ coincatch_price = Some b ∧
  f_eqb a f_zero = false ∧ f_eqb b f_zero = false.
Proof.
  unfold both_prices, float_truthy.
  destruct wallex_price as [a'|], coincatch_price as [b'|]; cbn;
    try (split; [discriminate | intros (Ea & Eb & _); discriminate]).
  destruct (f_eqb a' f_zero) eqn:Ha, (f_eqb b' f_zero) eqn:Hb; cbn;
    (split;
     [ intros Heq; try discriminate; injection Heq as <- <-; auto
     | intros (Ea & Eb & Za & Zb); injection Ea as <-; injection Eb as <-; congruence ]).
Qed.

Lemma both_prices_none (wallex_price coincatch_price : option F) :
  both_prices wallex_price coincatch_price = None ↔
  wallex_price = None ∨ (∃ a, wallex_price = Some a ∧ f_eqb a f_zero = true) ∨
  coincatch_price = None ∨ (∃ b, coincatch_price = Some b ∧ f_eqb b f_zero = true).
Proof.
  unfold both_prices, float_truthy.
  destruct wallex_price as [a|], coincatch_price as [b|]; cbn; try (split; auto; fail).
  destruct (f_eqb a f_zero) eqn:Ha, (f_eqb b f_zero) eqn:Hb; cbn;
    (split;
     [ intros Heq; try discriminate; eauto 10
     | intros [E|[(x & E & Z)|[E|(x & E & Z)]]]; try discriminate;
       injection E as <-; congruence ]).
Qed.

(** The division of the loop is defined for every pair the guard lets
    through. *)
Lemma percentage_difference_defined (a b : F) :
  f_eqb b f_zero = false →
  percentage_difference a b = Returned (f_mul (f_quot (f_sub a b) b) f_hundred).
Proof. intros Hb. unfold percentage_difference, py_div. now rewrite Hb. Qed.

Lemma percentage_difference_zero_divisor (a b : F) :
  f_eqb b f_zero = true → percentage_difference a b = Raised ZeroDivisionError.
Proof. intros Hb. unfold percentage_difference, py_div. now rewrite Hb. Qed.

(** The signal branch, run. *)
Lemma signal_found_run (config : config F) symbol market_data a b d :
  signal_found world config symbol market_data a b d =
  match py_getitem market_data "baseAsset" with
  | Returned base_asset =>
      (Returned tt,
       Print SignalFound ::
       (send_telegram_message world config (signal_text world symbol base_asset a b d)).2)
  | Raised e => (Raised e, [Print SignalFound])
  end.
Proof.
  unfold signal_text.
  unfold signal_found. run_steps.
  destruct (py_getitem market_data "baseAsset") as [base_asset|e]; [|reflexivity].
  destruct (classify d) as [action profit]. cbn [fst snd].
  match goal with |- context [send_telegram_message world config ?m] =>
    destruct (send_telegram_message_returns world config m) as [sent ->]
  end.
  reflexivity.
Qed.

(** The comparison branch, run. *)
Lemma compare_prices_run (config : config F) threshold symbol market_data a b :
  f_eqb b f_zero = false →
  let d := f_mul (f_quot (f_sub a b) b) f_hundred in
  compare_prices world config threshold symbol market_data a b =
  if f_leb threshold (f_abs d) then
    ((signal_found world config symbol market_data a b d).1,
     (comparison_lines symbol a b d ++ (signal_found world config symbol market_data a b d).2)%list)
  else (Returned tt, (comparison_lines symbol a b d ++ [Print NoSignal])%list).
Proof.
  intros Hb d. unfold compare_prices.
  rewrite (percentage_difference_defined a b Hb). fold d. run_steps.
  destruct (f_leb threshold (f_abs d)); [|reflexivity].
  now destruct (signal_found world config symbol market_data a b d).
Qed.

(** One turn of the loop, run from the two prices. *)
Lemma check_symbol_run (config : config F) threshold prices symbol market_data wallex_price t :
  get_wallex_last_trade_price world config symbol = (Returned wallex_price, t) →
  check_symbol world config threshold prices (symbol, market_data) =
  match both_prices wallex_price (prices !! symbol) with
  | Some (a, b) =>
      match compare_prices world config threshold symbol market_data a b with
      | (Returned _, t') => (Returned tt, (t ++ t' ++ [Sleep (1 # 2)%Q])%list)
      | (Raised e, t') => (Raised e, (t ++ t')%list)
      end
  | None => (Returned tt, (t ++ [Sleep (1 # 2)%Q])%list)
  end.
Proof.
  intros Hfetch. unfold check_symbol. run_steps. rewrite Hfetch.
  destruct (both_prices wallex_price (prices !! symbol)) as [[a b]|]; [|reflexivity].
  destruct (compare_prices world config threshold symbol market_data a b) as [[[]|e] t'];
    reflexivity.
Qed.

(** Neither the two fetches nor the notifier touch the console, and the
    last-trade fetch sends nothing. *)
Lemma get_wallex_last_trade_price_quiet (config : config F) symbol price t :
  get_wallex_last_trade_price world config symbol = (Returned price, t) →
  existsb is_print t = false ∧ existsb is_send t = false.
Proof.
  intros Hfetch.
  destruct (get_wallex_last_trade_price_returns config symbol)
    as (price' & t' & Hrun & Hshape).
  rewrite Hfetch in Hrun. injection Hrun as <- <-.
  destruct Hshape as [->|(key & _ & [->|(e & _ & ->)])]; auto.
Qed.

Lemma send_telegram_message_trace (config : config F) (message_text : string) :
  let sent := (send_telegram_message world config message_text).2 in
  existsb is_print sent = false ∧
  existsb is_send sent = negb (str_falsy (telegram_bot_token config)).
Proof.
  unfold send_telegram_message.
  destruct (str_falsy (telegram_bot_token config)); [auto|].
  unfold deliver, try_except. destruct (bot_send_message world _); auto.
Qed.

(** C3. Take a symbol for which both prices are there and not zero, in
    a market entry that names its base asset.  The turn of the loop for it
    returns, and its trace is the last-trade fetch, the five comparison
    lines, then
    - when [abs(percentage_diff) >= signal_threshold]: the line SIGNAL
      FOUND and the notifier run on the signal's text;
    - otherwise: the line saying there is no signal, and nothing sent;
    and last the pacing sleep.  So the signal line is in the trace exactly
    when the threshold is reached, and with a bot token that is not empty
    so is a send.  The comparison is inclusive: a magnitude equal to the
    threshold reaches it. *)
Theorem signal_exactly_when_threshold_reached `{!PyFloatOrder F} (config : config F)
    (threshold : F) (prices : gmap string F) (symbol : string)
    (market_data base_asset : json F) (a b : F) (t : list (event F)) :
  get_wallex_last_trade_price world config symbol = (Returned (Some a), t) →
  prices !! symbol = Some b →
  f_eqb a f_zero = false →
  f_eqb b f_zero = false →
  py_getitem market_data "baseAsset" = Returned base_asset →
  let d := f_mul (f_quot (f_sub a b) b) f_hundred in
  let reached := f_leb threshold (f_abs d) in
  let notify := send_telegram_message world config (signal_text world symbol base_asset a b d) in
  let run := check_symbol world config threshold prices (symbol, market_data) in
  run.1 = Returned tt ∧
  run.2 =
    (t ++ comparison_lines symbol a b d ++
     (if reached then Print SignalFound :: notify.2 else [Print NoSignal]) ++
     [Sleep (1 # 2)%Q])%list ∧
  existsb is_signal_line run.2 = reached ∧
  (str_falsy (telegram_bot_token config) = false → existsb is_send run.2 = reached) ∧
  (reached = false → existsb is_send run.2 = false) ∧
  (f_eqb (f_abs d) threshold = true → reached = true).
Proof.
  intros Hfetch Hprice Ha Hb Hbase d reached notify run.
  assert (run = (Returned tt,
                 (t ++ comparison_lines symbol a b d ++
                  (if reached then Print SignalFound :: notify.2 else [Print NoSignal]) ++
                  [Sleep (1 # 2)%Q])%list)) as Hrun.
  { unfold run. rewrite (check_symbol_run config threshold prices symbol market_data _ _ Hfetch).
    rewrite Hprice.
    assert (both_prices (Some a) (Some b) = Some (a, b)) as ->
      by (apply both_prices_some; auto).
    rewrite (compare_prices_run config threshold symbol market_data a b Hb).
    fold d. fold reached. destruct reached.
    - rewrite signal_found_run, Hbase. cbn [fst snd]. fold notify.
      now rewrite <- !app_assoc.
    - now rewrite <- !app_assoc. }
  destruct (get_wallex_last_trade_price_quiet config symbol _ _ Hfetch) as [Hp Hs].
  destruct (send_telegram_message_trace config (signal_text world symbol base_asset a b d))
    as [Hnp Hns]. fold notify in Hnp, Hns.
  rewrite Hrun. cbn [fst snd]. repeat split.
  - rewrite !existsb_app.
    assert (existsb is_signal_line t = false) as ->.
    { clear -Hp. induction t as [|e t IH]; [reflexivity|].
      cbn in *. apply orb_false_iff in Hp as [He Ht].
      rewrite (IH Ht). now destruct e as [| [] | | |]. }
    destruct reached; cbn; [reflexivity|reflexivity].
  - intros Htoken. rewrite !existsb_app, Hs. destruct reached; cbn.
    + rewrite Hns, Htoken. reflexivity.
    + reflexivity.
  - intros ->. rewrite !existsb_app, Hs. reflexivity.
  - apply f_eqb_leb.
Qed.

(** The exception a turn of the loop can end with is the one of a market
    entry without a base asset. *)
Lemma check_symbol_raised (config : config F) threshold prices symbol market_data e t :
  check_symbol world config threshold prices (symbol, market_data) = (Raised e, t) →
  py_getitem market_data "baseAsset" = Raised e.
Proof.
  destruct (get_wallex_last_trade_price_returns config symbol) as (price & t0 & Hfetch & _).
  rewrite (check_symbol_run config threshold prices symbol market_data _ _ Hfetch).
  destruct (both_prices price (prices !! symbol)) as [[a b]|] eqn:Hboth; [|discriminate].
  apply both_prices_some in Hboth as (_ & _ & _ & Hb).
  rewrite (compare_prices_run config threshold symbol market_data a b Hb).
  destruct (f_leb threshold _); [|discriminate].
  rewrite signal_found_run.
  destruct (py_getitem market_data "baseAsset"); cbn; [discriminate|].
  now intros [= -> _].
Qed.

Lemma py_getitem_raised (d : json F) key e :
  py_getitem d key = Raised e → e = KeyError key ∨ e = TypeError.
Proof.
  destruct d as [| | | | |members]; cbn; try (intros [= <-]; auto).
  destruct (assoc key members); [discriminate | intros [= <-]; auto].
Qed.

Lemma for_each_raised {A : Type} (xs : list A) (body : A → @M F unit) e t :
  for_each xs body = (Raised e, t) → ∃ x t', x ∈ xs ∧ body x = (Raised e, t').
Proof.
  revert t. induction xs as [|x rest IH]; intros t; cbn [for_each]; [discriminate|].
  unfold bind. destruct (body x) as [[[]|e'] t1] eqn:Hx.
  - destruct (for_each rest body) as [r t2] eqn:Hrest. intros [= -> _].
    destruct (IH _ eq_refl) as (y & t' & Hin & Hy).
    exists y, t'. split; [now apply list_elem_of_further | exact Hy].
  - intros [= -> _]. exists x, t1. split; [apply list_elem_of_here | exact Hx].
Qed.

(** The two full-market fetches return, and do only market-wide things. *)
Lemma get_coincatch_prices_returns (config : config F) :
  ∃ prices t,
    get_coincatch_prices world config = (Returned prices, t) ∧ Forall (market_wide config) t.
Proof.
  unfold get_coincatch_prices, get_coincatch_prices_try, try_except, requests_get.
  run_steps.
  destruct (http_get world _) as [r|e]; [|fetch_done].
  destruct (py_get r "data" _) as [data|e]; [|fetch_done].
  destruct (py_iter data) as [tickers|e]; [|fetch_done].
  destruct (ticker_prices world tickers ∅) as [prices|e];
    fetch_done.
Qed.

Lemma get_wallex_usdt_markets_returns (config : config F) :
  ∃ markets t,
    get_wallex_usdt_markets world config = (Returned markets, t) ∧ Forall (market_wide config) t.
Proof.
  unfold get_wallex_usdt_markets, get_wallex_usdt_markets_try, try_except, requests_get.
  run_steps.
  destruct (http_get world _) as [r|e]; [|fetch_done].
  destruct (py_get r "result" _) as [result|e]; [|fetch_done].
  destruct (py_get result "symbols" _) as [data|e]; [|fetch_done].
  destruct (py_items data) as [items|e]; [|fetch_done].
  destruct (usdt_markets items) as [markets|e];
    fetch_done.
Qed.

(** The cycle, run from what the two fetches returned. *)
Lemma analyze_prices_run (config : config F) prices t1 markets t2 :
  get_coincatch_prices world config = (Returned prices, t1) →
  get_wallex_usdt_markets world config = (Returned markets, t2) →
  analyze_prices world config =
  let loop :=
    for_each markets
      (check_symbol world config (price_difference_threshold config) prices) in
  if bool_decide (size prices = 0) || bool_decide (length markets = 0) then
    (Returned tt,
     (Log INFO StartingNewAnalysisCycle :: t1 ++ t2 ++ [Log WARNING CouldNotFetchNecessaryData])%list)
  else if api_key_unusable (wallex_api_key config) then
    (Returned tt,
     (Log INFO StartingNewAnalysisCycle :: t1 ++ t2 ++
      [Log INFO (ComparingMarkets (length markets)); Log ERROR WallexApiKeyMissing])%list)
  else
    (loop.1,
     (Log INFO StartingNewAnalysisCycle :: t1 ++ t2 ++
      Log INFO (ComparingMarkets (length markets)) :: loop.2)%list).
Proof.
  intros Hprices Hmarkets. unfold analyze_prices. run_steps.
  rewrite Hprices, Hmarkets.
  destruct (bool_decide (size prices = 0) || bool_decide (length markets = 0)); [reflexivity|].
  destruct (api_key_unusable (wallex_api_key config)); [reflexivity|].
  destruct (for_each markets _) as [r t3]. reflexivity.
Qed.

(** The one way a cycle can end with an exception: a market entry
    without a base asset, met when its signal is found. *)
Lemma analyze_prices_raised (config : config F) e t :
  analyze_prices world config = (Raised e, t) →
  ∃ markets t' s d,
    get_wallex_usdt_markets world config = (Returned markets, t') ∧
    (s, d) ∈ markets ∧ py_getitem d "baseAsset" = Raised e.
Proof.
  intros Hraise.
  destruct (get_coincatch_prices_returns config) as (table & t1 & Hprices & _).
  destruct (get_wallex_usdt_markets_returns config) as (markets & t2 & Hmarkets & _).
  rewrite (analyze_prices_run config table t1 markets t2 Hprices Hmarkets) in Hraise.
  cbv zeta in Hraise.
  destruct (bool_decide _ || bool_decide _); [discriminate|].
  destruct (api_key_unusable _); [discriminate|].
  destruct (for_each markets _) as [r t3] eqn:Hloop. cbn [fst snd] in Hraise.
  injection Hraise as -> _.
  apply for_each_raised in Hloop as ([s d] & t' & Hin & Hturn).
  apply check_symbol_raised in Hturn.
  exists markets, t2, s, d. auto.
Qed.

(** C4, as the code has it. A symbol is skipped when a price is absent
    or zero: the turn of the loop is then the last-trade fetch and the
    pacing sleep, with nothing printed and nothing sent.  (A negative
    price is not zero, and is compared.)  The guard keeps the division
    away from a zero divisor: for every pair it lets through the
    percentage is defined, and neither a turn of the loop nor a whole
    cycle ever ends with ZeroDivisionError. *)
Theorem absent_or_zero_price_skips_symbol (config : config F) (threshold : F)
    (prices : gmap string F) (symbol : string) (market_data : json F) :
  (∀ wallex_price t,
     get_wallex_last_trade_price world config symbol = (Returned wallex_price, t) →
     wallex_price = None ∨ (∃ a, wallex_price = Some a ∧ f_eqb a f_zero = true) ∨
     prices !! symbol = None ∨ (∃ b, prices !! symbol = Some b ∧ f_eqb b f_zero = true) →
     check_symbol world config threshold prices (symbol, market_data) =
       (Returned tt, (t ++ [Sleep (1 # 2)%Q])%list) ∧
     existsb is_print (t ++ [Sleep (1 # 2)%Q]) = false ∧
     existsb is_send (t ++ [Sleep (1 # 2)%Q]) = false)
  ∧
  (∀ wallex_price coincatch_price a b,
     both_prices wallex_price coincatch_price = Some (a, b) →
     f_eqb b f_zero = false ∧
     percentage_difference a b = Returned (f_mul (f_quot (f_sub a b) b) f_hundred))
  ∧
  (∀ a b, f_eqb b f_zero = true →
     percentage_difference a b = Raised ZeroDivisionError ∧
     ∀ wallex_price, both_prices wallex_price (Some b) = None)
  ∧
  (∀ t, check_symbol world config threshold prices (symbol, market_data)
        ≠ (Raised ZeroDivisionError, t))
  ∧
  (∀ t, analyze_prices world config ≠ (Raised ZeroDivisionError, t)).
Proof.
  split; [|split; [|split; [|split]]].
  - intros wallex_price t Hfetch Hskip.
    rewrite (check_symbol_run config threshold prices symbol market_data _ _ Hfetch).
    apply both_prices_none in Hskip as ->.
    destruct (get_wallex_last_trade_price_quiet config symbol _ _ Hfetch) as [Hp Hs].
    rewrite !existsb_app, Hp, Hs. auto.
  - intros wallex_price coincatch_price a b Hboth.
    apply both_prices_some in Hboth as (_ & _ & _ & Hb).
    split; [exact Hb | now apply percentage_difference_defined].
  - intros a b Hb. split; [now apply percentage_difference_zero_divisor|].
    intros wallex_price. apply both_prices_none. eauto 10.
  - intros t Hraise. apply check_symbol_raised in Hraise.
    apply py_getitem_raised in Hraise as [?|?]; discriminate.
  - intros t Hraise.
    apply analyze_prices_raised in Hraise as (markets & t' & s & d & _ & _ & Hbase).
    apply py_getitem_raised in Hbase as [?|?]; discriminate.
Qed.

Lemma market_wide_no_symbol_call (config : config F) (trace : list (event F)) :
  Forall (market_wide config) trace → existsb per_symbol_call trace = false.
Proof.
  induction 1 as [|e trace He _ IH]; [reflexivity|].
  cbn [existsb]. rewrite IH, orb_false_r.
  destruct e as [| |r| |]; cbn in *; try reflexivity; try contradiction.
  destruct He as [->| ->]; reflexivity.
Qed.

(** C5. When the API key is missing, empty or the placeholder, the
    last-trade fetch returns nothing without a request, and the cycle
    returns having made no request for a symbol: what it did is the
    start record, the two full-market fetches and, when both came back
    non-empty, the count record and the error record about the key;
    when one came back empty, the warning that the cycle is skipped. *)
Theorem unusable_api_key_makes_no_symbol_call (config : config F) :
  wallex_api_key config = None ∨ wallex_api_key config = Some "" ∨
  wallex_api_key config = Some "YOUR_API_KEY_HERE" →
  (∀ symbol, get_wallex_last_trade_price world config symbol = (Returned None, [])) ∧
  ∃ prices t1 markets t2,
    get_coincatch_prices world config = (Returned prices, t1) ∧
    get_wallex_usdt_markets world config = (Returned markets, t2) ∧
    let trace := (analyze_prices world config).2 in
    (analyze_prices world config).1 = Returned tt ∧
    trace =
      (Log INFO StartingNewAnalysisCycle :: t1 ++ t2 ++
       (if bool_decide (size prices = 0) || bool_decide (length markets = 0)
        then [Log WARNING CouldNotFetchNecessaryData]
        else [Log INFO (ComparingMarkets (length markets)); Log ERROR WallexApiKeyMissing]))%list ∧
    Forall (market_wide config) trace ∧
    existsb per_symbol_call trace = false.
Proof.
  intros Hkey. apply api_key_unusable_cases in Hkey.
  split; [intros symbol; now apply get_wallex_last_trade_price_no_key|].
  destruct (get_coincatch_prices_returns config) as (prices & t1 & Hprices & Hwide1).
  destruct (get_wallex_usdt_markets_returns config) as (markets & t2 & Hmarkets & Hwide2).
  exists prices, t1, markets, t2. split; [exact Hprices|]. split; [exact Hmarkets|].
  rewrite (analyze_prices_run config prices t1 markets t2 Hprices Hmarkets), Hkey.
  cbv zeta.
  destruct (bool_decide (size prices = 0) || bool_decide (length markets = 0));
    cbn [fst snd]; (split; [reflexivity|]); (split; [reflexivity|]).
  all: match goal with
       | |- Forall _ ?trace ∧ _ => assert (Forall (market_wide config) trace) as Hwide
       end.
  1, 3: constructor; [exact I|]; apply Forall_app; split; [exact Hwide1|];
        apply Forall_app; split; [exact Hwide2|]; repeat constructor.
  all: split; [exact Hwide | now apply (market_wide_no_symbol_call config)].
Qed.

(** C9. Neither full-market fetch raises, whatever the network answers
    and whatever the answer holds: each returns a mapping, and whenever its
    [try] block raised (the request failed, or the body was not of the
    expected shape) that mapping is empty and the last thing it did was to
    log the exception as an error.  In particular a failed request gives
    the empty mapping after the one request and the one error record.
    So nothing a request raises leaves the cycle: a cycle that ends with
    an exception ends with the one of subscripting, for its base asset, a
    market entry of the snapshot that has none. *)
Theorem full_market_fetches_never_raise (config : config F) :
  (∃ markets trace,
     get_wallex_usdt_markets world config = (Returned markets, trace) ∧
     (∀ e t, get_wallex_usdt_markets_try world config = (Raised e, t) →
        markets = [] ∧ trace = (t ++ [Log ERROR (ErrorFetchingWallexMarkets e)])%list) ∧
     (∀ e, http_get world (markets_request config) = Raised e →
        markets = [] ∧
        trace = [HttpGet (markets_request config); Log ERROR (ErrorFetchingWallexMarkets e)]))
  ∧
  (∃ prices trace,
     get_coincatch_prices world config = (Returned prices, trace) ∧
     (∀ e t, get_coincatch_prices_try world config = (Raised e, t) →
        prices = ∅ ∧ trace = (t ++ [Log ERROR (ErrorFetchingCoinCatchPrices e)])%list) ∧
     (∀ e, http_get world (tickers_request config) = Raised e →
        prices = ∅ ∧
        trace = [HttpGet (tickers_request config); Log ERROR (ErrorFetchingCoinCatchPrices e)]))
  ∧
  (∀ e t, analyze_prices world config = (Raised e, t) →
     ∃ markets t' s d,
       get_wallex_usdt_markets world config = (Returned markets, t') ∧
       (s, d) ∈ markets ∧ py_getitem d "baseAsset" = Raised e).
Proof.
  split; [|split]; [| |apply analyze_prices_raised].
  - unfold get_wallex_usdt_markets.
    destruct (get_wallex_usdt_markets_try world config) as [[markets|e] t] eqn:Hbody.
    + exists markets, t. split; [reflexivity|]. split; [discriminate|].
      intros e He. revert Hbody. unfold get_wallex_usdt_markets_try, requests_get.
      rewrite He. discriminate.
    + exists [], (t ++ [Log ERROR (ErrorFetchingWallexMarkets e)])%list.
      split; [reflexivity|]. split.
      * intros e' t' [= <- <-]. auto.
      * intros e' He. revert Hbody. unfold get_wallex_usdt_markets_try, requests_get.
        rewrite He. intros [= <- <-]. auto.
  - unfold get_coincatch_prices.
    destruct (get_coincatch_prices_try world config) as [[prices|e] t] eqn:Hbody.
    + exists prices, t. split; [reflexivity|]. split; [discriminate|].
      intros e He. revert Hbody. unfold get_coincatch_prices_try, requests_get.
      rewrite He. discriminate.
    + exists ∅, (t ++ [Log ERROR (ErrorFetchingCoinCatchPrices e)])%list.
      split; [reflexivity|]. split.
      * intros e' t' [= <- <-]. auto.
      * intros e' He. revert Hbody. unfold get_coincatch_prices_try, requests_get.
        rewrite He. intros [= <- <-]. auto.
Qed.

End Cycle.

(** ** The two carriers *)

Section Carriers.

#[global] Instance rational_order : PyFloatOrder Q.
Proof.
  intros x y Heq. change (Qeq_bool x y = true) in Heq.
  change (Qle_bool y x = true).
  pose proof (proj1 (Qeq_bool_iff x y) Heq) as Hxy.
  apply (proj2 (Qle_bool_iff y x)), Qle_lteq. right. symmetry. exact Hxy.
Qed.

Lemma SFcompare_eq_sym (x y : SpecFloat.spec_float) :
  SpecFloat.SFcompare x y = Some Eq → SpecFloat.SFcompare y x = Some Eq.
Proof.
  destruct x as [sx|sx| |sx mx ex], y as [sy|sy| |sy my ey]; cbn;
    try destruct sx; try destruct sy; try discriminate; try reflexivity.
  - destruct (ex ?= ey)%Z eqn:He; try discriminate.
    apply Z.compare_eq_iff in He as ->. rewrite Z.compare_refl.
    fold (Pos.compare mx my). fold (Pos.compare my mx).
    rewrite (Pos.compare_antisym mx my).
    destruct (mx ?= my)%positive; cbn; congruence.
  - destruct (ex ?= ey)%Z eqn:He; try discriminate.
    apply Z.compare_eq_iff in He as ->. rewrite Z.compare_refl.
    fold (Pos.compare mx my). fold (Pos.compare my mx).
    rewrite (Pos.compare_antisym mx my).
    destruct (mx ?= my)%positive; cbn; congruence.
Qed.

#[global] Instance binary64_order : PyFloatOrder PrimFloat.float.
Proof.
  intros x y. cbn. rewrite FloatAxioms.eqb_spec, FloatAxioms.leb_spec.
  unfold SpecFloat.SFeqb, SpecFloat.SFleb.
  destruct (SpecFloat.SFcompare (Prim2SF x) (Prim2SF y)) as [[]|] eqn:Hc; try discriminate.
  intros _. now rewrite (SFcompare_eq_sym _ _ Hc).
Qed.

(** On rationals, Python's comparisons are the order of [Q]. *)
Lemma rational_ltb (x y : Q) : f_ltb x y = true ↔ (x < y)%Q.
Proof.
  change (negb (Qle_bool y x) = true ↔ (x < y)%Q). rewrite negb_true_iff. split.
  - intros Hle. apply Qnot_le_lt. intros Hyx.
    apply (proj2 (Qle_bool_iff y x)) in Hyx. congruence.
  - intros Hlt. destruct (Qle_bool y x) eqn:Hle; [|reflexivity].
    apply (proj1 (Qle_bool_iff y x)) in Hle. exfalso. now apply (Qlt_not_le x y).
Qed.

Lemma rational_percentage_sign (a b : Q) :
  (0 < b)%Q → ((a - b) / b * 100 < 0 ↔ a < b)%Q.
Proof.
  intros Hb.
  assert (0 < / b * 100)%Q as Hz.
  { apply Qmult_lt_0_compat; [now apply Qinv_lt_0_compat | reflexivity]. }
  assert ((a - b) / b * 100 == (a - b) * (/ b * 100))%Q as -> by (unfold Qdiv; ring).
  transitivity ((a - b) * (/ b * 100) < 0 * (/ b * 100))%Q.
  { now rewrite Qmult_0_l. }
  rewrite (Qmult_lt_r _ _ _ Hz). split; intros Hlt; lra.
Qed.

(** The same in exact arithmetic, where nothing is rounded: for every
    pair of prices with a positive CoinCatch price, the percentage is
    negative exactly when the Wallex price is the lower one, and the
    action is BUY exactly then. *)
Lemma rational_buy_exactly_when_wallex_is_cheaper (wallex_price coincatch_price : Q) :
  (0 < coincatch_price)%Q →
  let d := ((wallex_price - coincatch_price) / coincatch_price * 100)%Q in
  percentage_difference wallex_price coincatch_price = Returned d ∧
  (d < 0 ↔ wallex_price < coincatch_price)%Q ∧
  ((d < 0)%Q → classify d = (BUY, Qabs d)) ∧
  ((0 <= d)%Q → classify d = (SELL, d)) ∧
  ((classify d).1 = BUY ↔ (wallex_price < coincatch_price)%Q) ∧
  ((classify d).1 = SELL ↔ (coincatch_price <= wallex_price)%Q).
Proof.
  intros Hb d.
  assert (classify d = if f_ltb d 0%Q then (BUY, Qabs d) else (SELL, d)) as Hclassify
    by reflexivity.
  pose proof (rational_percentage_sign wallex_price coincatch_price Hb) as Hsign.
  fold d in Hsign.
  split; [|split; [exact Hsign|split; [|split; [|split]]]].
  - refine (percentage_difference_defined (H:=rational) wallex_price coincatch_price _).
    change (Qeq_bool coincatch_price 0 = false).
    destruct (Qeq_bool coincatch_price 0) eqn:Hz; [|reflexivity].
    apply (proj1 (Qeq_bool_iff _ _)) in Hz. rewrite Hz in Hb. now apply Qlt_irrefl in Hb.
  - intros Hd. rewrite Hclassify. apply rational_ltb in Hd. now rewrite Hd.
  - intros Hd. rewrite Hclassify.
    destruct (f_ltb d 0%Q) eqn:Hlt; [|reflexivity].
    apply rational_ltb in Hlt. exfalso. now apply (Qlt_not_le d 0).
  - rewrite Hclassify, <- Hsign, <- rational_ltb.
    destruct (f_ltb d 0%Q); cbn; split; congruence.
  - rewrite Hclassify.
    destruct (f_ltb d 0%Q) eqn:Hlt; cbn.
    + apply rational_ltb, Hsign in Hlt. split; [discriminate|].
      intros Hle. exfalso. now apply (Qlt_not_le wallex_price coincatch_price).
    + split; [intros _|reflexivity]. apply Qnot_lt_le. intros Hab.
      apply Hsign, rational_ltb in Hab. congruence.
Qed.

End Carriers.

(** ** Binary64 arithmetic: the sign of the percentage *)

Section Binary64.

Import SpecFloat.
#[local] Open Scope Z_scope.

(** The library specifies the primitive operations of binary64 by
    functions on [spec_float] ([SFsub], [SFdiv], [SFmul]), each ending in
    a rounding to nearest, ties to even ([binary_round_aux]).  The lemmas
    below follow a number through them by its sign and its [magnitude]. *)

(** *** Digits and shifts *)

Lemma digits2_pos_log2 (m : positive) : Zpos (digits2_pos m) = Z.log2 (Zpos m) + 1.
Proof.
  assert (forall p, digits2_pos p = Pos.size p) as Hsize.
  { induction p as [p IH|p IH|]; cbn; now rewrite ?IH. }
  rewrite Hsize. destruct m; cbn; lia.
Qed.

Lemma Zdigits2_log2 (m : Z) : 0 < m -> Zdigits2 m = Z.log2 m + 1.
Proof. destruct m; try lia. intros _. apply digits2_pos_log2. Qed.

Lemma iter_pos_nat {A} (f : A -> A) (n : positive) (x : A) :
  iter_pos f n x = Nat.iter (Pos.to_nat n) f x.
Proof.
  revert x. induction n as [n IH|n IH|]; intros x; cbn [iter_pos].
  - rewrite !IH. rewrite Pos2Nat.inj_xI.
    rewrite <- Nat.iter_add. replace (Pos.to_nat n + Pos.to_nat n)%nat with (2 * Pos.to_nat n)%nat by lia.
    now rewrite <- Nat.iter_succ_r.
  - rewrite !IH. rewrite Pos2Nat.inj_xO.
    rewrite <- Nat.iter_add. now replace (Pos.to_nat n + Pos.to_nat n)%nat with (2 * Pos.to_nat n)%nat by lia.
  - reflexivity.
Qed.

(** A right shift of the rounding record halves the mantissa. *)
Lemma shr_1_m (r : shr_record) : 0 <= shr_m r -> shr_m (shr_1 r) = Z.div2 (shr_m r).
Proof.
  destruct r as [m r s]. cbn [shr_m]. intros Hm.
  destruct m as [|[p|p|]|p]; cbn; try reflexivity; lia.
Qed.

Lemma shr_iter_m (k : nat) (r : shr_record) :
  0 <= shr_m r -> shr_m (Nat.iter k shr_1 r) = Z.shiftr (shr_m r) (Z.of_nat k).
Proof.
  intros Hm. induction k as [|k IH].
  - change (Z.of_nat 0) with 0. now rewrite Z.shiftr_0_r.
  - rewrite Nat.iter_succ. rewrite shr_1_m.
    + rewrite IH. rewrite Nat2Z.inj_succ. rewrite <- Z.add_1_r.
      rewrite <- Z.shiftr_shiftr by lia. now rewrite Z.div2_spec.
    + rewrite IH. apply Z.shiftr_nonneg. exact Hm.
Qed.

Lemma shr_m_shift (r : shr_record) (e n : Z) :
  0 <= shr_m r ->
  shr_m (fst (shr r e n)) = Z.shiftr (shr_m r) (Z.max 0 n) /\
  snd (shr r e n) = e + Z.max 0 n.
Proof.
  intros Hm. unfold shr. destruct n as [|p|p]; cbn [fst snd].
  - rewrite Z.shiftr_0_r. split; [reflexivity | lia].
  - rewrite iter_pos_nat, shr_iter_m by exact Hm.
    rewrite positive_nat_Z. replace (Z.max 0 (Z.pos p)) with (Z.pos p) by lia. split; reflexivity.
  - rewrite Z.shiftr_0_r. split; [reflexivity | lia].
Qed.

(** Shifting out fewer bits than the mantissa has keeps it positive,
    and the magnitude as it was. *)
Lemma shiftr_magnitude (m e k : Z) :
  0 < m -> 0 <= k <= Z.log2 m ->
  0 < Z.shiftr m k /\ magnitude (Z.shiftr m k) (e + k) = magnitude m e.
Proof.
  intros Hm Hk. split.
  - rewrite Z.shiftr_div_pow2 by lia.
    apply Z.div_str_pos. split; [apply Z.pow_pos_nonneg; lia|].
    transitivity (2 ^ Z.log2 m); [apply Z.pow_le_mono_r; lia | apply Z.log2_spec; lia].
  - unfold magnitude. rewrite Z.log2_shiftr by lia. lia.
Qed.

(** *** Rounding *)

Lemma round_nearest_even_bounds (m : Z) (l : location) :
  m <= round_nearest_even m l <= m + 1.
Proof.
  unfold round_nearest_even. destruct l as [|[]]; try lia.
  destruct (Z.even m); lia.
Qed.

Lemma magnitude_mono (m m' e : Z) : 0 < m -> m <= m' -> magnitude m e <= magnitude m' e.
Proof. intros Hm Hle. unfold magnitude. pose proof (Z.log2_le_mono m m' Hle). lia. Qed.

Lemma shr_record_of_loc_m (m : Z) (l : location) : shr_m (shr_record_of_loc m l) = m.
Proof. destruct l as [|[]]; reflexivity. Qed.

(** The shift of [shr_fexp] leaves a positive mantissa and the magnitude
    alone, for a number above the smallest subnormal. *)
Lemma shr_fexp_positive (m e : Z) (l : location) :
  0 < m -> -1074 < magnitude m e ->
  let '(mrs, e') := shr_fexp prec emax m e l in
  0 < shr_m mrs /\ magnitude (shr_m mrs) e' = magnitude m e.
Proof.
  intros Hm Hmag. unfold shr_fexp.
  rewrite (Zdigits2_log2 m Hm).
  set (n := fexp prec emax (Z.log2 m + 1 + e) - e).
  pose proof (shr_m_shift (shr_record_of_loc m l) e n) as Hshift.
  rewrite shr_record_of_loc_m in Hshift. specialize (Hshift ltac:(lia)).
  destruct (shr (shr_record_of_loc m l) e n) as [mrs e']. cbn [fst snd] in Hshift.
  destruct Hshift as [-> ->].
  assert (Z.max 0 n <= Z.log2 m) as Hn.
  { unfold n, fexp, SpecFloat.emin, prec, emax, magnitude in *.
    pose proof (Z.log2_nonneg m). lia. }
  apply shiftr_magnitude; lia.
Qed.

(** Rounding a positive number above the smallest subnormal gives a
    number of the same sign that is not zero and not smaller in
    magnitude, or the infinity of that sign. *)
Lemma binary_round_aux_positive (s : bool) (m e : Z) (l : location) :
  0 < m -> -1074 < magnitude m e ->
  (exists m' e', binary_round_aux prec emax s m e l = S754_finite s m' e' /\
                 magnitude m e <= magnitude (Zpos m') e') \/
  binary_round_aux prec emax s m e l = S754_infinity s.
Proof.
  intros Hm Hmag. unfold binary_round_aux.
  pose proof (shr_fexp_positive m e l Hm Hmag) as H1.
  destruct (shr_fexp prec emax m e l) as [mrs' e']. destruct H1 as [Hpos1 Hmag1].
  pose proof (round_nearest_even_bounds (shr_m mrs') (loc_of_shr_record mrs')) as Hr.
  set (m1 := round_nearest_even (shr_m mrs') (loc_of_shr_record mrs')) in *.
  assert (0 < m1) as Hm1 by lia.
  assert (magnitude m e <= magnitude m1 e') as Hmag2.
  { rewrite <- Hmag1. apply magnitude_mono; lia. }
  pose proof (shr_fexp_positive m1 e' loc_Exact Hm1 ltac:(lia)) as H2.
  destruct (shr_fexp prec emax m1 e' loc_Exact) as [mrs'' e'']. destruct H2 as [Hpos2 Hmag3].
  destruct (shr_m mrs'') as [|m''|m''] eqn:Hfinal; try lia.
  destruct (e'' <=? emax - prec); [left | right; reflexivity].
  exists m'', e''. split; [reflexivity | lia].
Qed.

(** Validity of a finite binary64 number, spelled out. *)
Lemma valid_finite (s : bool) (m : positive) (e : Z) :
  valid_binary prec emax (S754_finite s m e) = true ->
  -1074 <= e <= 971 /\ Z.log2 (Zpos m) <= 52 /\ (-1074 < e -> Z.log2 (Zpos m) = 52).
Proof.
  cbn [valid_binary]. unfold bounded, canonical_mantissa.
  rewrite andb_true_iff, Z.eqb_eq, Z.leb_le, digits2_pos_log2.
  unfold fexp, SpecFloat.emin, prec, emax. lia.
Qed.

Lemma pos_iter_xO (m d : positive) : Zpos (Pos.iter xO m d) = Zpos m * 2 ^ Zpos d.
Proof.
  induction d as [|d IH] using Pos.peano_ind.
  - cbn. lia.
  - rewrite Pos.iter_succ, Pos2Z.inj_xO, IH, Pos2Z.inj_succ, Z.pow_succ_r by lia. lia.
Qed.

(** Aligning to a lower exponent multiplies the mantissa. *)
Lemma shl_align_spec (m : positive) (e e' : Z) :
  let '(m', e'') := shl_align m e e' in
  e'' = Z.min e e' /\ Zpos m' = Zpos m * 2 ^ (e - e'').
Proof.
  unfold shl_align. destruct (e' - e) as [|d|d] eqn:Hd; cbv beta iota zeta.
  - split; [lia|]. rewrite Z.sub_diag, Z.pow_0_r. lia.
  - split; [lia|]. rewrite Z.sub_diag, Z.pow_0_r. lia.
  - split; [lia|]. rewrite pos_iter_xO. f_equal. f_equal. lia.
Qed.

Lemma magnitude_shift (m e k : Z) :
  0 < m -> 0 <= k -> magnitude (m * 2 ^ k) (e - k) = magnitude m e.
Proof.
  intros Hm Hk. unfold magnitude. rewrite <- Z.shiftl_mul_pow2 by lia.
  rewrite Z.log2_shiftl by lia. lia.
Qed.

Lemma binary_round_positive (s : bool) (m : positive) (e : Z) :
  -1074 < magnitude (Zpos m) e ->
  (exists m' e', binary_round prec emax s m e = S754_finite s m' e' /\
                 magnitude (Zpos m) e <= magnitude (Zpos m') e') \/
  binary_round prec emax s m e = S754_infinity s.
Proof.
  intros Hmag. unfold binary_round.
  pose proof (shl_align_spec m e (fexp prec emax (Zpos (digits2_pos m) + e))) as Halign.
  destruct (shl_align m e _) as [mz ez]. destruct Halign as [Hez Hmz].
  assert (magnitude (Zpos mz) ez = magnitude (Zpos m) e) as Hsame.
  { rewrite Hmz. replace ez with (e - (e - ez)) at 2 by lia.
    apply magnitude_shift; lia. }
  rewrite <- Hsame in *. apply binary_round_aux_positive; lia.
Qed.

(** *** Signs *)

Lemma SFltb_zero (x : spec_float) :
  SFltb x (S754_zero false) = true <-> below_zero x.
Proof.
  destruct x as [s|s| |s m e]; cbn; try destruct s; cbn; intuition congruence.
Qed.

(** Rounding keeps the sign. *)
Lemma binary_round_aux_sign (s : bool) (m e : Z) (l : location) :
  below_zero (binary_round_aux prec emax s m e l) -> s = true.
Proof.
  unfold binary_round_aux.
  destruct (shr_fexp prec emax m e l) as [mrs' e'].
  destruct (shr_fexp prec emax _ e' loc_Exact) as [mrs'' e''].
  destruct (shr_m mrs'') as [|p|p]; [|destruct (e'' <=? emax - prec)|];
    destruct s; cbn; intros Hn; try reflexivity; contradiction.
Qed.

Lemma binary_normalize_sign (m e : Z) :
  below_zero (binary_normalize prec emax m e false) -> m < 0.
Proof.
  destruct m as [|p|p]; cbn [binary_normalize]; [contradiction| |lia].
  unfold binary_round. destruct (shl_align p e _) as [mz ez].
  intros Hneg. apply binary_round_aux_sign in Hneg. discriminate.
Qed.

Lemma binary_normalize_negative (m : positive) (e : Z) :
  -1074 < magnitude (Zpos m) e ->
  below_zero (binary_normalize prec emax (Zneg m) e false) /\
  nonzero_at_least (magnitude (Zpos m) e) (binary_normalize prec emax (Zneg m) e false).
Proof.
  intros Hmag. cbn [binary_normalize].
  destruct (binary_round_positive true m e Hmag) as [(m' & e' & -> & Hle)| ->]; cbn; auto.
Qed.

Lemma nonzero_at_least_weaken (z z' : Z) (x : spec_float) : z' <= z -> nonzero_at_least z x -> nonzero_at_least z' x.
Proof. destruct x; cbn; lia || auto. Qed.

Lemma log2_bounds (m : Z) (k : Z) : 0 < m -> Z.log2 m <= k -> m < 2 ^ (k + 1).
Proof. intros Hm Hk. apply Z.log2_lt_pow2; lia. Qed.

Lemma log2_lower (m : Z) (k : Z) : 0 < m -> Z.log2 m = k -> 2 ^ k <= m.
Proof. intros Hm <-. apply Z.log2_spec. exact Hm. Qed.

(** *** The three operations of the percentage *)

(** The difference of two aligned mantissas, when the second number has
    the higher exponent. *)
Lemma aligned_difference (ma mb k : Z) :
  0 < ma < 2 ^ 53 -> 2 ^ 52 <= mb -> 1 <= k ->
  2 ^ (k - 1) <= mb * 2 ^ k - ma.
Proof.
  intros Ha Hb Hk.
  replace k with (k - 1 + 1) at 2 by lia. rewrite Z.pow_add_r by lia.
  assert (0 < 2 ^ (k - 1)) as HP by (apply Z.pow_pos_nonneg; lia).
  set (P := 2 ^ (k - 1)) in *.
  change (2 ^ 1) with 2. change (2 ^ 53) with 9007199254740992 in Ha.
  change (2 ^ 52) with 4503599627370496 in Hb. nia.
Qed.

(** [a - b] for finite [a] and finite positive [b]: below zero exactly
    when [a] compares below [b], and then not smaller than [b] by more
    than 53 binary orders. *)
Lemma SFsub_finite (sa : bool) (ma : positive) (ea : Z) (mb : positive) (eb : Z) :
  valid_binary prec emax (S754_finite sa ma ea) = true ->
  valid_binary prec emax (S754_finite false mb eb) = true ->
  let x := SFsub prec emax (S754_finite sa ma ea) (S754_finite false mb eb) in
  (SFcompare (S754_finite sa ma ea) (S754_finite false mb eb) = Some Lt ->
   below_zero x /\ nonzero_at_least (magnitude (Zpos mb) eb - 53) x) /\
  (SFcompare (S754_finite sa ma ea) (S754_finite false mb eb) <> Some Lt -> ~ below_zero x).
Proof.
  intros Hva Hvb.
  apply valid_finite in Hva as (Hea & Hla & Hna).
  apply valid_finite in Hvb as (Heb & Hlb & Hnb).
  cbn [SFsub]. remember (Z.min ea eb) as ez eqn:Hez.
  pose proof (shl_align_spec ma ea ez) as Ha. pose proof (shl_align_spec mb eb ez) as Hb.
  destruct (shl_align ma ea ez) as [ma' ea']. destruct (shl_align mb eb ez) as [mb' eb'].
  cbn [fst]. destruct Ha as [-> Ha]. destruct Hb as [-> Hb].
  replace (Z.min ea ez) with ez in Ha by lia. replace (Z.min eb ez) with ez in Hb by lia.
  cbn [cond_Zopp]. cbv zeta.
  pose proof (log2_bounds (Zpos ma) 52 ltac:(lia) Hla) as Hma. change (52 + 1) with 53 in Hma.
  pose proof (log2_bounds (Zpos mb) 52 ltac:(lia) Hlb) as Hmb. change (52 + 1) with 53 in Hmb.
  assert (0 < 2 ^ (ea - ez)) as Hpa by (apply Z.pow_pos_nonneg; lia).
  assert (0 < 2 ^ (eb - ez)) as Hpb by (apply Z.pow_pos_nonneg; lia).
  assert (forall M : Z, M < 0 ->
            Z.log2 (Zpos mb) + (eb - ez) - 53 <= Z.log2 (- M) ->
            below_zero (binary_normalize prec emax M ez false) /\
            nonzero_at_least (magnitude (Zpos mb) eb - 53) (binary_normalize prec emax M ez false))
    as Hneg.
  { intros M HM Hlog. destruct M as [|p|p]; try lia.
    assert (-1074 < magnitude (Zpos p) ez) as Hmag.
    { unfold magnitude. pose proof (Z.log2_nonneg (Zpos p)). lia. }
    destruct (binary_normalize_negative p ez Hmag) as [Hn Hat].
    split; [exact Hn|]. eapply nonzero_at_least_weaken; [|exact Hat].
    unfold magnitude. change (- Z.neg p) with (Zpos p) in Hlog. lia. }
  assert (Z.log2 (Zpos mb') = Z.log2 (Zpos mb) + (eb - ez)) as Hlb'.
  { rewrite Hb, Z.log2_mul_pow2 by lia. lia. }
  destruct sa.
  - (* a is negative *)
    split; [intros _ | intros Hc; now contradiction Hc].
    apply Hneg; [cbn [cond_Zopp]; lia|].
    assert (Z.log2 (Zpos mb') <= Z.log2 (- (cond_Zopp true (Zpos ma') - Zpos mb')))
      by (apply Z.log2_le_mono; cbn [cond_Zopp]; lia).
    lia.
  - cbn [cond_Zopp SFcompare].
    destruct (ea ?= eb) eqn:Hcmp.
    + (* same exponent *)
      apply Z.compare_eq_iff in Hcmp. subst eb.
      replace (ea - ez) with 0 in * by lia. rewrite Z.pow_0_r, Z.mul_1_r in Ha, Hb.
      rewrite Ha, Hb. fold (Pos.compare ma mb).
      destruct (Pos.compare_spec ma mb) as [Heq|Hlt|Hgt].
      * split; [discriminate|]. intros _ Hn. apply binary_normalize_sign in Hn. lia.
      * split; [intros _ | intros Hc; now contradiction Hc].
        apply Hneg; [lia|]. pose proof (Z.log2_nonneg (- (Zpos ma - Zpos mb))). lia.
      * split; [discriminate|]. intros _ Hn. apply binary_normalize_sign in Hn. lia.
    + (* a has the lower exponent *)
      assert (ea < eb) as Hlt by (apply Z.compare_lt_iff; exact Hcmp).
      replace (ea - ez) with 0 in * by lia. rewrite Z.pow_0_r, Z.mul_1_r in Ha.
      split; [intros _ | intros Hc; now contradiction Hc].
      pose proof (log2_lower (Zpos mb) 52 ltac:(lia) (Hnb ltac:(lia))) as Hmb52.
      replace (eb - ez) with (eb - ea) in * by lia.
      pose proof (aligned_difference (Zpos ma) (Zpos mb) (eb - ea) ltac:(lia) Hmb52 ltac:(lia))
        as Hdiff.
      assert (0 < 2 ^ (eb - ea - 1)) by (apply Z.pow_pos_nonneg; lia).
      apply Hneg; [lia|].
      replace (- (Zpos ma' - Zpos mb')) with (Zpos mb * 2 ^ (eb - ea) - Zpos ma) by lia.
      apply Z.log2_le_pow2 in Hdiff; lia.
    + (* a has the higher exponent *)
      assert (eb < ea) as Hgt by (apply Z.compare_gt_iff; exact Hcmp).
      replace (eb - ez) with 0 in * by lia. rewrite Z.pow_0_r, Z.mul_1_r in Hb.
      split; [discriminate|]. intros _ Hn. apply binary_normalize_sign in Hn.
      pose proof (log2_lower (Zpos ma) 52 ltac:(lia) (Hna ltac:(lia))) as Hma52.
      replace (ea - ez) with (ea - eb) in * by lia.
      pose proof (aligned_difference (Zpos mb) (Zpos ma) (ea - eb) ltac:(lia) Hma52 ltac:(lia))
        as Hdiff.
      assert (0 < 2 ^ (ea - eb - 1)) by (apply Z.pow_pos_nonneg; lia).
      lia.
Qed.

(** [x / b] for [x] below zero and not too small against [b]: below
    zero, and of magnitude -53 at least. *)
Lemma SFdiv_negative (x : spec_float) (mb : positive) (eb : Z) :
  valid_binary prec emax x = true ->
  below_zero x -> nonzero_at_least (magnitude (Zpos mb) eb - 53) x ->
  below_zero (SFdiv prec emax x (S754_finite false mb eb)) /\
  nonzero_at_least (-53) (SFdiv prec emax x (S754_finite false mb eb)).
Proof.
  intros Hvx Hneg Hat.
  destruct x as [s|s| |s mx ex]; try contradiction; destruct s; try contradiction.
  { cbn. auto. }
  apply valid_finite in Hvx as (_ & Hlx & _). cbn [nonzero_at_least] in Hat.
  cbn [SFdiv]. unfold SFdiv_core_binary.
  rewrite !Zdigits2_log2 by lia.
  pose proof (Z.log2_nonneg (Zpos mx)) as Hx0. pose proof (Z.log2_nonneg (Zpos mb)) as Hb0.
  unfold magnitude in Hat.
  set (z := Z.log2 (Zpos mx) + 1 + ex - (Z.log2 (Zpos mb) + 1 + eb)) in *.
  assert (fexp prec emax z = z - 53) as ->
    by (unfold fexp, SpecFloat.emin, prec, emax; lia).
  replace (Z.min (z - 53) (ex - eb)) with (z - 53) by lia.
  set (s := ex - eb - (z - 53)).
  assert (s = 53 - Z.log2 (Zpos mx) + Z.log2 (Zpos mb)) as Hs by (unfold s, z; lia).
  destruct s as [|ps|ps] eqn:Hps; try lia.
  rewrite <- Hps. rewrite Z.shiftl_mul_pow2 by lia.
  assert (Z.div_eucl (Zpos mx * 2 ^ s) (Zpos mb) =
          (Zpos mx * 2 ^ s / Zpos mb, (Zpos mx * 2 ^ s) mod Zpos mb)) as ->.
  { unfold Z.div, Z.modulo. now destruct (Z.div_eucl _ _). }
  set (q := Zpos mx * 2 ^ s / Zpos mb).
  assert (2 ^ 52 <= q) as Hq.
  { apply Z.div_le_lower_bound; [lia|].
    pose proof (log2_bounds (Zpos mb) (Z.log2 (Zpos mb)) ltac:(lia) ltac:(lia)) as Hmb.
    pose proof (log2_lower (Zpos mx) (Z.log2 (Zpos mx)) ltac:(lia) eq_refl) as Hmx.
    transitivity (2 ^ (Z.log2 (Zpos mb) + 1) * 2 ^ 52).
    - apply Z.mul_le_mono_nonneg_r; [apply Z.pow_nonneg|]; lia.
    - rewrite <- Z.pow_add_r by lia.
      transitivity (2 ^ Z.log2 (Zpos mx) * 2 ^ s).
      + rewrite <- Z.pow_add_r by lia. apply Z.pow_le_mono_r; lia.
      + apply Z.mul_le_mono_nonneg_r; [apply Z.pow_nonneg|]; lia. }
  assert (0 < q) as Hq0 by (change (2 ^ 52) with 4503599627370496 in Hq; lia).
  assert (z <= magnitude q (z - 53)) as Hmag.
  { unfold magnitude. apply Z.log2_le_pow2 in Hq; lia. }
  assert (-53 <= z) as Hz by (unfold z; lia).
  cbn [xorb].
  destruct (binary_round_aux_positive true q (z - 53)
              (new_location (Zpos mb) ((Zpos mx * 2 ^ s) mod Zpos mb)) Hq0 ltac:(lia))
    as [(m' & e' & -> & Hle)| ->]; cbn [below_zero nonzero_at_least]; split; auto; lia.
Qed.

Lemma SFdiv_not_negative (x : spec_float) (mb : positive) (eb : Z) :
  ~ below_zero x -> ~ below_zero (SFdiv prec emax x (S754_finite false mb eb)).
Proof.
  intros Hx Hd. apply Hx. clear Hx.
  destruct x as [s|s| |s mx ex]; cbn [SFdiv] in Hd.
  - destruct s; exact Hd.
  - destruct s; exact Hd.
  - exact Hd.
  - destruct (SFdiv_core_binary prec emax (Zpos mx) ex (Zpos mb) eb) as [[mz ez] lz].
    apply binary_round_aux_sign in Hd. destruct s; [exact I | discriminate].
Qed.

(** [y * h] for [y] below zero of magnitude -53 at least and [h] one
    or more: below zero. *)
Lemma SFmul_negative (y : spec_float) (mh : positive) (eh : Z) :
  0 <= Z.log2 (Zpos mh) + eh ->
  below_zero y -> nonzero_at_least (-53) y ->
  below_zero (SFmul prec emax y (S754_finite false mh eh)).
Proof.
  intros Hh Hneg Hat.
  destruct y as [s|s| |s my ey]; try contradiction; destruct s; try contradiction.
  { exact I. }
  cbn [SFmul xorb nonzero_at_least] in *. unfold magnitude in Hat.
  pose proof (Z.log2_mul_below (Zpos my) (Zpos mh) ltac:(lia) ltac:(lia)) as Hmul.
  destruct (binary_round_aux_positive true (Zpos (my * mh)) (ey + eh) loc_Exact ltac:(lia))
    as [(m' & e' & -> & Hle)| ->]; [|exact I|exact I].
  unfold magnitude. rewrite Pos2Z.inj_mul. lia.
Qed.

Lemma SFmul_not_negative (y : spec_float) (mh : positive) (eh : Z) :
  ~ below_zero y -> ~ below_zero (SFmul prec emax y (S754_finite false mh eh)).
Proof.
  intros Hy Hm. apply Hy. clear Hy.
  destruct y as [s|s| |s my ey]; cbn [SFmul] in Hm.
  - destruct s; exact Hm.
  - destruct s; exact Hm.
  - exact Hm.
  - apply binary_round_aux_sign in Hm. destruct s; [exact I | discriminate].
Qed.

(** *** The primitive operations *)

Lemma is_finite_shape (x : float) :
  is_finite x = true ->
  match Prim2SF x with
  | S754_zero _ | S754_finite _ _ _ => True
  | _ => False
  end.
Proof.
  unfold is_finite. rewrite negb_true_iff, orb_false_iff. intros [Hnan Hinf].
  unfold Prim2SF. rewrite Hnan, Hinf.
  destruct (is_zero x); [exact I|].
  destruct (Z.frexp x) as [r exp].
  destruct (shr_fexp prec emax _ _ loc_Exact) as [mrs e'].
  now destruct (shr_m mrs).
Qed.

Lemma Prim2SF_zero : Prim2SF 0%float = S754_zero false.
Proof. reflexivity. Qed.

Lemma Prim2SF_hundred : Prim2SF 100%float = S754_finite false 7036874417766400 (-46).
Proof. reflexivity. Qed.

(** For every binary64 number [a] and every finite positive [b], the
    percentage is below zero exactly when [a] is below [b]: between
    [a - b] and the product by 100 no rounding loses the sign, because
    the difference of two distinct numbers is not zero and is not below
    [b] by more than 53 binary orders, so that the quotient and the
    product are far above the smallest subnormal. *)
Lemma binary64_percentage_sign (a b : float) :
  is_finite b = true -> (0 <? b)%float = true ->
  ((a - b) / b * 100 <? 0)%float = (a <? b)%float.
Proof.
  intros Hfb Hpos.
  pose proof (Prim2SF_valid a) as Hva. pose proof (Prim2SF_valid b) as Hvb.
  pose proof (Prim2SF_valid (a - b)) as Hvx.
  apply is_finite_shape in Hfb.
  rewrite ltb_spec, Prim2SF_zero in Hpos.
  rewrite !ltb_spec, mul_spec, div_spec, Prim2SF_zero, Prim2SF_hundred.
  rewrite sub_spec in *.
  destruct (Prim2SF b) as [sb|sb| |sb mb eb]; try contradiction.
  { now destruct sb. }
  destruct sb; [discriminate|]. clear Hpos Hfb.
  set (x := SF64sub (Prim2SF a) (S754_finite false mb eb)) in *.
  assert ((SFltb (Prim2SF a) (S754_finite false mb eb) = true ->
           below_zero x /\ nonzero_at_least (magnitude (Zpos mb) eb - 53) x) /\
          (SFltb (Prim2SF a) (S754_finite false mb eb) = false -> ~ below_zero x)) as [Hlt Hge].
  { unfold x, SF64sub. destruct (Prim2SF a) as [sa|sa| |sa ma ea].
    - cbn. split; [intros _ | discriminate]. split; [exact I | lia].
    - destruct sa; cbn; split; try discriminate; auto.
    - cbn. split; [discriminate | auto].
    - destruct (SFsub_finite sa ma ea mb eb Hva Hvb) as [H1 H2]. unfold SFltb.
      destruct (SFcompare (S754_finite sa ma ea) (S754_finite false mb eb)) as [[]|];
        (split; [intros Heq; try discriminate; now apply H1
                | intros Heq; try discriminate; apply H2; discriminate]). }
  destruct (SFltb (Prim2SF a) (S754_finite false mb eb)).
  - destruct (Hlt eq_refl) as [Hneg Hat].
    destruct (SFdiv_negative x mb eb Hvx Hneg Hat) as [Hneg' Hat'].
    apply SFltb_zero. apply SFmul_negative; [cbn; lia | exact Hneg' | exact Hat'].
  - specialize (Hge eq_refl).
    destruct (SFltb _ (S754_zero false)) eqn:Hd; [|reflexivity].
    apply SFltb_zero in Hd. exfalso.
    apply (SFmul_not_negative _ _ _ (SFdiv_not_negative x mb eb Hge)) in Hd. exact Hd.
Qed.


Lemma positive_is_nonzero (b : float) : (0 <? b)%float = true -> (b =? 0)%float = false.
Proof.
  rewrite ltb_spec, FloatAxioms.eqb_spec, Prim2SF_zero. unfold SFltb, SFeqb.
  destruct (Prim2SF b) as [s|s| |s m e]; cbn; try destruct s; cbn; congruence.
Qed.

Lemma nonnegative_is_not_below (d : float) : (0 <=? d)%float = true -> (d <? 0)%float = false.
Proof.
  rewrite ltb_spec, leb_spec, Prim2SF_zero. unfold SFltb, SFleb.
  destruct (Prim2SF d) as [s|s| |s m e]; cbn; try destruct s; cbn; congruence.
Qed.

(** C1. On binary64, for every Wallex price and every finite positive
    CoinCatch price: the percentage computed by the loop is
    [((wallex_price - coincatch_price) / coincatch_price) * 100], each
    operation rounded to nearest; it is below zero exactly when the
    Wallex price is below the CoinCatch price; a percentage below zero is
    classified BUY with its absolute value as the profit potential, and
    one that is zero or above is classified SELL with the percentage
    itself.  So the action is BUY exactly when the Wallex price is the
    lower one.  (An infinite CoinCatch price is left out: the percentage
    is then not a number.) *)
Theorem buy_exactly_when_wallex_is_cheaper (wallex_price coincatch_price : float) :
  is_finite coincatch_price = true ->
  (0 <? coincatch_price)%float = true ->
  let d := ((wallex_price - coincatch_price) / coincatch_price * 100)%float in
  percentage_difference wallex_price coincatch_price = Returned d /\
  (d <? 0)%float = (wallex_price <? coincatch_price)%float /\
  ((d <? 0)%float = true -> classify d = (BUY, abs d)) /\
  ((0 <=? d)%float = true -> classify d = (SELL, d)) /\
  ((classify d).1 = BUY <-> (wallex_price <? coincatch_price)%float = true).
Proof.
  intros Hfinite Hpos d.
  pose proof (binary64_percentage_sign wallex_price coincatch_price Hfinite Hpos) as Hsign.
  fold d in Hsign.
  assert (classify d = if (d <? 0)%float then (BUY, abs d) else (SELL, d)) as Hclassify
    by reflexivity.
  split; [|split; [exact Hsign|split; [|split]]].
  - apply (percentage_difference_defined (H:=binary64)).
    now apply positive_is_nonzero.
  - intros Hd. now rewrite Hclassify, Hd.
  - intros Hd. now rewrite Hclassify, (nonnegative_is_not_below d Hd).
  - rewrite Hclassify, <- Hsign. destruct (d <? 0)%float; cbn; split; congruence.
Qed.

End Binary64.

(** ** The last-trade fetch *)

Section LastTrade.

Context {F : Type} `{PyFloat F} (world : env F).

(** With a usable key the fetch makes its one request, and logs a
    warning when it comes back with nothing after an exception. *)
Lemma get_wallex_last_trade_price_with_key (config : config F) (key symbol : string) :
  wallex_api_key config = Some key →
  api_key_unusable (Some key) = false →
  let request := trades_request config key symbol in
  ∃ price,
    get_wallex_last_trade_price world config symbol = (Returned price, [HttpGet request]) ∨
    ∃ e, get_wallex_last_trade_price world config symbol =
         (Returned None, [HttpGet request; Log WARNING (CouldNotFetchWallexLastTrade symbol e)]).
Proof.
  intros Hkey Husable request.
  unfold get_wallex_last_trade_price, get_wallex_last_trade_price_try, try_except, requests_get.
  rewrite Hkey, Husable. cbn [from_option id]. fold request. run_steps.
  destruct (http_get world request) as [r|e]; [|exists None; eauto].
  destruct (py_get r "result" _) as [result|e]; [|exists None; eauto].
  destruct (py_get result "latestTrades" _) as [trades|e]; [|exists None; eauto].
  destruct (py_truthy trades); [|exists None; eauto].
  destruct (py_first trades) as [trade|e]; [|exists None; eauto].
  destruct (py_getitem trade "price") as [price|e]; [|exists None; eauto].
  destruct (py_float world price) as [p|e]; [exists (Some p)|exists None]; eauto.
Qed.

(** X1. [get_wallex_last_trade_price] never raises, whatever the key,
    the symbol and the answer of the network.  Without a usable key it
    returns nothing and does nothing.  With one it makes exactly one
    request, the one for the trades of the symbol with the key in its
    header, and either that is all it does, or it returns nothing and
    logs one warning; a request that fails is of the second kind. *)
Theorem last_trade_fetch_never_raises (config : config F) (symbol : string) :
  ∃ price trace,
    get_wallex_last_trade_price world config symbol = (Returned price, trace) ∧
    (api_key_unusable (wallex_api_key config) = true → price = None ∧ trace = []) ∧
    (∀ key, wallex_api_key config = Some key → api_key_unusable (Some key) = false →
       let request := trades_request config key symbol in
       params request = [("symbol", symbol)] ∧ headers request = [("x-api-key", key)] ∧
       (trace = [HttpGet request] ∨
        ∃ e, price = None ∧
             trace = [HttpGet request; Log WARNING (CouldNotFetchWallexLastTrade symbol e)]) ∧
       (∀ e, http_get world request = Raised e →
          price = None ∧
          trace = [HttpGet request; Log WARNING (CouldNotFetchWallexLastTrade symbol e)])).
Proof.
  destruct (api_key_unusable (wallex_api_key config)) eqn:Hunusable.
  - exists None, []. split; [now apply get_wallex_last_trade_price_no_key|].
    split; [auto|]. intros key Hkey Husable. rewrite Hkey in Hunusable. congruence.
  - destruct (wallex_api_key config) as [key|] eqn:Hkey; [|discriminate].
    destruct (get_wallex_last_trade_price_with_key config key symbol Hkey Hunusable)
      as [price [Hrun|[e Hrun]]].
    + exists price, [HttpGet (trades_request config key symbol)].
      split; [exact Hrun|]. split; [discriminate|].
      intros key' [= <-] _ request. split; [reflexivity|]. split; [reflexivity|].
      split; [now left|]. intros e He. exfalso. revert Hrun.
      unfold get_wallex_last_trade_price, get_wallex_last_trade_price_try, try_except,
        requests_get.
      rewrite Hkey, Hunusable. cbn [from_option id]. fold request. rewrite He.
      discriminate.
    + exists None, [HttpGet (trades_request config key symbol);
                    Log WARNING (CouldNotFetchWallexLastTrade symbol e)].
      split; [exact Hrun|]. split; [discriminate|].
      intros key' [= <-] _ request. split; [reflexivity|]. split; [reflexivity|].
      split; [right; eauto|]. intros e' He'. split; [reflexivity|]. revert Hrun.
      unfold get_wallex_last_trade_price, get_wallex_last_trade_price_try, try_except,
        requests_get.
      rewrite Hkey, Hunusable. cbn [from_option id]. fold request. rewrite He'.
      cbn. intros [= <-]. reflexivity.
Qed.

(** X2. Given a usable key and an answered request, the fetch reads the
    first trade of [latestTrades] and nothing after it:
    - when the first trade has a price that [float] reads, that price is
      returned, whatever trades follow;
    - when the first trade has no price, or one that [float] cannot read,
      nothing is returned and the exception is logged as a warning, even
      if the trades after it are sound;
    - when [latestTrades] is empty (or absent, or any other falsy value)
      nothing is returned and nothing is logged. *)
Theorem last_trade_price_is_the_first_trade (config : config F) (key symbol : string)
    (r result : json F) :
  wallex_api_key config = Some key →
  api_key_unusable (Some key) = false →
  http_get world (trades_request config key symbol) = Returned r →
  py_get r "result" (JObj []) = Returned result →
  let request := trades_request config key symbol in
  let fetch := get_wallex_last_trade_price world config symbol in
  (∀ trade older price p,
     py_get result "latestTrades" (JArr []) = Returned (JArr (trade :: older)) →
     py_getitem trade "price" = Returned price →
     py_float world price = Returned p →
     fetch = (Returned (Some p), [HttpGet request]))
  ∧
  (∀ trade older e,
     py_get result "latestTrades" (JArr []) = Returned (JArr (trade :: older)) →
     py_getitem trade "price" = Raised e ∨
     (∃ price, py_getitem trade "price" = Returned price ∧ py_float world price = Raised e) →
     fetch = (Returned None,
              [HttpGet request; Log WARNING (CouldNotFetchWallexLastTrade symbol e)]))
  ∧
  (∀ trades,
     py_get result "latestTrades" (JArr []) = Returned trades →
     py_truthy trades = false →
     fetch = (Returned None, [HttpGet request])).
Proof.
  intros Hkey Husable Hr Hresult request fetch.
  unfold fetch, get_wallex_last_trade_price, get_wallex_last_trade_price_try, try_except,
    requests_get.
  rewrite Hkey, Husable. cbn [from_option id]. rewrite Hr. fold request.
  run_steps. rewrite Hresult. cbn [app]. split; [|split].
  - intros trade older price p -> Hprice Hp. cbn. rewrite Hprice, Hp. reflexivity.
  - intros trade older e -> [Hprice|(price & Hprice & Hp)]; cbn; rewrite Hprice.
    + reflexivity.
    + rewrite Hp. reflexivity.
  - intros trades -> Hfalsy. rewrite Hfalsy. reflexivity.
Qed.

End LastTrade.

(** ** The symbols of the price table *)

Section Symbols.

Context {F : Type} `{PyFloat F} (world : env F).

Lemma remove_dashes_dash_free (s : string) : char_in "-" (remove_dashes s) = false.
Proof.
  induction s as [|c rest IH]; [reflexivity|].
  cbn [remove_dashes]. destruct (Ascii.eqb c "-") eqn:Hc; [exact IH|].
  cbn [char_in]. now rewrite Hc, IH.
Qed.

(** What a ticker's entry is made of. *)
Lemma ticker_entry_returned (ticker : json F) (k : string) (v : F) :
  ticker_entry world ticker = Returned (k, v) →
  ∃ s close,
    py_get ticker "symbol" (JStr "") = Returned (JStr s) ∧ k = remove_dashes s ∧
    py_get ticker "close" JNull = Returned close ∧ py_float world close = Returned v.
Proof.
  unfold ticker_entry.
  destruct (py_get ticker "symbol" (JStr "")) as [symbol|e] eqn:Hsymbol; cbn; [|discriminate].
  destruct symbol as [| | |s| |]; cbn; try discriminate.
  destruct (py_get ticker "close" JNull) as [close|e]; cbn; [|discriminate].
  destruct (py_float world close) as [x|e] eqn:Hclose; cbn; [|discriminate].
  intros [= <- <-]. eauto 10.
Qed.

(** The table of a fetch that found tickers. *)
Lemma get_coincatch_prices_table (config : config F) prices trace k v :
  get_coincatch_prices world config = (Returned prices, trace) →
  prices !! k = Some v →
  ∃ r data tickers entries,
    http_get world (tickers_request config) = Returned r ∧
    py_get r "data" (JArr []) = Returned data ∧
    py_iter data = Returned tickers ∧
    Forall2 (λ ticker kv, ticker_entry world ticker = Returned kv) tickers entries ∧
    prices = filter usable_price (dict_of entries).
Proof.
  unfold get_coincatch_prices, get_coincatch_prices_try, try_except, requests_get.
  run_steps.
  destruct (http_get world _) as [r|e] eqn:Hr;
    [|intros [= <- _]; now rewrite lookup_empty].
  destruct (py_get r "data" _) as [data|e] eqn:Hdata;
    [|intros [= <- _]; now rewrite lookup_empty].
  destruct (py_iter data) as [tickers|e] eqn:Htickers;
    [|intros [= <- _]; now rewrite lookup_empty].
  destruct (ticker_prices world tickers ∅) as [raw|e] eqn:Hraw;
    [|intros [= <- _]; now rewrite lookup_empty].
  intros [= <- _] _.
  apply ticker_prices_returned in Hraw as (entries & Hall & ->).
  exists r, data, tickers, entries. repeat split; assumption || reflexivity.
Qed.

(** X3. Every binding of the price table comes from a ticker of the
    answer: its key is that ticker's symbol with the dashes removed, and
    its value is [float] of that ticker's close.  So no key of the table
    holds a dash, and a symbol that holds one is never found in it: a
    Wallex market whose symbol is written with a dash has no CoinCatch
    price, whatever the tickers. *)
Theorem price_table_keys_are_normalised (config : config F)
    (prices : gmap string F) (trace : list (event F)) :
  get_coincatch_prices world config = (Returned prices, trace) →
  (∀ k v, prices !! k = Some v →
     char_in "-" k = false ∧
     ∃ r data tickers ticker s close,
       http_get world (tickers_request config) = Returned r ∧
       py_get r "data" (JArr []) = Returned data ∧
       py_iter data = Returned tickers ∧
       ticker ∈ tickers ∧
       py_get ticker "symbol" (JStr "") = Returned (JStr s) ∧
       k = remove_dashes s ∧
       py_get ticker "close" JNull = Returned close ∧
       py_float world close = Returned v)
  ∧
  (∀ symbol, char_in "-" symbol = true → prices !! symbol = None).
Proof.
  intros Hget.
  assert (∀ k v, prices !! k = Some v →
            ∃ r data tickers ticker s close,
              http_get world (tickers_request config) = Returned r ∧
              py_get r "data" (JArr []) = Returned data ∧
              py_iter data = Returned tickers ∧
              ticker ∈ tickers ∧
              py_get ticker "symbol" (JStr "") = Returned (JStr s) ∧
              k = remove_dashes s ∧
              py_get ticker "close" JNull = Returned close ∧
              py_float world close = Returned v) as Hfrom.
  { intros k v Hl.
    destruct (get_coincatch_prices_table config prices trace k v Hget Hl)
      as (r & data & tickers & entries & Hr & Hdata & Htickers & Hall & ->).
    apply map_lookup_filter_Some in Hl as [Hl _].
    apply dict_of_lookup in Hl.
    apply list_elem_of_lookup in Hl as [i Hi].
    destruct (Forall2_lookup_r _ _ _ _ _ Hall Hi) as (ticker & Hticker & Hentry).
    apply ticker_entry_returned in Hentry as (s & close & Hs & Hk & Hclose & Hv).
    exists r, data, tickers, ticker, s, close.
    repeat split; try assumption. now apply list_elem_of_lookup_2 with i. }
  split.
  - intros k v Hl. split; [|now apply Hfrom].
    destruct (Hfrom k v Hl) as (_ & _ & _ & _ & s & _ & _ & _ & _ & _ & _ & -> & _).
    apply remove_dashes_dash_free.
  - intros symbol Hdash. destruct (prices !! symbol) as [v|] eqn:Hl; [|reflexivity].
    destruct (Hfrom symbol v Hl) as (_ & _ & _ & _ & s & _ & _ & _ & _ & _ & _ & Hk & _).
    rewrite Hk, remove_dashes_dash_free in Hdash. discriminate.
Qed.

End Symbols.

(** ** The requests, the pauses and the messages of a cycle *)

Section CycleTrace.

Context {F : Type} `{PyFloat F} (world : env F).

Lemma requests_of_app (t t' : list (event F)) :
  requests_of (t ++ t') = (requests_of t ++ requests_of t')%list.
Proof.
  induction t as [|e t IH]; [reflexivity|].
  destruct e; cbn [app requests_of]; now rewrite IH.
Qed.

Lemma pauses_of_app (t t' : list (event F)) :
  pauses_of (t ++ t') = (pauses_of t ++ pauses_of t')%list.
Proof.
  induction t as [|e t IH]; [reflexivity|].
  destruct e; cbn [app pauses_of]; now rewrite IH.
Qed.

Lemma messages_of_app (t t' : list (event F)) :
  messages_of (t ++ t') = (messages_of t ++ messages_of t')%list.
Proof.
  induction t as [|e t IH]; [reflexivity|].
  destruct e; cbn [app messages_of]; now rewrite IH.
Qed.

Lemma messages_of_elem (t : list (event F)) (c : telegram_call F) :
  SendMessage c ∈ t → c ∈ messages_of t.
Proof.
  induction t as [|e t IH]; intros Hin; [inversion Hin|].
  apply elem_of_cons in Hin as [<-|Hin].
  - apply list_elem_of_here.
  - destruct e; cbn [messages_of]; try (now apply IH).
    apply list_elem_of_further. now apply IH.
Qed.

(** The price fetch makes its request and logs one record. *)
Lemma get_coincatch_prices_trace (config : config F) :
  ∃ prices l m,
    get_coincatch_prices world config =
    (Returned prices, [HttpGet (tickers_request config); Log l m]) ∧
    ((∃ e, http_get world (tickers_request config) = Raised e) → prices = ∅).
Proof.
  unfold get_coincatch_prices, get_coincatch_prices_try, try_except, requests_get.
  run_steps.
  destruct (http_get world _) as [r|e].
  2:{ eexists _, _, _. split; [reflexivity|auto]. }
  destruct (py_get r "data" _) as [data|e].
  2:{ eexists _, _, _. split; [reflexivity|]. intros [? ?]. discriminate. }
  destruct (py_iter data) as [tickers|e].
  2:{ eexists _, _, _. split; [reflexivity|]. intros [? ?]. discriminate. }
  destruct (ticker_prices world tickers ∅) as [prices|e];
    (eexists _, _, _; split; [reflexivity|]; intros [? ?]; discriminate).
Qed.

(** The market fetch makes its request, and logs one record when the
    snapshot is empty for an exception. *)
Lemma get_wallex_usdt_markets_trace (config : config F) :
  ∃ markets logs,
    get_wallex_usdt_markets world config =
    (Returned markets, HttpGet (markets_request config) :: logs) ∧
    (logs = [] ∨ ∃ e, markets = [] ∧ logs = [Log ERROR (ErrorFetchingWallexMarkets e)]) ∧
    ((∃ e, http_get world (markets_request config) = Raised e) → markets = []).
Proof.
  unfold get_wallex_usdt_markets, get_wallex_usdt_markets_try, try_except, requests_get.
  run_steps.
  destruct (http_get world _) as [r|e].
  2:{ eexists _, _. split; [reflexivity|]. split; [right; eauto|auto]. }
  destruct (py_get r "result" _) as [result|e].
  2:{ eexists _, _. split; [reflexivity|]. split; [right; eauto|auto]. }
  destruct (py_get result "symbols" _) as [data|e].
  2:{ eexists _, _. split; [reflexivity|]. split; [right; eauto|auto]. }
  destruct (py_items data) as [items|e].
  2:{ eexists _, _. split; [reflexivity|]. split; [right; eauto|auto]. }
  destruct (usdt_markets items) as [markets|e].
  - eexists _, _. split; [reflexivity|]. split; [now left|]. intros [? ?]. discriminate.
  - eexists _, _. split; [reflexivity|]. split; [right; eauto|auto].
Qed.

(** Every entry of the snapshot is an object. *)
Lemma get_wallex_usdt_markets_dicts (config : config F) markets t s d :
  get_wallex_usdt_markets world config = (Returned markets, t) →
  (s, d) ∈ markets → is_dict d = true.
Proof.
  unfold get_wallex_usdt_markets, get_wallex_usdt_markets_try, try_except, requests_get.
  run_steps.
  destruct (http_get world _) as [r|e]; [|intros [= <- _] Hin; inversion Hin].
  destruct (py_get r "result" _) as [result|e]; [|intros [= <- _] Hin; inversion Hin].
  destruct (py_get result "symbols" _) as [data|e]; [|intros [= <- _] Hin; inversion Hin].
  destruct (py_items data) as [items|e]; [|intros [= <- _] Hin; inversion Hin].
  destruct (usdt_markets items) as [kept|e] eqn:Hkept; [|intros [= <- _] Hin; inversion Hin].
  intros [= <- _] Hin. apply usdt_markets_returned in Hkept. rewrite Hkept in Hin.
  apply list_elem_of_filter in Hin as [Hq _]. cbn [snd] in Hq.
  destruct d; try contradiction. reflexivity.
Qed.

(** What the notifier does: nothing, or its one call, followed by one
    error record when the call raised. *)
Lemma send_telegram_message_calls (config : config F) (message_text : string) :
  (send_telegram_message world config message_text).1 = Returned tt ∧
  ((str_falsy (telegram_bot_token config) = true ∧
    (send_telegram_message world config message_text).2 = []) ∨
   ∃ bot_token logs,
     telegram_bot_token config = Some bot_token ∧ bot_token ≠ "" ∧
     (send_telegram_message world config message_text).2 =
       SendMessage (notification config bot_token message_text) :: logs ∧
     (logs = [] ∨ ∃ e, logs = [Log ERROR (ErrorSendingTelegramMessage e)])).
Proof.
  unfold send_telegram_message.
  destruct (str_falsy (telegram_bot_token config)) eqn:Hfalsy; [auto|].
  destruct (telegram_bot_token config) as [bot_token|]; [|discriminate].
  cbn in Hfalsy. apply String.eqb_neq in Hfalsy.
  unfold deliver, try_except, notification. cbn [from_option id].
  destruct (bot_send_message world _) as [e|]; cbn; (split; [reflexivity|]); right;
    exists bot_token; eexists; (split; [reflexivity|]); (split; [assumption|]);
    (split; [reflexivity|]); eauto.
Qed.

(** One turn of the loop with a usable key, in full. *)
Lemma check_symbol_turn (config : config F) (key : string) (threshold : F)
    (prices : gmap string F) (symbol : string) (market_data : json F) :
  wallex_api_key config = Some key →
  api_key_unusable (Some key) = false →
  let request := trades_request config key symbol in
  ∃ wallex_price logs,
    (logs = [] ∨
     ∃ e, wallex_price = None ∧ logs = [Log WARNING (CouldNotFetchWallexLastTrade symbol e)]) ∧
    get_wallex_last_trade_price world config symbol =
      (Returned wallex_price, HttpGet request :: logs) ∧
    check_symbol world config threshold prices (symbol, market_data) =
      match both_prices wallex_price (prices !! symbol) with
      | None => (Returned tt, (HttpGet request :: logs ++ [Sleep (1 # 2)%Q])%list)
      | Some (a, b) =>
          let d := f_mul (f_quot (f_sub a b) b) f_hundred in
          if f_leb threshold (f_abs d) then
            match py_getitem market_data "baseAsset" with
            | Returned base_asset =>
                (Returned tt,
                 (HttpGet request :: logs ++ comparison_lines symbol a b d ++
                  Print SignalFound ::
                  (send_telegram_message world config
                     (signal_text world symbol base_asset a b d)).2 ++
                  [Sleep (1 # 2)%Q])%list)
            | Raised e =>
                (Raised e,
                 (HttpGet request :: logs ++ comparison_lines symbol a b d ++
                  [Print SignalFound])%list)
            end
          else
            (Returned tt,
             (HttpGet request :: logs ++ comparison_lines symbol a b d ++
              [Print NoSignal; Sleep (1 # 2)%Q])%list)
      end.
Proof.
  intros Hkey Husable request.
  destruct (get_wallex_last_trade_price_with_key world config key symbol Hkey Husable)
    as [price [Hfetch|[e Hfetch]]]; fold request in Hfetch.
  - exists price, []. split; [now left|]. split; [exact Hfetch|].
    rewrite (check_symbol_run world config threshold prices symbol market_data _ _ Hfetch).
    destruct (both_prices price (prices !! symbol)) as [[a b]|] eqn:Hboth; [|reflexivity].
    apply both_prices_some in Hboth as (_ & _ & _ & Hb).
    rewrite (compare_prices_run world config threshold symbol market_data a b Hb).
    cbv zeta. destruct (f_leb threshold _); [|reflexivity].
    rewrite signal_found_run.
    destruct (py_getitem market_data "baseAsset"); cbn [fst snd app]; [|reflexivity].
    now rewrite <- !app_assoc.
  - exists None, [Log WARNING (CouldNotFetchWallexLastTrade symbol e)].
    split; [right; eauto|]. split; [exact Hfetch|].
    rewrite (check_symbol_run world config threshold prices symbol market_data _ _ Hfetch).
    reflexivity.
Qed.

(** The loop runs its turns in order, up to the first that raises. *)
Lemma for_each_turns {A : Type} (xs : list A) (body : A → @M F unit) :
  (Forall (λ x, (body x).1 = Returned tt) xs ∧
   for_each xs body = (Returned tt, concat (map (λ x, (body x).2) xs)))
  ∨
  ∃ pre x post e,
    xs = (pre ++ x :: post)%list ∧
    Forall (λ x, (body x).1 = Returned tt) pre ∧
    (body x).1 = Raised e ∧
    for_each xs body = (Raised e, (concat (map (λ x, (body x).2) pre) ++ (body x).2)%list).
Proof.
  induction xs as [|x rest IH]; [left; split; [constructor|reflexivity]|].
  cbn [for_each]. unfold bind. destruct (body x) as [[[]|e] t] eqn:Hx.
  - destruct IH as [[Hall Hrun]|(pre & y & post & e & -> & Hall & Hy & Hrun)].
    + left. split; [constructor; [now rewrite Hx|exact Hall]|].
      rewrite Hrun. cbn [map concat]. now rewrite Hx.
    + right. exists (x :: pre), y, post, e. split; [reflexivity|].
      split; [constructor; [now rewrite Hx|exact Hall]|]. split; [exact Hy|].
      rewrite Hrun. cbn [map concat]. rewrite Hx. cbn [snd]. now rewrite app_assoc.
  - right. exists [], x, rest, e. split; [reflexivity|]. split; [constructor|].
    rewrite Hx. split; reflexivity.
Qed.

(** The requests and the pauses of one turn. *)
Lemma check_symbol_paced (config : config F) (key : string) (threshold : F)
    (prices : gmap string F) (symbol : string) (market_data : json F) :
  wallex_api_key config = Some key →
  api_key_unusable (Some key) = false →
  let turn := check_symbol world config threshold prices (symbol, market_data) in
  requests_of turn.2 = [trades_request config key symbol] ∧
  pauses_of turn.2 = match turn.1 with Returned _ => [(1 # 2)%Q] | Raised _ => [] end ∧
  (∀ e, turn.1 = Raised e → py_getitem market_data "baseAsset" = Raised e) ∧
  (names_base_asset market_data → turn.1 = Returned tt).
Proof.
  intros Hkey Husable turn.
  destruct (check_symbol_turn config key threshold prices symbol market_data Hkey Husable)
    as (wallex_price & logs & Hlogs & _ & Hturn).
  unfold turn. rewrite Hturn. clear Hturn turn.
  destruct (both_prices wallex_price (prices !! symbol)) as [[a b]|] eqn:Hboth.
  - apply both_prices_some in Hboth as (-> & _).
    destruct Hlogs as [->|(e & Hnone & _)]; [|discriminate].
    cbv zeta. destruct (f_leb threshold _).
    + destruct (py_getitem market_data "baseAsset") as [base_asset|e] eqn:Hbase.
      * destruct (send_telegram_message_calls config
                    (signal_text world symbol base_asset a b
                       (f_mul (f_quot (f_sub a b) b) f_hundred)))
          as [_ [[_ ->]|(bot_token & sent & _ & _ & -> & [->|[e ->]])]];
          repeat split; try reflexivity; discriminate.
      * repeat split; try reflexivity.
        -- now intros e' [= ->].
        -- intros [base_asset Hnamed]. congruence.
    + repeat split; try reflexivity; discriminate.
  - destruct Hlogs as [->|(e & -> & ->)]; repeat split; try reflexivity; discriminate.
Qed.

(** The messages of one turn: at most one, and then the text of the
    signal found for the symbol. *)
Lemma check_symbol_messages (config : config F) (key : string) (threshold : F)
    (prices : gmap string F) (symbol : string) (market_data : json F) :
  wallex_api_key config = Some key →
  api_key_unusable (Some key) = false →
  let turn := check_symbol world config threshold prices (symbol, market_data) in
  (length (messages_of turn.2) ≤ 1)%nat ∧
  ∀ c, c ∈ messages_of turn.2 →
    ∃ a t b base_asset,
      get_wallex_last_trade_price world config symbol = (Returned (Some a), t) ∧
      prices !! symbol = Some b ∧
      py_getitem market_data "baseAsset" = Returned base_asset ∧
      let d := f_mul (f_quot (f_sub a b) b) f_hundred in
      f_leb threshold (f_abs d) = true ∧
      ∃ bot_token,
        telegram_bot_token config = Some bot_token ∧ bot_token ≠ "" ∧
        c = notification config bot_token (signal_text world symbol base_asset a b d).
Proof.
  intros Hkey Husable turn.
  destruct (check_symbol_turn config key threshold prices symbol market_data Hkey Husable)
    as (wallex_price & logs & Hlogs & Hfetch & Hturn).
  unfold turn. rewrite Hturn. clear Hturn turn.
  destruct (both_prices wallex_price (prices !! symbol)) as [[a b]|] eqn:Hboth.
  - apply both_prices_some in Hboth as (-> & Hb & _).
    destruct Hlogs as [->|(e & Hnone & _)]; [|discriminate].
    cbv zeta. destruct (f_leb threshold _) eqn:Hreached.
    + destruct (py_getitem market_data "baseAsset") as [base_asset|e] eqn:Hbase.
      * destruct (send_telegram_message_calls config
                    (signal_text world symbol base_asset a b
                       (f_mul (f_quot (f_sub a b) b) f_hundred)))
          as [_ [[_ ->]|(bot_token & sent & Htoken & Hne & -> & Hsent)]].
        -- split; [cbn; lia|]. intros c Hin. inversion Hin.
        -- cbn [fst snd].
           match goal with |- context [messages_of ?t] =>
             assert (messages_of t =
                     [notification config bot_token
                        (signal_text world symbol base_asset a b
                           (f_mul (f_quot (f_sub a b) b) f_hundred))]) as ->
           end.
           { destruct Hsent as [->|[e ->]]; reflexivity. }
           split; [cbn; lia|]. intros c Hin. apply list_elem_of_singleton in Hin as ->.
           exists a, [HttpGet (trades_request config key symbol)], b, base_asset.
           split; [exact Hfetch|]. split; [exact Hb|]. split; [reflexivity|].
           split; [exact Hreached|]. exists bot_token. auto.
      * split; [cbn; lia|]. intros c Hin. inversion Hin.
    + split; [cbn; lia|]. intros c Hin. inversion Hin.
  - destruct Hlogs as [->|(e & -> & ->)]; (split; [cbn; lia|]); intros c Hin; inversion Hin.
Qed.

Lemma turns_requests (config : config F) (key : string) (threshold : F)
    (prices : gmap string F) (markets : list (string * json F)) :
  wallex_api_key config = Some key →
  api_key_unusable (Some key) = false →
  requests_of (concat (map (λ sd, (check_symbol world config threshold prices sd).2) markets)) =
  map (λ sd, trades_request config key sd.1) markets.
Proof.
  intros Hkey Husable. induction markets as [|[s d] rest IH]; [reflexivity|].
  cbn [map concat]. rewrite requests_of_app, IH.
  destruct (check_symbol_paced config key threshold prices s d Hkey Husable) as [-> _].
  reflexivity.
Qed.

Lemma turns_pauses (config : config F) (key : string) (threshold : F)
    (prices : gmap string F) (markets : list (string * json F)) :
  wallex_api_key config = Some key →
  api_key_unusable (Some key) = false →
  Forall (λ sd, (check_symbol world config threshold prices sd).1 = Returned tt) markets →
  pauses_of (concat (map (λ sd, (check_symbol world config threshold prices sd).2) markets)) =
  replicate (length markets) (1 # 2)%Q.
Proof.
  intros Hkey Husable. induction 1 as [|[s d] rest Hturn _ IH]; [reflexivity|].
  cbn [map concat]. rewrite pauses_of_app, IH.
  destruct (check_symbol_paced config key threshold prices s d Hkey Husable) as (_ & -> & _).
  now rewrite Hturn.
Qed.

Lemma turns_messages (config : config F) (key : string) (threshold : F)
    (prices : gmap string F) (markets : list (string * json F)) :
  wallex_api_key config = Some key →
  api_key_unusable (Some key) = false →
  (length (messages_of
     (concat (map (λ sd, (check_symbol world config threshold prices sd).2) markets)))
   ≤ length markets)%nat.
Proof.
  intros Hkey Husable. induction markets as [|[s d] rest IH]; [reflexivity|].
  cbn [map concat]. rewrite messages_of_app, length_app.
  destruct (check_symbol_messages config key threshold prices s d Hkey Husable) as [Hone _].
  cbn [length]. lia.
Qed.

(** The trace of a cycle that reaches its loop. *)
Lemma analyze_prices_loop (config : config F) (key : string) prices t1 markets t2 :
  wallex_api_key config = Some key →
  api_key_unusable (Some key) = false →
  get_coincatch_prices world config = (Returned prices, t1) →
  get_wallex_usdt_markets world config = (Returned markets, t2) →
  size prices ≠ 0 → markets ≠ [] →
  let loop :=
    for_each markets (check_symbol world config (price_difference_threshold config) prices) in
  analyze_prices world config =
  (loop.1,
   (Log INFO StartingNewAnalysisCycle :: t1 ++ t2 ++
    Log INFO (ComparingMarkets (length markets)) :: loop.2)%list).
Proof.
  intros Hkey Husable Hprices Hmarkets Hsome Hlisted loop.
  rewrite (analyze_prices_run world config prices t1 markets t2 Hprices Hmarkets).
  cbv zeta. rewrite Hkey, Husable.
  rewrite (bool_decide_eq_false_2 _ Hsome).
  rewrite bool_decide_eq_false_2; [reflexivity|].
  destruct markets; [contradiction|discriminate].
Qed.

(** X4. A cycle always makes the two full-market requests, the tickers
    first, also when the first one failed.  When either request fails,
    or either table comes back empty for any other reason, the cycle
    ends there: it logs the warning and returns, having made no other
    request, printed nothing, sent nothing and paused nowhere. *)
Theorem empty_table_skips_the_cycle (config : config F) :
  ∃ prices t1 markets t2,
    get_coincatch_prices world config = (Returned prices, t1) ∧
    get_wallex_usdt_markets world config = (Returned markets, t2) ∧
    requests_of t1 = [tickers_request config] ∧
    requests_of t2 = [markets_request config] ∧
    ((∃ e, http_get world (tickers_request config) = Raised e) ∨
     (∃ e, http_get world (markets_request config) = Raised e) →
     size prices = 0 ∨ markets = []) ∧
    (size prices = 0 ∨ markets = [] →
     let run := analyze_prices world config in
     run = (Returned tt,
            (Log INFO StartingNewAnalysisCycle :: t1 ++ t2 ++
             [Log WARNING CouldNotFetchNecessaryData])%list) ∧
     requests_of run.2 = [tickers_request config; markets_request config] ∧
     existsb is_print run.2 = false ∧
     messages_of run.2 = [] ∧
     pauses_of run.2 = []).
Proof.
  destruct (get_coincatch_prices_trace config) as (prices & l & m & Hprices & Hdown1).
  destruct (get_wallex_usdt_markets_trace config) as (markets & logs & Hmarkets & Hlogs & Hdown2).
  exists prices, [HttpGet (tickers_request config); Log l m],
    markets, (HttpGet (markets_request config) :: logs).
  split; [exact Hprices|]. split; [exact Hmarkets|]. split; [reflexivity|].
  split; [destruct Hlogs as [->|(e & _ & ->)]; reflexivity|]. split.
  - intros [Hdown|Hdown]; [left; rewrite (Hdown1 Hdown); apply map_size_empty|right; auto].
  - intros Hempty run.
    assert (run = (Returned tt,
                   (Log INFO StartingNewAnalysisCycle ::
                    [HttpGet (tickers_request config); Log l m] ++
                    (HttpGet (markets_request config) :: logs) ++
                    [Log WARNING CouldNotFetchNecessaryData])%list)) as ->.
    { unfold run.
      rewrite (analyze_prices_run world config prices _ markets _ Hprices Hmarkets).
      cbv zeta.
      assert (bool_decide (size prices = 0) || bool_decide (length markets = 0) = true) as ->;
        [|reflexivity].
      destruct Hempty as [Hempty| ->].
      - now rewrite (bool_decide_eq_true_2 _ Hempty).
      - apply orb_true_r. }
    split; [reflexivity|].
    destruct Hlogs as [->|(e & _ & ->)]; repeat split; reflexivity.
Qed.

(** X5. With a usable key and two tables that are not empty, a cycle
    asks for the tickers, then for the markets, then for the last trade
    of each market of the snapshot, one request per market in the order
    of the snapshot, whether or not the price table has the symbol and
    whatever the requests answer or the deliveries do; and it pauses
    half a second after each market.  When every market of the snapshot
    names its base asset the cycle returns.  A cycle that ends with an
    exception stops at the market that raised it: the markets after it
    get no request, and there is no pause after the one that raised. *)
Theorem one_request_per_listed_market (config : config F) (key : string)
    (prices : gmap string F) (t1 : list (event F))
    (markets : list (string * json F)) (t2 : list (event F)) :
  wallex_api_key config = Some key →
  api_key_unusable (Some key) = false →
  get_coincatch_prices world config = (Returned prices, t1) →
  get_wallex_usdt_markets world config = (Returned markets, t2) →
  size prices ≠ 0 →
  markets ≠ [] →
  let run := analyze_prices world config in
  let request_for := λ sd : string * json F, trades_request config key sd.1 in
  (Forall (λ sd, names_base_asset sd.2) markets → run.1 = Returned tt) ∧
  match run.1 with
  | Returned _ =>
      requests_of run.2 =
        tickers_request config :: markets_request config :: map request_for markets ∧
      pauses_of run.2 = replicate (length markets) (1 # 2)%Q
  | Raised e =>
      ∃ checked s d rest,
        markets = (checked ++ (s, d) :: rest)%list ∧
        py_getitem d "baseAsset" = Raised e ∧
        requests_of run.2 =
          tickers_request config :: markets_request config ::
          map request_for (checked ++ [(s, d)]) ∧
        pauses_of run.2 = replicate (length checked) (1 # 2)%Q
  end.
Proof.
  intros Hkey Husable Hprices Hmarkets Hsome Hlisted run request_for.
  unfold run.
  rewrite (analyze_prices_loop config key prices t1 markets t2
             Hkey Husable Hprices Hmarkets Hsome Hlisted).
  cbv zeta. cbn [fst snd].
  destruct (get_coincatch_prices_trace config) as (prices' & l & m & Hprices' & _).
  rewrite Hprices in Hprices'. injection Hprices' as _ ->.
  destruct (get_wallex_usdt_markets_trace config) as (markets' & logs & Hmarkets' & Hlogs & _).
  rewrite Hmarkets in Hmarkets'. injection Hmarkets' as <- ->.
  assert (logs = []) as ->.
  { destruct Hlogs as [->|(e & -> & _)]; [reflexivity|contradiction]. }
  set (threshold := price_difference_threshold config).
  destruct (for_each_turns markets (check_symbol world config threshold prices))
    as [[Hall ->]|(pre & [s d] & post & e & Hsplit & Hall & Hraise & ->)];
    cbn [fst snd].
  - split; [reflexivity|]. split.
    + cbn [app requests_of].
      now rewrite (turns_requests config key threshold prices markets Hkey Husable).
    + cbn [app pauses_of].
      now rewrite (turns_pauses config key threshold prices markets Hkey Husable Hall).
  - destruct (check_symbol_paced config key threshold prices s d Hkey Husable)
      as (Hrequests & Hpauses & Hbase & Hnamed).
    split.
    + intros Hnames. exfalso. rewrite Hsplit in Hnames.
      apply Forall_app in Hnames as [_ Hnames]. apply Forall_cons_1 in Hnames as [Hd _].
      cbn [snd] in Hd. rewrite (Hnamed Hd) in Hraise. discriminate.
    + exists pre, s, d, post. split; [exact Hsplit|]. split; [now apply Hbase|]. split.
      * cbn [app requests_of].
        rewrite requests_of_app, Hrequests.
        rewrite (turns_requests config key threshold prices pre Hkey Husable).
        now rewrite map_app.
      * cbn [app pauses_of].
        rewrite pauses_of_app, Hpauses, Hraise.
        rewrite (turns_pauses config key threshold prices pre Hkey Husable Hall).
        apply app_nil_r.
Qed.

(** X6. A cycle sends no more messages than the snapshot has markets,
    and every message it sends is the notification of a signal: it is
    sent for a market of the snapshot whose last trade was fetched, whose
    symbol has a price in the table, and whose percentage reached the
    threshold; its text is the text of that signal, and it goes to the
    configured chat with the configured bot token, which is not empty.
    So with an empty bot token (or none) a cycle sends nothing. *)
Theorem every_message_is_a_signal (config : config F) :
  (∀ c, SendMessage c ∈ (analyze_prices world config).2 →
     ∃ prices t1 markets t2 symbol market_data a t b base_asset,
       get_coincatch_prices world config = (Returned prices, t1) ∧
       get_wallex_usdt_markets world config = (Returned markets, t2) ∧
       (symbol, market_data) ∈ markets ∧
       get_wallex_last_trade_price world config symbol = (Returned (Some a), t) ∧
       prices !! symbol = Some b ∧
       py_getitem market_data "baseAsset" = Returned base_asset ∧
       let d := f_mul (f_quot (f_sub a b) b) f_hundred in
       f_leb (price_difference_threshold config) (f_abs d) = true ∧
       ∃ bot_token,
         telegram_bot_token config = Some bot_token ∧ bot_token ≠ "" ∧
         c = notification config bot_token (signal_text world symbol base_asset a b d))
  ∧
  (∀ markets t2,
     get_wallex_usdt_markets world config = (Returned markets, t2) →
     (length (messages_of (analyze_prices world config).2) ≤ length markets)%nat)
  ∧
  (str_falsy (telegram_bot_token config) = true →
   messages_of (analyze_prices world config).2 = []).
Proof.
  destruct (get_coincatch_prices_trace config) as (prices & l & m & Hprices & _).
  destruct (get_wallex_usdt_markets_trace config) as (markets & logs & Hmarkets & Hlogs & _).
  set (threshold := price_difference_threshold config).
  set (turns := concat (map (λ sd, (check_symbol world config threshold prices sd).2) markets)).
  assert (messages_of (analyze_prices world config).2 = [] ∨
          ∃ key loop,
            wallex_api_key config = Some key ∧ api_key_unusable (Some key) = false ∧
            messages_of (analyze_prices world config).2 = messages_of loop ∧
            ∃ checked rest, markets = (checked ++ rest)%list ∧
              loop = concat (map (λ sd, (check_symbol world config threshold prices sd).2)
                               checked)) as Hcases.
  { rewrite (analyze_prices_run world config prices _ markets _ Hprices Hmarkets).
    cbv zeta.
    assert (messages_of logs = []) as Hquiet
      by (destruct Hlogs as [->|(e & _ & ->)]; reflexivity).
    destruct (bool_decide (size prices = 0) || bool_decide (length markets = 0)).
    { left. cbn [snd app messages_of].
      now rewrite messages_of_app, Hquiet. }
    destruct (api_key_unusable (wallex_api_key config)) eqn:Husable.
    { left. cbn [snd app messages_of].
      now rewrite messages_of_app, Hquiet. }
    destruct (wallex_api_key config) as [key|] eqn:Hkey; [|discriminate].
    right. exists key.
    exists (for_each markets (check_symbol world config threshold prices)).2.
    split; [reflexivity|]. split; [exact Husable|]. split.
    { cbn [snd app messages_of].
      rewrite messages_of_app, Hquiet. reflexivity. }
    destruct (for_each_turns markets (check_symbol world config threshold prices))
      as [[_ ->]|(pre & x & post & e & -> & _ & _ & ->)]; cbn [snd].
    - exists markets, []. split; [now rewrite app_nil_r|reflexivity].
    - exists (pre ++ [x])%list, post. split; [now rewrite <- app_assoc|].
      rewrite map_app, concat_app. cbn [map concat]. now rewrite app_nil_r. }
  split; [|split].
  - intros c Hin.
    assert (c ∈ messages_of (analyze_prices world config).2) as Hc
      by now apply messages_of_elem.
    destruct Hcases as [Hnone|(key & loop & Hkey & Husable & Hloop & checked & rest & Hsplit & ->)].
    { rewrite Hnone in Hc. inversion Hc. }
    rewrite Hloop in Hc. clear Hloop Hin.
    assert (∃ s d, (s, d) ∈ checked ∧
                   c ∈ messages_of (check_symbol world config threshold prices (s, d)).2)
      as (s & d & Hsd & Hturn).
    { clear Hsplit. induction checked as [|[s d] more IH]; [inversion Hc|].
      cbn [map concat] in Hc. rewrite messages_of_app in Hc.
      apply elem_of_app in Hc as [Hc|Hc].
      - exists s, d. split; [apply list_elem_of_here|exact Hc].
      - destruct (IH Hc) as (s' & d' & Hin' & Hc').
        exists s', d'. split; [now apply list_elem_of_further|exact Hc']. }
    destruct (check_symbol_messages config key threshold prices s d Hkey Husable) as [_ Hsignal].
    destruct (Hsignal c Hturn) as (a & t & b & base_asset & Hfetch & Hb & Hbase & Hsent).
    exists prices, [HttpGet (tickers_request config); Log l m], markets,
      (HttpGet (markets_request config) :: logs), s, d, a, t, b, base_asset.
    split; [exact Hprices|]. split; [exact Hmarkets|].
    split; [rewrite Hsplit; apply elem_of_app; now left|].
    split; [exact Hfetch|]. split; [exact Hb|]. split; [exact Hbase|]. exact Hsent.
  - intros markets' t2 Hmarkets'. rewrite Hmarkets in Hmarkets'. injection Hmarkets' as <- _.
    destruct Hcases as [->|(key & loop & Hkey & Husable & -> & checked & rest & -> & ->)];
      [cbn; lia|].
    pose proof (turns_messages config key threshold prices checked Hkey Husable) as Hle.
    rewrite length_app. lia.
  - intros Hfalsy.
    destruct Hcases as [Hnone|(key & loop & Hkey & Husable & -> & checked & rest & _ & ->)];
      [exact Hnone|].
    induction checked as [|[s d] more IH]; [reflexivity|].
    cbn [map concat]. rewrite messages_of_app, IH, app_nil_r.
    destruct (messages_of (check_symbol world config threshold prices (s, d)).2)
      as [|c sent] eqn:Hturn; [reflexivity|]. exfalso.
    destruct (check_symbol_messages config key threshold prices s d Hkey Husable) as [_ Hsignal].
    destruct (Hsignal c) as (_ & _ & _ & _ & _ & _ & _ & _ & bot_token & Htoken & Hne & _).
    { rewrite Hturn. apply list_elem_of_here. }
    rewrite Htoken in Hfalsy. cbn in Hfalsy. apply String.eqb_eq in Hfalsy. contradiction.
Qed.

End CycleTrace.

(** ** The process *)

Section ProcessProperties.

Context {F : Type} `{PyFloat F}.

(** A cycle over a snapshot whose markets all name their base asset
    returns. *)
Lemma analyze_prices_named (world : env F) (config : config F) :
  (∀ markets t,
     get_wallex_usdt_markets world config = (Returned markets, t) →
     Forall (λ sd, names_base_asset sd.2) markets) →
  (analyze_prices world config).1 = Returned tt.
Proof.
  intros Hnamed. destruct (analyze_prices world config) as [[[]|e] t] eqn:Hrun; [reflexivity|].
  apply analyze_prices_raised in Hrun as (markets & t' & s & d & Hmarkets & Hin & Hbase).
  specialize (Hnamed markets t' Hmarkets).
  rewrite Forall_forall in Hnamed. destruct (Hnamed (s, d) Hin) as [base_asset Hd].
  cbn [snd] in Hd. congruence.
Qed.

(** The exception of a cycle is the one of a missing base asset. *)
Lemma analyze_prices_key_error (world : env F) (config : config F) e t :
  analyze_prices world config = (Raised e, t) → e = KeyError "baseAsset".
Proof.
  intros Hrun.
  apply analyze_prices_raised in Hrun as (markets & t' & s & d & Hmarkets & Hin & Hbase).
  pose proof (get_wallex_usdt_markets_dicts world config markets t' s d Hmarkets Hin) as Hdict.
  destruct d as [| | | | |members]; try discriminate.
  cbn in Hbase. destruct (assoc "baseAsset" members); congruence.
Qed.

Lemma completed_cycles_next (worlds : nat → env F) (config : config F) (first count : nat) :
  completed_cycles worlds config first (S count) =
  (completed_cycle (worlds first) config ++ completed_cycles worlds config (S first) count)%list.
Proof. reflexivity. Qed.

(** As long as the cycles return, the loop goes on. *)
Lemma main_loop_running (worlds : nat → env F) (config : config F) (fuel first : nat) :
  (∀ n, first ≤ n < first + fuel → (analyze_prices (worlds n) config).1 = Returned tt) →
  main_loop worlds config first fuel = (None, completed_cycles worlds config first fuel).
Proof.
  revert first. induction fuel as [|fuel IH]; intros first Hreturn; [reflexivity|].
  cbn [main_loop]. rewrite completed_cycles_next. unfold completed_cycle at 1.
  pose proof (Hreturn first ltac:(lia)) as Hfirst.
  destruct (analyze_prices (worlds first) config) as [[[]|e] t]; [|discriminate].
  rewrite IH by (intros n Hn; apply Hreturn; lia).
  cbn [snd]. now rewrite <- app_assoc.
Qed.

(** The loop ends with the first cycle that raises. *)
Lemma main_loop_raised (worlds : nat → env F) (config : config F) (k first fuel : nat) e t :
  (∀ n, first ≤ n < first + k → (analyze_prices (worlds n) config).1 = Returned tt) →
  analyze_prices (worlds (first + k)) config = (Raised e, t) →
  k < fuel →
  main_loop worlds config first fuel =
  (Some (Uncaught e), (completed_cycles worlds config first k ++ map Event t)%list).
Proof.
  revert first fuel. induction k as [|k IH]; intros first fuel Hreturn Hraise Hfuel;
    (destruct fuel as [|fuel]; [lia|]); cbn [main_loop].
  - rewrite Nat.add_0_r in Hraise. rewrite Hraise. reflexivity.
  - rewrite completed_cycles_next. unfold completed_cycle at 1.
    pose proof (Hreturn first ltac:(lia)) as Hfirst.
    destruct (analyze_prices (worlds first) config) as [[[]|e'] t']; [|discriminate].
    rewrite (IH (S first) fuel).
    + cbn [snd]. now rewrite <- !app_assoc.
    + intros n Hn. apply Hreturn. lia.
    + now replace (S first + k) with (first + S k) by lia.
    + lia.
Qed.

Lemma main_loop_ended (worlds : nat → env F) (config : config F) (fuel first : nat) stop trace :
  main_loop worlds config first fuel = (Some stop, trace) →
  ∃ k e t,
    k < fuel ∧ stop = Uncaught e ∧
    (∀ n, first ≤ n < first + k → (analyze_prices (worlds n) config).1 = Returned tt) ∧
    analyze_prices (worlds (first + k)) config = (Raised e, t).
Proof.
  revert first trace. induction fuel as [|fuel IH]; intros first trace; cbn [main_loop];
    [discriminate|].
  destruct (analyze_prices (worlds first) config) as [[[]|e] t] eqn:Hfirst.
  - destruct (main_loop worlds config (S first) fuel) as [r t'] eqn:Hrest.
    intros [= -> _].
    destruct (IH _ _ Hrest) as (k & e & t'' & Hk & Hstop & Hreturn & Hraise).
    exists (S k), e, t''. split; [lia|]. split; [exact Hstop|]. split.
    + intros n Hn. destruct (decide (n = first)) as [->|Hne]; [now rewrite Hfirst|].
      apply Hreturn. lia.
    + now replace (first + S k) with (S first + k) by lia.
  - intros [= <- _]. exists 0, e, t. split; [lia|]. split; [reflexivity|].
    split; [intros n Hn; lia|]. now rewrite Nat.add_0_r.
Qed.



End ProcessProperties.

(** ** Escaping an escaped text *)

Section EscapingTwice.

Lemma count_reserved_app (a b : string) :
  count_reserved (a ++ b) = count_reserved a + count_reserved b.
Proof.
  induction a as [|c a IH]; [reflexivity|].
  cbn [append count_reserved]. rewrite IH. lia.
Qed.

(** The markers are not counted: escaping leaves the number of reserved
    characters as it was. *)
Lemma count_reserved_escape_markdown (text : string) :
  count_reserved (escape_markdown text) = count_reserved text.
Proof.
  induction text as [|c rest IH]; [reflexivity|].
  cbn [escape_markdown count_reserved]. rewrite count_reserved_app, IH.
  unfold escape_char. destruct (char_in c escape_chars) eqn:Hc;
    cbn [count_reserved]; rewrite ?marker_not_reserved, Hc; lia.
Qed.

Lemma escape_markdown_plain (text : string) :
  count_reserved text = 0 → escape_markdown text = text.
Proof.
  induction text as [|c rest IH]; [reflexivity|].
  cbn [escape_markdown count_reserved]. unfold escape_char.
  destruct (char_in c escape_chars); [discriminate|].
  intros Hrest. cbn [append]. now rewrite IH.
Qed.

(** X9. [escape_markdown] is not idempotent.  It does not escape its own
    marker, but it escapes again every reserved character of an escaped
    text: escaping twice puts two markers in front of each reserved
    character.  A second escaping changes nothing exactly when the text
    has no reserved character, which is also exactly when the first
    changes nothing.  Distinct texts have distinct escapes. *)
Theorem escaping_twice_marks_twice (text : string) :
  count_reserved (escape_markdown text) = count_reserved text ∧
  String.length (escape_markdown (escape_markdown text)) =
    String.length text + 2 * count_reserved text ∧
  (escape_markdown (escape_markdown text) = escape_markdown text ↔ count_reserved text = 0) ∧
  (escape_markdown text = text ↔ count_reserved text = 0) ∧
  (∀ other, escape_markdown text = escape_markdown other → text = other).
Proof.
  split; [apply count_reserved_escape_markdown|].
  assert (String.length (escape_markdown (escape_markdown text)) =
          String.length text + 2 * count_reserved text) as Htwice.
  { rewrite !escape_markdown_length, count_reserved_escape_markdown. lia. }
  split; [exact Htwice|]. split; [|split].
  - split.
    + intros Hsame. rewrite Hsame, escape_markdown_length in Htwice. lia.
    + intros Hplain. now rewrite !(escape_markdown_plain text Hplain).
  - split.
    + intros Hsame. pose proof (escape_markdown_length text) as Hlen.
      rewrite Hsame in Hlen. lia.
    + apply escape_markdown_plain.
  - intros other Hsame.
    rewrite <- (unescape_escape_markdown text), <- (unescape_escape_markdown other).
    now rewrite Hsame.
Qed.

End EscapingTwice.

(** ** Binary64 arithmetic: numbers that are no prices *)

Section Binary64Edges.

Import SpecFloat.

Lemma SFcompare_refl (x : spec_float) : x ≠ S754_nan → SFcompare x x = Some Eq.
Proof.
  destruct x as [s|s| |s m e]; intros Hx; try contradiction.
  - reflexivity.
  - now destruct s.
  - cbn. rewrite Z.compare_refl. fold (Pos.compare m m). rewrite Pos.compare_refl.
    now destruct s.
Qed.

Lemma is_nan_shape (x : float) : is_nan x = true ↔ Prim2SF x = S754_nan.
Proof.
  unfold is_nan. rewrite negb_true_iff, FloatAxioms.eqb_spec. unfold SFeqb. split.
  - intros Hx. destruct (Prim2SF x) as [s|s| |s m e] eqn:Hshape; try reflexivity;
      now rewrite SFcompare_refl in Hx.
  - now intros ->.
Qed.

Lemma is_infinity_shape (x : float) :
  is_infinity x = true → ∃ s, Prim2SF x = S754_infinity s.
Proof.
  unfold is_infinity. rewrite FloatAxioms.eqb_spec, abs_spec.
  change (Prim2SF infinity) with (S754_infinity false). unfold SFeqb.
  destruct (Prim2SF x) as [s|s| |s m e]; cbn; try discriminate. eauto.
Qed.

(** Any comparison with a number that is none fails. *)
Lemma SFleb_nan_r (x : spec_float) : SFleb x S754_nan = false.
Proof. now destruct x. Qed.

Lemma SFsub_nan_r (x : spec_float) : SFsub prec emax x S754_nan = S754_nan.
Proof. now destruct x. Qed.

Lemma SFdiv_nan_r (x : spec_float) : SFdiv prec emax x S754_nan = S754_nan.
Proof. now destruct x. Qed.

(** The percentage of a pair with a number that is none, or with an
    infinite reference, is no number. *)
Lemma percentage_nan (a b : float) :
  is_nan a = true ∨ is_nan b = true ∨ is_infinity b = true →
  Prim2SF ((a - b) / b * 100) = S754_nan.
Proof.
  intros Hcase. rewrite mul_spec, div_spec, sub_spec. unfold SF64mul, SF64div, SF64sub.
  destruct Hcase as [Ha|[Hb|Hb]].
  - apply is_nan_shape in Ha. rewrite Ha. reflexivity.
  - apply is_nan_shape in Hb. rewrite Hb, SFsub_nan_r. reflexivity.
  - apply is_infinity_shape in Hb as [sb Hb]. rewrite Hb.
    destruct (Prim2SF a) as [sa|sa| |sa ma ea]; try reflexivity.
    now destruct sa, sb.
Qed.

(** X10. On binary64 a number that is none (NaN) is not zero, so it
    passes the test [if wallex_price and coincatch_price] and the pair is
    compared.  The comparison of such a pair never finds a signal: when
    either price is NaN, or the CoinCatch price is infinite, the
    percentage is NaN and [abs(percentage_diff) >= signal_threshold] is
    false for every threshold; and when the threshold is NaN it is false
    for every pair.  The five comparison lines and the line that there is
    no signal are printed, nothing is sent, nothing is raised. *)
Theorem nan_is_never_a_signal (world : env float) (config : config float)
    (threshold : float) (symbol : string) (market_data : json float) :
  (∀ x, is_nan x = true → float_truthy x = true)
  ∧
  (∀ a b, is_nan a = true ∨ is_nan b = true ∨ is_infinity b = true →
     is_nan ((a - b) / b * 100) = true)
  ∧
  (∀ a b,
     is_nan a = true ∨ is_nan b = true ∨ is_infinity b = true ∨ is_nan threshold = true →
     (b =? 0)%float = false →
     compare_prices world config threshold symbol market_data a b =
       (Returned tt,
        (comparison_lines symbol a b ((a - b) / b * 100)%float ++ [Print NoSignal])%list)).
Proof.
  split; [|split].
  - intros x Hx. unfold float_truthy. cbn [f_eqb f_zero binary64].
    apply is_nan_shape in Hx. now rewrite FloatAxioms.eqb_spec, Hx.
  - intros a b Hcase. apply is_nan_shape. now apply percentage_nan.
  - intros a b Hcase Hb.
    rewrite (compare_prices_run (H:=binary64) world config threshold symbol market_data a b Hb).
    cbv zeta. cbn [f_leb f_abs f_mul f_quot f_sub f_hundred binary64].
    assert ((threshold <=? abs ((a - b) / b * 100))%float = false) as ->; [|reflexivity].
    rewrite FloatAxioms.leb_spec, abs_spec.
    destruct Hcase as [Ha|[Hb'|[Hb'|Ht]]].
    + rewrite percentage_nan by auto. apply SFleb_nan_r.
    + rewrite percentage_nan by auto. apply SFleb_nan_r.
    + rewrite percentage_nan by auto. apply SFleb_nan_r.
    + apply is_nan_shape in Ht. now rewrite Ht.
Qed.

(** Two numbers that compare equal are the same number, but for the
    sign of a zero. *)
Lemma SFeqb_shape (x y : spec_float) :
  SFeqb x y = true →
  x = y ∨ ∃ s s', x = S754_zero s ∧ y = S754_zero s'.
Proof.
  unfold SFeqb.
  destruct x as [sx|sx| |sx mx ex], y as [sy|sy| |sy my ey]; cbn;
    try discriminate; try (destruct sx; discriminate); try (destruct sy; discriminate).
  - eauto.
  - destruct sx, sy; try discriminate; auto.
  - assert (ex = ey → mx = my → sx = sy →
            S754_finite sx mx ex = S754_finite sy my ey ∨
            ∃ s s', S754_finite sx mx ex = S754_zero s ∧ S754_finite sy my ey = S754_zero s')
      as Hsame by (intros -> -> ->; auto).
    fold (Pos.compare mx my).
    destruct sx, sy; try discriminate;
      destruct (ex ?= ey)%Z eqn:He; try discriminate;
      destruct (mx ?= my)%positive eqn:Hm; try discriminate;
      intros _; apply Hsame; auto using Z.compare_eq, Pos.compare_eq.
Qed.

(** The percentage of two equal prices is a zero, or no number when
    both are infinite. *)
Lemma percentage_of_equal_prices (a b : float) :
  (a =? b)%float = true → (b =? 0)%float = false →
  (∃ s, Prim2SF ((a - b) / b * 100) = S754_zero s) ∨
  Prim2SF ((a - b) / b * 100) = S754_nan.
Proof.
  rewrite !FloatAxioms.eqb_spec, mul_spec, div_spec, sub_spec.
  change (Prim2SF 0) with (S754_zero false).
  change (Prim2SF 100) with (S754_finite false 7036874417766400 (-46)).
  unfold SF64mul, SF64div, SF64sub.
  intros Hsame Hb. apply SFeqb_shape in Hsame as [->|(s & s' & _ & Hzero)].
  - destruct (Prim2SF b) as [sb|sb| |sb mb eb].
    + discriminate.
    + right. now destruct sb.
    + right. reflexivity.
    + left. unfold SFsub. cbv zeta. rewrite Z.sub_diag. cbn. eauto.
  - rewrite Hzero in Hb. discriminate.
Qed.

(** X11. On binary64, when the two prices compare equal the percentage
    is exactly zero (no rounding is left over), or no number when both
    prices are the same infinity.  Either way the side is SELL, and under
    a threshold above zero there is no signal: the comparison prints its
    lines and the line that there is no signal, and sends nothing. *)
Theorem equal_prices_are_never_a_signal (world : env float) (config : config float)
    (threshold : float) (symbol : string) (market_data : json float) (a b : float) :
  (a =? b)%float = true →
  (b =? 0)%float = false →
  let d := ((a - b) / b * 100)%float in
  ((d =? 0)%float = true ∨ is_nan d = true) ∧
  (classify d).1 = SELL ∧
  ((0 <? threshold)%float = true →
   compare_prices world config threshold symbol market_data a b =
     (Returned tt, (comparison_lines symbol a b d ++ [Print NoSignal])%list)).
Proof.
  intros Hsame Hb d.
  pose proof (percentage_of_equal_prices a b Hsame Hb) as Hd. fold d in Hd.
  split; [|split].
  - destruct Hd as [[s Hd]|Hd].
    + left. now rewrite FloatAxioms.eqb_spec, Hd.
    + right. now apply is_nan_shape.
  - unfold classify. cbn [f_ltb f_zero f_abs binary64].
    assert ((d <? 0)%float = false) as ->; [|reflexivity].
    rewrite ltb_spec. destruct Hd as [[s ->]| ->]; reflexivity.
  - intros Hpositive.
    rewrite (compare_prices_run (H:=binary64) world config threshold symbol market_data a b Hb).
    cbv zeta. cbn [f_leb f_abs f_mul f_quot f_sub f_hundred binary64]. fold d.
    assert ((threshold <=? abs d)%float = false) as ->; [|reflexivity].
    rewrite FloatAxioms.leb_spec, abs_spec.
    rewrite ltb_spec in Hpositive. change (Prim2SF 0) with (S754_zero false) in Hpositive.
    destruct Hd as [[s ->]| ->]; [|apply SFleb_nan_r].
    destruct (Prim2SF threshold) as [st|st| |st mt et]; try discriminate;
      destruct st; try discriminate; reflexivity.
Qed.

(** X12. On binary64, whenever [abs(percentage_diff) >= signal_threshold]
    holds, the profit potential of the classification compares equal to
    [abs(percentage_diff)] on either side: it is not negative, and it is
    the threshold at least.  (On the SELL side it is the percentage
    itself, which is then not negative.) *)
Theorem profit_potential_is_the_magnitude (threshold d : float) :
  (threshold <=? abs d)%float = true →
  ((classify d).2 =? abs d)%float = true ∧
  (0 <=? (classify d).2)%float = true ∧
  (threshold <=? (classify d).2)%float = true ∧
  ((classify d).1 = SELL → (classify d).2 = d ∧ (0 <=? d)%float = true).
Proof.
  intros Hreached. unfold classify. cbn [f_ltb f_zero f_abs binary64].
  revert Hreached.
  rewrite !FloatAxioms.leb_spec, ltb_spec.
  destruct (SFltb (Prim2SF d) (Prim2SF 0)) eqn:Hbelow; cbn [fst snd];
    rewrite ?FloatAxioms.eqb_spec, ?FloatAxioms.leb_spec, ?abs_spec;
    change (Prim2SF 0) with (S754_zero false) in *; intros Hreached.
  - split; [|split; [|split]].
    + unfold SFeqb. rewrite SFcompare_refl; [reflexivity|].
      destruct (Prim2SF d); discriminate.
    + destruct (Prim2SF d) as [s|s| |s m e]; try reflexivity. discriminate.
    + exact Hreached.
    + discriminate.
  - destruct (Prim2SF d) as [s|s| |s m e] eqn:Hd.
    + repeat split; try reflexivity.
      now destruct (Prim2SF threshold) as [st|st| |st mt et].
    + destruct s; [discriminate|]. repeat split; try reflexivity. exact Hreached.
    + now rewrite SFleb_nan_r in Hreached.
    + destruct s; [discriminate|]. cbn [SFabs] in Hreached.
      split; [|split; [|split]]; try reflexivity; try exact Hreached.
      * unfold SFeqb. rewrite SFcompare_refl; [reflexivity|discriminate].
      * intros _. split; reflexivity.
Qed.

(** X13. On binary64, under a threshold that is zero or below, every
    pair that is compared is a signal, unless its percentage is no
    number: [abs(percentage_diff)] is never below zero.  So with the
    threshold 0 also two equal prices are a signal, on the SELL side. *)
Theorem threshold_of_zero_signals_every_pair (world : env float) (config : config float)
    (threshold : float) (symbol : string) (market_data base_asset : json float)
    (a b : float) :
  (threshold <=? 0)%float = true →
  (b =? 0)%float = false →
  let d := ((a - b) / b * 100)%float in
  is_nan d = false →
  py_getitem market_data "baseAsset" = Returned base_asset →
  (threshold <=? abs d)%float = true ∧
  compare_prices world config threshold symbol market_data a b =
    (Returned tt,
     (comparison_lines symbol a b d ++
      Print SignalFound ::
      (send_telegram_message world config (signal_text world symbol base_asset a b d)).2)%list).
Proof.
  intros Hlow Hb d Hnumber Hbase.
  assert ((threshold <=? abs d)%float = true) as Hreached.
  { assert (Prim2SF d ≠ S754_nan) as Hd.
    { intros Hnan. apply is_nan_shape in Hnan. congruence. }
    revert Hlow. rewrite !FloatAxioms.leb_spec, abs_spec.
    change (Prim2SF 0) with (S754_zero false).
    destruct (Prim2SF d) as [sd|sd| |sd md ed]; [| |contradiction|];
      destruct (Prim2SF threshold) as [st|st| |st mt et]; cbn;
      try destruct st; try discriminate; reflexivity. }
  split; [exact Hreached|].
  rewrite (compare_prices_run (H:=binary64) world config threshold symbol market_data a b Hb).
  cbv zeta. cbn [f_leb f_abs f_mul f_quot f_sub f_hundred binary64]. fold d.
  rewrite Hreached, signal_found_run, Hbase. reflexivity.
Qed.

End Binary64Edges.

(** ** The properties on the sample data *)

Section OnSamples.

Import Sample.

(** The three scenarios of the specification, on binary64: BTC at 50000
    against a last trade at 49000 is -2 percent, a BUY above the
    threshold 1.5; ETH at 3000 against 3010 is a third of a percent, below
    the threshold 2; and a listed symbol without a ticker is passed over,
    the cycle going on to its end. *)
Example specification_scenarios :
  percentage_difference 49000%float 50000%float = Returned (-2)%float ∧
  classify (-2)%float = (BUY, 2%float) ∧
  f_leb 1.5%float (f_abs (-2)%float) = true ∧
  (∃ d, percentage_difference 3010%float 3000%float = Returned d ∧
        f_leb 2%float (f_abs d) = false) ∧
  check_symbol world settings 1.5%float prices ("DOGEUSDT", market "DOGE" "USDT") =
    (Returned tt, [HttpGet (trades_request settings "wallex-key" "DOGEUSDT"); Sleep (1 # 2)%Q]) ∧
  (analyze_prices world settings).1 = Returned tt ∧
  filter is_send (analyze_prices world settings).2 =
    [SendMessage
       {| token := "123456:bot-token"; chat_id := JStr "-1001234567890";
          text := signal_text world "BTCUSDT" (JStr "BTC") 49000%float 50000%float (-2)%float;
          message_thread_id := JNull |}].
Proof.
  repeat split; try (vm_compute; reflexivity).
  eexists. split; vm_compute; reflexivity.
Qed.

(** On the sample answers the two carriers agree: the cycle over exact
    rationals sends the one message of the cycle over binary64. *)
Example carriers_agree_on_the_sample :
  (analyze_prices rational_world rational_settings).1 = Returned tt ∧
  map text (omap (λ e, match e with SendMessage c => Some c | _ => None end)
              (analyze_prices rational_world rational_settings).2) =
  [signal_text world "BTCUSDT" (JStr "BTC") 49000%float 50000%float (-2)%float].
Proof. split; vm_compute; reflexivity. Qed.

(** What the fetches make of answers of the wrong shape: a body that is
    a list, tickers that are a dict, a ticker that is text, a price that
    is no number. *)
Example malformed_answers :
  py_get (JArr [] : json PrimFloat.float) "data" (JArr []) = Raised AttributeError ∧
  py_iter (JNull : json PrimFloat.float) = Raised TypeError ∧
  ticker_entry world (JStr "BTC-USDT") = Raised AttributeError ∧
  ticker_entry world (ticker "BTC-USDT" "n/a") = Raised ValueError ∧
  ticker_entry world (JObj [("symbol", JNull); ("close", JStr "1")]) = Raised AttributeError ∧
  ticker_entry world (JObj [("close", JNum 2%float)]) = Returned ("", 2%float) ∧
  py_first (JObj [("price", JStr "1")] : json PrimFloat.float) = Raised (KeyError "0").
Proof. repeat split; vm_compute; reflexivity. Qed.

(** C1 at 49000 against 50000. *)
Lemma buy_exactly_when_wallex_is_cheaper_witness :
  percentage_difference 49000%float 50000%float = Returned (-2)%float ∧
  classify (-2)%float = (BUY, 2%float) ∧
  (49000 <? 50000)%float = true.
Proof.
  pose proof (buy_exactly_when_wallex_is_cheaper 49000%float 50000%float eq_refl eq_refl)
    as (Hd & Hsign & Hbuy & _).
  split; [exact Hd|]. split; [|reflexivity].
  exact (Hbuy eq_refl).
Defined.

(** C2: one ticker without a price, and the priced one is lost with it. *)
Lemma unpriced_ticker_empties_the_table :
  ticker_entry world_with_unpriced_ticker (ticker "BTC-USDT" "50000")
    = Returned ("BTCUSDT", 50000%float) ∧
  ticker_entry world_with_unpriced_ticker (ticker_without_price "ETH-USDT")
    = Raised TypeError ∧
  get_coincatch_prices world_with_unpriced_ticker settings =
    (Returned ∅,
     [HttpGet (tickers_request settings);
      Log ERROR (ErrorFetchingCoinCatchPrices TypeError)]) ∧
  (get_coincatch_prices world settings).1 = Returned prices ∧
  prices !! "BTCUSDT" = Some 50000%float.
Proof. repeat split; vm_compute; reflexivity. Qed.

(** C2, as the code has it, on the two sample answers. *)
Lemma coincatch_prices_all_or_nothing_witness :
  (∃ e, get_coincatch_prices world_with_unpriced_ticker settings =
        (Returned ∅,
         [HttpGet (tickers_request settings); Log ERROR (ErrorFetchingCoinCatchPrices e)])) ∧
  get_coincatch_prices world settings =
    (Returned prices, [HttpGet (tickers_request settings); Log INFO (FetchedTickers 2)]).
Proof.
  split.
  - refine (proj1 (coincatch_prices_all_or_nothing world_with_unpriced_ticker settings
                     (tickers_body [ticker "BTC-USDT" "50000"; ticker_without_price "ETH-USDT"])
                     (JArr [ticker "BTC-USDT" "50000"; ticker_without_price "ETH-USDT"])
                     [ticker "BTC-USDT" "50000"; ticker_without_price "ETH-USDT"]
                     eq_refl eq_refl eq_refl)
                  (ticker_without_price "ETH-USDT") _ _).
    + apply list_elem_of_further, list_elem_of_here.
    + left. exists JNull, TypeError. split; reflexivity.
  - refine (proj1 (proj2 (coincatch_prices_all_or_nothing world settings
                            (tickers_body [ticker "BTC-USDT" "50000"; ticker "ETH-USDT" "3000"])
                            (JArr [ticker "BTC-USDT" "50000"; ticker "ETH-USDT" "3000"])
                            [ticker "BTC-USDT" "50000"; ticker "ETH-USDT" "3000"]
                            eq_refl eq_refl eq_refl)
                         [("BTCUSDT", 50000%float); ("ETHUSDT", 3000%float)] _)).
    repeat constructor.
Defined.

(** C3 on the sample cycle: the BTC signal is found and sent, at threshold
    1.5 and at threshold 2, which the magnitude equals. *)
Lemma signal_exactly_when_threshold_reached_witness :
  existsb is_signal_line
    (check_symbol world settings 1.5%float prices ("BTCUSDT", market "BTC" "USDT")).2 = true ∧
  existsb is_send
    (check_symbol world settings 2%float prices ("BTCUSDT", market "BTC" "USDT")).2 = true ∧
  existsb is_signal_line
    (check_symbol world settings 2.5%float prices ("BTCUSDT", market "BTC" "USDT")).2 = false.
Proof.
  pose proof (λ threshold,
    signal_exactly_when_threshold_reached world settings threshold prices "BTCUSDT"
      (market "BTC" "USDT") (JStr "BTC") 49000%float 50000%float
      [HttpGet (trades_request settings "wallex-key" "BTCUSDT")]
      eq_refl eq_refl eq_refl eq_refl eq_refl) as Hsignal.
  split; [|split].
  - destruct (Hsignal 1.5%float) as (_ & _ & -> & _). reflexivity.
  - destruct (Hsignal 2%float) as (_ & _ & _ & -> & _); reflexivity.
  - destruct (Hsignal 2.5%float) as (_ & _ & -> & _). reflexivity.
Defined.

(** C4: a last trade at -49000 is not positive, and is compared all the
    same: the signal is found and sent. *)
Lemma negative_price_is_not_skipped :
  get_wallex_last_trade_price world_with_negative_trade settings "BTCUSDT" =
    (Returned (Some (-49000)%float), [HttpGet (trades_request settings "wallex-key" "BTCUSDT")]) ∧
  f_leb (-49000)%float 0%float = true ∧
  prices !! "BTCUSDT" = Some 50000%float ∧
  (check_symbol world_with_negative_trade settings 1.5%float prices
     ("BTCUSDT", market "BTC" "USDT")).1 = Returned tt ∧
  existsb is_signal_line
    (check_symbol world_with_negative_trade settings 1.5%float prices
       ("BTCUSDT", market "BTC" "USDT")).2 = true ∧
  existsb is_send
    (check_symbol world_with_negative_trade settings 1.5%float prices
       ("BTCUSDT", market "BTC" "USDT")).2 = true ∧
  filter is_send (analyze_prices world_with_negative_trade settings).2 =
    [SendMessage
       {| token := "123456:bot-token"; chat_id := JStr "-1001234567890";
          text := signal_text world_with_negative_trade "BTCUSDT" (JStr "BTC")
                    (-49000)%float 50000%float (-198)%float;
          message_thread_id := JNull |}].
Proof. repeat split; vm_compute; reflexivity. Qed.

(** C4, as the code has it: a symbol without a ticker is skipped. *)
Lemma absent_or_zero_price_skips_symbol_witness :
  prices !! "DOGEUSDT" = None ∧
  check_symbol world settings 1.5%float prices ("DOGEUSDT", market "DOGE" "USDT") =
    (Returned tt, [HttpGet (trades_request settings "wallex-key" "DOGEUSDT"); Sleep (1 # 2)%Q]).
Proof.
  assert (prices !! "DOGEUSDT" = None) as Hnone by (vm_compute; reflexivity).
  split; [exact Hnone|].
  refine (proj1 (proj1 (absent_or_zero_price_skips_symbol world settings 1.5%float prices
                          "DOGEUSDT" (market "DOGE" "USDT"))
                   (Some 0.25%float) _ eq_refl _)).
  right. right. left. exact Hnone.
Defined.

(** C5 on the sample cycle with the placeholder for a key. *)
Lemma unusable_api_key_makes_no_symbol_call_witness :
  wallex_api_key settings_without_key = Some "YOUR_API_KEY_HERE" ∧
  existsb per_symbol_call (analyze_prices world settings_without_key).2 = false.
Proof.
  split; [reflexivity|].
  destruct (unusable_api_key_makes_no_symbol_call world settings_without_key)
    as (_ & prices & t1 & markets & t2 & _ & _ & _ & _ & _ & Hcalls).
  - right. right. reflexivity.
  - exact Hcalls.
Defined.

(** C6: a ticker that closes at -1 is kept in the table. *)
Lemma negative_price_is_kept :
  ∃ table trace,
    get_coincatch_prices world_with_negative_ticker settings = (Returned table, trace) ∧
    table !! "BTCUSDT" = Some (-1)%float ∧
    f_ltb 0%float (-1)%float = false.
Proof. eexists _, _. repeat split; vm_compute; reflexivity. Qed.

(** C6, as the code has it, on the sample table. *)
Lemma price_table_entries_are_nonzero_witness :
  get_coincatch_prices world settings =
    (Returned prices, [HttpGet (tickers_request settings); Log INFO (FetchedTickers 2)]) ∧
  ∀ k v, prices !! k = Some v → k ≠ "" ∧ f_eqb v 0%float = false.
Proof.
  assert (get_coincatch_prices world settings =
          (Returned prices, [HttpGet (tickers_request settings); Log INFO (FetchedTickers 2)]))
    as Hrun by (vm_compute; reflexivity).
  split; [exact Hrun|].
  exact (proj1 (price_table_entries_are_nonzero world settings prices _ Hrun)).
Defined.

(** C7 on the sample listing: the market quoted in TMN is left out. *)
Lemma market_snapshot_is_the_usdt_listing_witness :
  ∃ markets trace,
    get_wallex_usdt_markets world settings = (Returned markets, trace) ∧
    markets = [("BTCUSDT", market "BTC" "USDT"); ("ETHUSDT", market "ETH" "USDT");
               ("DOGEUSDT", market "DOGE" "USDT")].
Proof.
  destruct (market_snapshot_is_the_usdt_listing world settings)
    as (markets & trace & Hrun & _ & Hlisting).
  exists markets, trace. split; [exact Hrun|].
  destruct (Hlisting (markets_body listing) (JObj [("symbols", JObj listing)]) listing
              eq_refl eq_refl eq_refl) as (_ & Hfilter & _).
  destruct Hfilter as (_ & -> & _); [repeat constructor | reflexivity].
Defined.

(** C9 with the network down: both fetches return empty mappings. *)
Lemma full_market_fetches_never_raise_witness :
  get_wallex_usdt_markets world_offline settings =
    (Returned [],
     [HttpGet (markets_request settings);
      Log ERROR (ErrorFetchingWallexMarkets (RequestException "Connection refused"))]) ∧
  get_coincatch_prices world_offline settings =
    (Returned ∅,
     [HttpGet (tickers_request settings);
      Log ERROR (ErrorFetchingCoinCatchPrices (RequestException "Connection refused"))]).
Proof.
  destruct (full_market_fetches_never_raise world_offline settings)
    as [(markets & t1 & Hmarkets & _ & Hoff1) [(table & t2 & Hprices & _ & Hoff2) _]].
  destruct (Hoff1 (RequestException "Connection refused") eq_refl) as [-> ->].
  destruct (Hoff2 (RequestException "Connection refused") eq_refl) as [-> ->].
  exact (conj Hmarkets Hprices).
Defined.

(** C10 with a delivery that times out, and with an empty token. *)
Lemma send_telegram_message_guards_witness :
  send_telegram_message world_offline settings "text" =
    (Returned tt,
     [SendMessage {| token := "123456:bot-token"; chat_id := JStr "-1001234567890";
                     text := "text"; message_thread_id := JNull |};
      Log ERROR (ErrorSendingTelegramMessage (TelegramError "Timed out"))]) ∧
  send_telegram_message world_offline (config_of (Some "k") (Some "") 1.5%float) "text" =
    (Returned tt, []).
Proof.
  split.
  - exact (proj2 (send_telegram_message_guards world_offline settings "text")
             "123456:bot-token" eq_refl ltac:(discriminate)).
  - exact (proj1 (send_telegram_message_guards world_offline
                    (config_of (Some "k") (Some "") 1.5%float) "text") eq_refl).
Defined.

End OnSamples.

(** ** The further properties on the sample data *)

Section MoreOnSamples.

Import Sample.

(** X1 with the network down: no price, one request, one warning. *)
Lemma last_trade_fetch_never_raises_witness :
  get_wallex_last_trade_price world_offline settings "BTCUSDT" =
    (Returned None,
     [HttpGet (trades_request settings "wallex-key" "BTCUSDT");
      Log WARNING
        (CouldNotFetchWallexLastTrade "BTCUSDT" (RequestException "404 Client Error"))]).
Proof.
  destruct (last_trade_fetch_never_raises world_offline settings "BTCUSDT")
    as (price & trace & Hrun & _ & Hkey).
  destruct (Hkey "wallex-key" eq_refl eq_refl) as (_ & _ & _ & Hdown).
  destruct (Hdown (RequestException "404 Client Error") eq_refl) as [-> ->].
  exact Hrun.
Defined.

(** X2 on an answer with two trades: the first is the one returned. *)
Lemma last_trade_price_is_the_first_trade_witness :
  get_wallex_last_trade_price world_with_two_trades settings "BTCUSDT" =
    (Returned (Some 49000%float), [HttpGet (trades_request settings "wallex-key" "BTCUSDT")]).
Proof.
  exact (proj1 (last_trade_price_is_the_first_trade world_with_two_trades settings
                  "wallex-key" "BTCUSDT" two_trades_body
                  (JObj [("latestTrades",
                          JArr [JObj [("price", JStr "49000")];
                                JObj [("price", JStr "51000")]])])
                  eq_refl eq_refl eq_refl eq_refl)
           (JObj [("price", JStr "49000")]) [JObj [("price", JStr "51000")]]
           (JStr "49000") 49000%float eq_refl eq_refl eq_refl).
Defined.

(** X3 on the sample table: the ticker BTC-USDT is found under BTCUSDT. *)
Lemma price_table_keys_are_normalised_witness :
  prices !! "BTCUSDT" = Some 50000%float ∧
  prices !! "BTC-USDT" = None ∧
  ∀ k v, prices !! k = Some v → char_in "-" k = false.
Proof.
  assert (get_coincatch_prices world settings =
          (Returned prices, [HttpGet (tickers_request settings); Log INFO (FetchedTickers 2)]))
    as Hrun by (vm_compute; reflexivity).
  destruct (price_table_keys_are_normalised world settings prices _ Hrun) as [Hkeys Hdash].
  split; [vm_compute; reflexivity|]. split; [exact (Hdash "BTC-USDT" eq_refl)|].
  intros k v Hl. exact (proj1 (Hkeys k v Hl)).
Defined.

(** X4 with the network down: two requests, and the cycle is over. *)
Lemma empty_table_skips_the_cycle_witness :
  (analyze_prices world_offline settings).1 = Returned tt ∧
  requests_of (analyze_prices world_offline settings).2 =
    [tickers_request settings; markets_request settings] ∧
  pauses_of (analyze_prices world_offline settings).2 = [].
Proof.
  destruct (empty_table_skips_the_cycle world_offline settings)
    as (table & t1 & snapshot & t2 & _ & _ & _ & _ & Hdown & Hskip).
  destruct (Hskip (Hdown (or_introl (ex_intro _ (RequestException "Connection refused")
                                       eq_refl))))
    as (Hrun & Hrequests & _ & _ & Hpauses).
  split; [now rewrite Hrun|]. split; [exact Hrequests | exact Hpauses].
Defined.

(** X5 on the sample cycle: three markets, three requests in the order
    of the listing, DOGE among them though it has no ticker. *)
Lemma one_request_per_listed_market_witness :
  (analyze_prices world settings).1 = Returned tt ∧
  requests_of (analyze_prices world settings).2 =
    [tickers_request settings; markets_request settings;
     trades_request settings "wallex-key" "BTCUSDT";
     trades_request settings "wallex-key" "ETHUSDT";
     trades_request settings "wallex-key" "DOGEUSDT"] ∧
  pauses_of (analyze_prices world settings).2 = [(1 # 2)%Q; (1 # 2)%Q; (1 # 2)%Q].
Proof.
  assert (get_coincatch_prices world settings =
          (Returned prices, [HttpGet (tickers_request settings); Log INFO (FetchedTickers 2)]))
    as Hprices by (vm_compute; reflexivity).
  assert (get_wallex_usdt_markets world settings =
          (Returned markets, [HttpGet (markets_request settings)]))
    as Hmarkets by (vm_compute; reflexivity).
  assert (size prices ≠ 0) as Hsome by (vm_compute; discriminate).
  assert (markets ≠ []) as Hlisted by discriminate.
  destruct (one_request_per_listed_market world settings "wallex-key" prices _ markets _
              eq_refl eq_refl Hprices Hmarkets Hsome Hlisted) as [Hreturns Hrun].
  assert ((analyze_prices world settings).1 = Returned tt) as Hreturned.
  { apply Hreturns. repeat constructor; eexists; reflexivity. }
  rewrite Hreturned in Hrun. split; [exact Hreturned | exact Hrun].
Defined.

(** X6 on the sample cycle: the message sent is the signal of a market
    of the snapshot, whose percentage reached the threshold 1.5. *)
Lemma every_message_is_a_signal_witness :
  ∃ table t1 snapshot t2 symbol market_data a b base_asset,
    get_coincatch_prices world settings = (Returned table, t1) ∧
    get_wallex_usdt_markets world settings = (Returned snapshot, t2) ∧
    (symbol, market_data) ∈ snapshot ∧
    table !! symbol = Some b ∧
    f_leb 1.5%float (f_abs (f_mul (f_quot (f_sub a b) b) f_hundred)) = true ∧
    signal_text world "BTCUSDT" (JStr "BTC") 49000%float 50000%float (-2)%float =
    signal_text world symbol base_asset a b (f_mul (f_quot (f_sub a b) b) f_hundred).
Proof.
  pose (c := notification settings "123456:bot-token"
               (signal_text world "BTCUSDT" (JStr "BTC") 49000%float 50000%float (-2)%float)).
  assert (SendMessage c ∈ (analyze_prices world settings).2) as Hsent.
  { apply (list_elem_of_lookup_2 _ 12). vm_compute. reflexivity. }
  destruct (proj1 (every_message_is_a_signal world settings) c Hsent)
    as (table & t1 & snapshot & t2 & symbol & market_data & a & t & b & base_asset &
        Hprices & Hmarkets & Hin & _ & Hb & _ & Hreached & bot_token & _ & _ & Hc).
  exists table, t1, snapshot, t2, symbol, market_data, a, b, base_asset.
  split; [exact Hprices|]. split; [exact Hmarkets|].
  split; [exact Hin|]. split; [exact Hb|]. split; [exact Hreached|].
  exact (f_equal text Hc).
Defined.



(** X10 at a last trade that is no number. *)
Lemma nan_is_never_a_signal_witness :
  float_truthy nan = true ∧
  compare_prices world settings 1.5%float "BTCUSDT" (market "BTC" "USDT") nan 50000%float =
    (Returned tt,
     (comparison_lines "BTCUSDT" nan 50000%float ((nan - 50000) / 50000 * 100)%float ++
      [Print NoSignal])%list).
Proof.
  destruct (nan_is_never_a_signal world settings 1.5%float "BTCUSDT" (market "BTC" "USDT"))
    as (Htruthy & _ & Hquiet).
  split; [exact (Htruthy nan eq_refl)|].
  exact (Hquiet nan 50000%float (or_introl eq_refl) eq_refl).
Defined.

(** X11 at 50000 on both sides, under the threshold 1.5. *)
Lemma equal_prices_are_never_a_signal_witness :
  (classify ((50000 - 50000) / 50000 * 100)%float).1 = SELL ∧
  compare_prices world settings 1.5%float "BTCUSDT" (market "BTC" "USDT")
    50000%float 50000%float =
    (Returned tt,
     (comparison_lines "BTCUSDT" 50000%float 50000%float
        ((50000 - 50000) / 50000 * 100)%float ++ [Print NoSignal])%list).
Proof.
  destruct (equal_prices_are_never_a_signal world settings 1.5%float "BTCUSDT"
              (market "BTC" "USDT") 50000%float 50000%float eq_refl eq_refl)
    as (_ & Hside & Hquiet).
  split; [exact Hside | exact (Hquiet eq_refl)].
Defined.

(** X12 at -2 percent under the threshold 1.5. *)
Lemma profit_potential_is_the_magnitude_witness :
  classify (-2)%float = (BUY, 2%float) ∧
  (1.5 <=? (classify (-2)%float).2)%float = true ∧
  (0 <=? (classify (-2)%float).2)%float = true.
Proof.
  destruct (profit_potential_is_the_magnitude 1.5%float (-2)%float eq_refl)
    as (_ & Hpositive & Hreached & _).
  split; [reflexivity|]. split; [exact Hreached | exact Hpositive].
Defined.

(** X13 at 50000 on both sides, under the threshold 0. *)
Lemma threshold_of_zero_signals_every_pair_witness :
  compare_prices world settings 0%float "BTCUSDT" (market "BTC" "USDT")
    50000%float 50000%float =
    (Returned tt,
     (comparison_lines "BTCUSDT" 50000%float 50000%float 0%float ++
      Print SignalFound ::
      (send_telegram_message world settings
         (signal_text world "BTCUSDT" (JStr "BTC") 50000%float 50000%float 0%float)).2)%list).
Proof.
  exact (proj2 (threshold_of_zero_signals_every_pair world settings 0%float "BTCUSDT"
                  (market "BTC" "USDT") (JStr "BTC") 50000%float 50000%float
                  eq_refl eq_refl eq_refl eq_refl)).
Defined.

End MoreOnSamples.
